(** * BAF build engine: a shallow embedding of [src/baf/datatypes.py]

    Python objects live in a store ([heap]) addressed by references, so that
    object identity ([item is target]), parent links and in-place mutation
    are modelled as the source has them.  Exceptions are an explicit result
    type; Python's unbounded call depth is a [nat] budget whose exhaustion
    ([OutOfFuel]) is kept apart from every Python exception. *)

From Stdlib Require Import ZArith Lia List Strings.Byte.
From stdpp Require Import base numbers list strings pretty.

Set Warnings "-register-all".

Local Open Scope string_scope.
Local Open Scope list_scope.
Local Open Scope Z_scope.

(** ** Errors ([src/baf/errors.py]) *)

Inductive error_kind :=
| InternalError
| SpecError
| BuildError
| ValidationError
| DependencyError
| PyError (name : string).   (* built-in exceptions: TypeError, OverflowError, ... *)

Record exn := mk_exn { kind : error_kind; message : string; notes : list string }.

Inductive outcome (A : Type) :=
| Ok (a : A)
| Raise (e : exn)
| OutOfFuel.
Arguments Ok {A} a.
Arguments Raise {A} e.
Arguments OutOfFuel {A}.

Definition raise {A} (k : error_kind) (msg : string) : outcome A :=
  Raise (mk_exn k msg []).

Definition add_note (e : exn) (note : string) : exn :=
  mk_exn (kind e) (message e) (notes e ++ [note]).

Definition obind {A B} (x : outcome A) (f : A -> outcome B) : outcome B :=
  match x with
  | Ok a => f a
  | Raise e => Raise e
  | OutOfFuel => OutOfFuel
  end.

Notation "'let!' x ':=' c1 'in' c2" := (obind c1 (fun x => c2))
  (at level 10, x pattern, c1 at level 100, c2 at level 200).

Definition is_error_kind (k1 k2 : error_kind) : bool :=
  match k1, k2 with
  | InternalError, InternalError | SpecError, SpecError | BuildError, BuildError
  | ValidationError, ValidationError | DependencyError, DependencyError => true
  | PyError a, PyError b => String.eqb a b
  | _, _ => false
  end.

Definition raises {A} (x : outcome A) (k : error_kind) : Prop :=
  match x with Raise e => kind e = k | _ => False end.

(** ** Integer primitives *)

Inductive prim := U8 | U16 | U32 | S8 | S16 | S32 | I8 | I16 | I32.

Definition prim_name (p : prim) : string :=
  match p with
  | U8 => "U8" | U16 => "U16" | U32 => "U32"
  | S8 => "S8" | S16 => "S16" | S32 => "S32"
  | I8 => "I8" | I16 => "I16" | I32 => "I32"
  end.

Definition _bit_size (p : prim) : Z :=
  match p with
  | U8 | S8 | I8 => 8
  | U16 | S16 | I16 => 16
  | U32 | S32 | I32 => 32
  end.

(* Python parses [-2 ** 8 // 2] as [(-(2 ** 8)) // 2]. *)
Definition _min (p : prim) : Z :=
  match p with
  | U8 | U16 | U32 => 0
  | S8 => (- (2 ^ 8)) / 2
  | S16 => (- (2 ^ 16)) / 2
  | S32 => (- (2 ^ 32)) / 2
  | I8 => (- (2 ^ 8)) / 2
  | I16 => (- (2 ^ 16)) / 2
  | I32 => (- (2 ^ 32)) / 2
  end.

Definition _max (p : prim) : Z :=
  match p with
  | U8 => 2 ^ 8 - 1
  | U16 => 2 ^ 16 - 1
  | U32 => 2 ^ 32 - 1
  | S8 => 2 ^ 8 / 2 - 1
  | S16 => 2 ^ 16 / 2 - 1
  | S32 => 2 ^ 32 / 2 - 1
  | I8 => 2 ^ 8 - 1
  | I16 => 2 ^ 16 - 1
  | I32 => 2 ^ 32 - 1
  end.

(** [_Primitive.size] and [_Primitive.static_size]: [_bit_size // 8]. *)
Definition static_size (p : prim) : Z := _bit_size p / 8.

(** *** Bytes *)

Definition byte_of_Z (z : Z) : byte :=
  match Byte.of_N (Z.to_N (z mod 256)) with
  | Some b => b
  | None => x00
  end.

Definition Z_of_byte (b : byte) : Z := Z.of_N (Byte.to_N b).

(** [int.to_bytes(length, byteorder, signed=...)] with the default
    [byteorder='big'] (the source passes no byte order): the base-256 digits
    of the two's-complement pattern, most significant first. *)
Fixpoint be_digits (n : nat) (u : Z) : list byte :=
  match n with
  | O => []
  | S n' => be_digits n' (u / 256) ++ [byte_of_Z (u mod 256)]
  end.

Definition to_bytes (v : Z) (nbytes : Z) (signed : bool) : outcome (list byte) :=
  if nbytes <? 0 then raise (PyError "ValueError") "length argument must be non-negative"
  else if negb signed && (v <? 0) then
    raise (PyError "OverflowError") "can't convert negative int to unsigned"
  else
    let bits := 8 * nbytes in
    let fits :=
      if nbytes =? 0 then v =? 0
      else if signed then (- 2 ^ (bits - 1) <=? v) && (v <? 2 ^ (bits - 1))
      else v <? 2 ^ bits in
    if fits then Ok (be_digits (Z.to_nat nbytes) (v mod 2 ^ bits))
    else raise (PyError "OverflowError") "int too big to convert".

(** *** Reference encodings, from the words of the specification *)

(** The [w]-bit two's-complement pattern of [v]. *)
Definition twos_complement (w : Z) (v : Z) : Z := v mod 2 ^ w.

(** Byte [i] of the little-endian encoding is digit [i] in base 256. *)
Definition le_encode (n : nat) (u : Z) : list byte :=
  map (fun i : nat => byte_of_Z (u / 256 ^ Z.of_nat i)) (seq 0 n).

Definition be_encode (n : nat) (u : Z) : list byte := rev (le_encode n u).

Definition little_endian_twos_complement (p : prim) (v : Z) : list byte :=
  le_encode (Z.to_nat (_bit_size p / 8)) (twos_complement (_bit_size p) v).

Definition big_endian_twos_complement (p : prim) (v : Z) : list byte :=
  be_encode (Z.to_nat (_bit_size p / 8)) (twos_complement (_bit_size p) v).

(** ** Python values and objects *)

Definition ref := nat.

(** The input tree ([Any] in the source): decoded JSON/TOML values, tuples
    for the packed-type protocol, and datum objects by reference. *)
Inductive any :=
| VNone
| VBool (b : bool)
| VInt (z : Z)
| VStr (s : string)
| VBytes (bs : list byte)
| VBytearray (bs : list byte)
| VList (xs : list any)
| VTuple (xs : list any)
| VDict (kv : list (string * any))
| VDatum (r : ref).

(** [type(data).__name__] for values that are not datum objects. *)
Definition value_type_name (d : any) : string :=
  match d with
  | VNone => "NoneType" | VBool _ => "bool" | VInt _ => "int" | VStr _ => "str"
  | VBytes _ => "bytes" | VBytearray _ => "bytearray" | VList _ => "list"
  | VTuple _ => "tuple" | VDict _ => "dict" | VDatum _ => "Datatype"
  end.

(** [isinstance(data, Sequence)] together with the elements that iterating
    the sequence yields. *)
Definition as_sequence (d : any) : option (list any) :=
  match d with
  | VList xs | VTuple xs => Some xs
  | VStr s => Some (map (fun c => VStr (String c EmptyString)) (String.list_ascii_of_string s))
  | VBytes bs | VBytearray bs => Some (map (fun b => VInt (Z_of_byte b)) bs)
  | _ => None
  end.

Fixpoint dict_get (kv : list (string * any)) (k : string) : option any :=
  match kv with
  | [] => None
  | (k', v) :: rest => if String.eqb k' k then Some v else dict_get rest k
  end.

(** Classes.  [CUser n] is the [n]-th class of the schema's class table. *)
Inductive cls :=
| CDatatypeBase | CDatatype | CGenDatatype | CContainer | C_Primitive
| CPrim (p : prim) | CBytes | CFile | CBlock | CArray | COptional | CAlign
| CUser (n : nat).

Global Instance prim_eq_dec : EqDecision prim.
Proof. solve_decision. Defined.
Global Instance cls_eq_dec : EqDecision cls.
Proof. solve_decision. Defined.

(** A node of the instance tree as a Python expression reaches it: an object
    of the store, or the fresh default instance [Array.get_items] makes from
    the element model of an array ([self._model.instantiate(self)]); the
    latter is a new object on every call, identical to nothing else. *)
Inductive handle :=
| Ref (r : ref)
| Default (array : handle).

Definition handle_is (a b : handle) : bool :=
  match a, b with
  | Ref x, Ref y => Nat.eqb x y
  | _, _ => false
  end.

(** The first type argument of [__orig_class__]. *)
Inductive generic := GTypeVar | GClass (c : cls).

Inductive body :=
| BPrim (p : prim) (_data : option Z)
| BBytes (_size : option Z) (_data : option (list byte))
| BFile (_data : option (list byte))
| BBlock (attrs : list (string * ref))
| BArray (_model : option ref) (_item_count : option Z) (_items : list ref)
| BOptional (model : ref) (_item : option ref)
| BAlign (_align_size : Z) (_pad_amount : option Z).

Record obj := mk_obj {
  cls_of : cls;                       (* type(self) *)
  parent : option handle;
  _is_instance : bool;
  _is_built : bool;
  orig_class : option generic;        (* __orig_class__ *)
  _generic_type : option generic;
  _default_value : option any;
  body_of : body
}.

Abbreviation heap := (list obj).

Definition set_body (b : body) (o : obj) : obj :=
  mk_obj (cls_of o) (parent o) (_is_instance o) (_is_built o) (orig_class o)
         (_generic_type o) (_default_value o) b.

Definition set_built (o : obj) : obj :=
  mk_obj (cls_of o) (parent o) (_is_instance o) true (orig_class o)
         (_generic_type o) (_default_value o) (body_of o).

Fixpoint attrs_get (attrs : list (string * ref)) (k : string) : option ref :=
  match attrs with
  | [] => None
  | (k', r) :: rest => if String.eqb k' k then Some r else attrs_get rest k
  end.

Fixpoint attrs_set (attrs : list (string * ref)) (k : string) (r : ref) : list (string * ref) :=
  match attrs with
  | [] => [(k, r)]
  | (k', r') :: rest => if String.eqb k' k then (k, r) :: rest
                        else (k', r') :: attrs_set rest k r
  end.

(** Stores to the fields of a datum, [self.<field> = value]: each changes
    the field it names in the body that has it. *)
Definition store_int (v : Z) (b : body) : body :=
  match b with
  | BPrim p _ => BPrim p (Some v)
  | _ => b
  end.

Definition store_data (bs : list byte) (b : body) : body :=
  match b with
  | BBytes sz _ => BBytes sz (Some bs)
  | BFile _ => BFile (Some bs)
  | _ => b
  end.

Definition store_attr (name : string) (item : ref) (b : body) : body :=
  match b with
  | BBlock attrs => BBlock (attrs_set attrs name item)
  | _ => b
  end.

Definition store_model (m : ref) (b : body) : body :=
  match b with
  | BArray _ c its => BArray (Some m) c its
  | _ => b
  end.

Definition store_item_count (c : Z) (b : body) : body :=
  match b with
  | BArray m _ its => BArray m (Some c) its
  | _ => b
  end.

Definition store_items (its : list ref) (b : body) : body :=
  match b with
  | BArray m c _ => BArray m c its
  | _ => b
  end.

Definition store_item (item : ref) (b : body) : body :=
  match b with
  | BOptional m _ => BOptional m (Some item)
  | _ => b
  end.

Definition store_pad_amount (pad : Z) (b : body) : body :=
  match b with
  | BAlign a _ => BAlign a (Some pad)
  | _ => b
  end.

(** Which class of datum a body is the state of. *)
Definition body_kind (b : body) : cls :=
  match b with
  | BPrim _ _ => C_Primitive
  | BBytes _ _ => CBytes
  | BFile _ => CFile
  | BBlock _ => CBlock
  | BArray _ _ _ => CArray
  | BOptional _ _ => COptional
  | BAlign _ _ => CAlign
  end.

(** What a setter may query: sizes, offsets and bytes of data of the tree. *)
Record api := mk_api {
  api_size : heap -> handle -> outcome Z;
  api_offset : heap -> handle -> outcome Z;
  api_get_bytes : heap -> handle -> outcome (list byte)
}.

(** A setter [set_<field>(self, base_data)] reads the tree and returns the
    field's data, or raises. *)
Definition setter_fn := api -> heap -> ref -> any -> outcome any.

Inductive attr :=
| AFunc (f : setter_fn)
| AValue (v : any).

Record class_def := mk_class {
  c_name : string;
  c_base : cls;
  c_dict : list (string * attr)      (* cls.__dict__, in declaration order *)
}.

Definition class_table := list class_def.

Fixpoint attr_get (d : list (string * attr)) (k : string) : option attr :=
  match d with
  | [] => None
  | (k', v) :: rest => if String.eqb k' k then Some v else attr_get rest k
  end.

Definition startswith (k prefix : string) : bool := String.prefix prefix k.

Definition is_datum (v : attr) : option ref :=
  match v with
  | AValue (VDatum r) => Some r
  | _ => None
  end.

(** [{k:v for (k, v) in cls.__dict__.items()
       if not k.startswith('_') and isinstance(v, DatatypeBase)}] *)
Fixpoint fields_of_dict (d : list (string * attr)) : list (string * ref) :=
  match d with
  | [] => []
  | (k, v) :: rest =>
      match is_datum v with
      | Some r => if startswith k "_" then fields_of_dict rest
                  else (k, r) :: fields_of_dict rest
      | None => fields_of_dict rest
      end
  end.

(** The work list of [Block._process] ([_BlockItem]). *)
Record BlockItem := mk_item {
  name : string;
  model : ref;
  base_data : any;
  data : any;
  setter : option attr;
  setter_done : bool;
  done : bool
}.

Definition with_data (it : BlockItem) (d : any) : BlockItem :=
  mk_item (name it) (model it) (base_data it) d (setter it) (setter_done it) (done it).


Definition with_setter_done (it : BlockItem) : BlockItem :=
  mk_item (name it) (model it) (base_data it) (data it) (setter it) true (done it).

Definition with_done (it : BlockItem) : BlockItem :=
  mk_item (name it) (model it) (base_data it) (data it) (setter it) (setter_done it) true.

(** ** The store monad *)

Definition M (A : Type) : Type := heap -> outcome A * heap.

Definition ret {A} (a : A) : M A := fun h => (Ok a, h).

Definition bind {A B} (m : M A) (f : A -> M B) : M B :=
  fun h => match m h with
           | (Ok a, h') => f a h'
           | (Raise e, h') => (Raise e, h')
           | (OutOfFuel, h') => (OutOfFuel, h')
           end.

Notation "'let*' x ':=' c1 'in' c2" := (bind c1 (fun x => c2))
  (at level 10, x pattern, c1 at level 100, c2 at level 200).

(** A computation that only reads the store. *)
Definition reading {A} (f : heap -> outcome A) : M A := fun h => (f h, h).

Definition throw {A} (k : error_kind) (msg : string) : M A := fun h => (raise k msg, h).

Definition alloc (o : obj) : M ref := fun h => (Ok (length h), h ++ [o]).

Definition modify (r : ref) (f : obj -> obj) : M unit :=
  fun h => match h !! r with
           | Some o => (Ok tt, <[r := f o]> h)
           | None => (raise InternalError "dangling reference", h)
           end.

Definition assign (self : ref) (f : body -> body) : M unit :=
  modify self (fun o => set_body (f (body_of o)) o).

(** ** The field-resolution loop of [Block._process]

    The loop is written over an arbitrary [build_item], the attempt to build
    one entry ([item.build(self)]), which returns the entry as the attempt
    left it. *)

Section Resolver.

Variable build_item : BlockItem -> heap -> outcome unit * BlockItem * heap.
(* the note that [except Exception as e] adds before re-raising *)
Variable note : BlockItem -> string.

(** One run of [for item in blockitems]: the entries afterwards, and
    [progress]. *)
Fixpoint Block_pass (items : list BlockItem) (progress : bool) (h : heap)
  : outcome (list BlockItem * bool) * heap :=
  match items with
  | [] => (Ok ([], progress), h)
  | item :: rest =>
      if done item then
        match Block_pass rest progress h with
        | (Ok (rest', p), h') => (Ok (item :: rest', p), h')
        | (Raise e, h') => (Raise e, h')
        | (OutOfFuel, h') => (OutOfFuel, h')
        end
      else
        match build_item item h with
        | (Ok _, item', h1) =>
            match Block_pass rest true h1 with
            | (Ok (rest', p), h') => (Ok (item' :: rest', p), h')
            | (Raise e, h') => (Raise e, h')
            | (OutOfFuel, h') => (OutOfFuel, h')
            end
        | (Raise e, item', h1) =>
            if is_error_kind (kind e) DependencyError then
              match Block_pass rest progress h1 with
              | (Ok (rest', p), h') => (Ok (item' :: rest', p), h')
              | (Raise e', h') => (Raise e', h')
              | (OutOfFuel, h') => (OutOfFuel, h')
              end
            else (Raise (add_note e (note item)), h1)
        | (OutOfFuel, _, h1) => (OutOfFuel, h1)
        end
  end.

Definition join_names (names : list string) : string :=
  match names with
  | [] => ""
  | n :: rest => fold_left (fun acc m => acc +:+ ", " +:+ m) rest n
  end.

Definition unresolved (items : list BlockItem) : list string :=
  map name (List.filter (fun it => negb (done it)) items).


Definition cyclical_message (items : list BlockItem) : string :=
  "Could not resolve dependencies. Check for cyclical dependencies in: "
  +:+ join_names (unresolved items).

(** [while any(not blockitem.done for blockitem in blockitems)], at most
    [passes] times round. *)
Fixpoint Block_loop (passes : nat) (items : list BlockItem) (h : heap) : outcome unit * heap :=
  if forallb done items then (Ok tt, h)
  else
    match passes with
    | O => (OutOfFuel, h)
    | S passes' =>
        match Block_pass items false h with
        | (Ok (items', progress), h') =>
            if progress then Block_loop passes' items' h'
            else (raise BuildError (cyclical_message items'), h')
        | (Raise e, h') => (Raise e, h')
        | (OutOfFuel, h') => (OutOfFuel, h')
        end
    end.



End Resolver.

(** ** Paths

    [pathlib] on a POSIX system: a path is an anchor (nothing, [/] or [//])
    and the components between the slashes, without the empty ones and the
    dots; [str] writes them back with single slashes. *)

Fixpoint path_split (s : string) : list string :=
  match s with
  | EmptyString => [EmptyString]
  | String c s' =>
      if String.eqb (String c EmptyString) "/" then EmptyString :: path_split s'
      else match path_split s' with
           | [] => [String c EmptyString]
           | x :: xs => String c x :: xs
           end
  end.

Definition path_parts (s : string) : list string :=
  List.filter (fun p => negb (String.eqb p "" || String.eqb p ".")) (path_split s).

(** Exactly two leading slashes are kept, three or more are one. *)
Definition path_anchor (s : string) : string :=
  if String.prefix "///" s then "/"
  else if String.prefix "//" s then "//"
  else if String.prefix "/" s then "/"
  else "".

(** [str(path)] *)
Definition path_render (anchor : string) (parts : list string) : string :=
  match parts with
  | [] => if String.eqb anchor "" then "." else anchor
  | _ => anchor +:+ String.concat "/" parts
  end.

(** [str(Path(s))] *)
Definition path_str (s : string) : string := path_render (path_anchor s) (path_parts s).

(** [Path(s).is_absolute()] *)
Definition path_is_absolute (s : string) : bool := negb (String.eqb (path_anchor s) "").

(** [str(root / Path(s))] for a relative [s]. *)
Definition path_join (root s : string) : string :=
  path_render (path_anchor root) (path_parts root ++ path_parts s).

(** ** The class hierarchy *)

Definition builtin_base (c : cls) : option cls :=
  match c with
  | CDatatypeBase => None
  | CDatatype | CGenDatatype | COptional => Some CDatatypeBase
  | CContainer | C_Primitive | CBytes | CFile => Some CDatatype
  | CPrim _ => Some C_Primitive
  | CBlock | CArray => Some CContainer
  | CAlign => Some CGenDatatype
  | CUser _ => None
  end.

Definition builtin_name (c : cls) : string :=
  match c with
  | CDatatypeBase => "DatatypeBase" | CDatatype => "Datatype"
  | CGenDatatype => "GenDatatype" | CContainer => "Container"
  | C_Primitive => "_Primitive" | CPrim p => prim_name p
  | CBytes => "Bytes" | CFile => "File" | CBlock => "Block"
  | CArray => "Array" | COptional => "Optional" | CAlign => "Align"
  | CUser _ => "?"
  end.

Section Engine.

(** The schema's classes, and the ambient state of [baf/__init__.py]: the
    root directory ([baf.root_path], unset until a file is built) and the
    files that can be read. *)
Variable ct : class_table.
Variable root_path : option string.
Variable fs : string -> option (list byte).

Definition base_of (c : cls) : option cls :=
  match c with
  | CUser n => c_base <$> ct !! n
  | _ => builtin_base c
  end.

Definition type_name (c : cls) : string :=
  match c with
  | CUser n => match ct !! n with Some d => c_name d | None => "?" end
  | _ => builtin_name c
  end.

(** [cls.__dict__] restricted to what the engine looks up in it: the
    attributes a schema author declares.  Built-in classes declare no field
    and no setter. *)
Definition class_dict (c : cls) : list (string * attr) :=
  match c with
  | CUser n => match ct !! n with Some d => c_dict d | None => [] end
  | _ => []
  end.

Fixpoint mro_from (n : nat) (c : cls) : list cls :=
  c :: match n with
       | O => []
       | S n' => match base_of c with
                 | Some b => mro_from n' b
                 | None => []
                 end
       end.

(** The linearisation of single inheritance: a class and its bases. *)
Definition mro (c : cls) : list cls := mro_from (length ct + 5) c.

Definition issubclass (c d : cls) : bool := bool_decide (d ∈ mro c).

(** [Block._fields]: a classmethod reading the class's own [__dict__]. *)
Definition _fields (c : cls) : list (string * ref) := fields_of_dict (class_dict c).

(** Attribute lookup through the classes of the MRO. *)
Fixpoint class_getattr (cs : list cls) (k : string) : option attr :=
  match cs with
  | [] => None
  | c :: rest => match attr_get (class_dict c) k with
                 | Some a => Some a
                 | None => class_getattr rest k
                 end
  end.

(** [getattr(self, k, None)]: the instance's attributes, then the classes. *)
Definition getattr (o : obj) (k : string) : option attr :=
  match body_of o with
  | BBlock attrs =>
      match attrs_get attrs k with
      | Some r => Some (AValue (VDatum r))
      | None => class_getattr (mro (cls_of o)) k
      end
  | _ => class_getattr (mro (cls_of o)) k
  end.

Definition hasattr (o : obj) (k : string) : bool :=
  match getattr o k with Some _ => true | None => false end.

(** ** Reading the store *)

(** [DatatypeBase.instantiate] on the copied object ([copy.copy(self)]). *)
Definition instantiate_obj (o : obj) (p : option handle)
           (parent_generic : outcome (option generic)) : outcome obj :=
  if _is_built o then
    raise BuildError "Attempted to instantiate from a datum that is building or already built"
  else
    let g := match orig_class o with
             | Some g => Some g
             | None => _generic_type o
             end in
    let! g' := match g with
               | Some GTypeVar =>
                   match p with
                   | None => raise InternalError "Datum with TypeVar does not have a parent"
                   | Some _ => parent_generic   (* parent._generic_type *)
                   end
               | _ => Ok g
               end in
    Ok (mk_obj (cls_of o) p true (_is_built o) (orig_class o) g' (_default_value o) (body_of o)).

Definition lookup_ref (h : heap) (r : ref) : outcome obj :=
  match h !! r with
  | Some o => Ok o
  | None => raise InternalError "dangling reference"
  end.

Fixpoint deref (h : heap) (x : handle) : outcome obj :=
  match x with
  | Ref r => lookup_ref h r
  | Default a =>
      let! oa := deref h a in
      match body_of oa with
      | BArray (Some m) _ _ =>
          let! om := lookup_ref h m in
          instantiate_obj om (Some a) (Ok (_generic_type oa))
      | _ => raise InternalError "Array still has no inferred type in get_items()"
      end
  end.

Definition isinstance (h : heap) (r : ref) (c : cls) : bool :=
  match h !! r with
  | Some o => issubclass (cls_of o) c
  | None => false
  end.

(** [Block.get_items] and [Array.get_items]. *)
Definition get_items (h : heap) (x : handle) (o : obj) (default_if_missing : bool)
  : outcome (list handle) :=
  match body_of o with
  | BBlock attrs =>
      (* [getattr(self, name)] finds the instance attribute, or else the
         class attribute of that name, which is the model itself *)
      Ok (map (fun '(name, default) =>
                 match attrs_get attrs name with
                 | Some r => Ref r
                 | None => Ref default
                 end) (_fields (cls_of o)))
  | BArray m count its =>
      let items := map Ref its in
      match count with
      | None =>
          match items with
          | [] => raise DependencyError "Cannot get items of un-built Array with unknown size"
          | _ => Ok items
          end
      | Some c =>
          let items_left := c - Z.of_nat (length its) in
          if (0 <? items_left) && negb default_if_missing then
            raise DependencyError "Array is not finished building"
          else
            match m with
            | None => raise InternalError "Array still has no inferred type in get_items()"
            | Some _ =>
                (* [[self._model.instantiate(self)] * items_left]: the
                   instance is made first, whatever [items_left] is *)
                let! _ := deref h (Default x) in
                Ok (items ++ repeat (Default x) (Z.to_nat items_left))
            end
      end
  | _ => raise (PyError "AttributeError") "object has no attribute 'get_items'"
  end.

(** [bool(x)] of a datum: [Array] defines [__len__], [Optional] defines
    [__bool__]; every other datum is true. *)
Definition Array_len (h : heap) (x : handle) (o : obj) : outcome Z :=
  match body_of o with
  | BArray _ (Some c) _ => Ok c
  | _ => let! items := get_items h x o true in Ok (Z.of_nat (length items))
  end.

Definition datum_truth (h : heap) (x : handle) : outcome bool :=
  let! o := deref h x in
  match body_of o with
  | BArray _ _ _ =>
      let! n := Array_len h x o in
      if n <? 0 then raise (PyError "ValueError") "__len__() should return >= 0"
      else Ok (negb (n =? 0))
  | BOptional _ it =>
      if negb (_is_built o) then raise DependencyError "Optional is ambiguous until it is built"
      else Ok (match it with Some _ => true | None => false end)
  | _ => Ok true
  end.

Fixpoint sum_sizes (sz : handle -> outcome Z) (items : list handle) : outcome Z :=
  match items with
  | [] => Ok 0
  | item :: rest =>
      let! s := sz item in
      let! t := sum_sizes sz rest in
      Ok (s + t)
  end.

(** The loop of [Container.offset_of]. *)
Fixpoint offset_of_loop (sz : handle -> outcome Z) (items : list handle)
         (target : handle) (offset : Z) : outcome Z :=
  match items with
  | [] => raise InternalError "Could not find self in parent"
  | item :: rest =>
      if handle_is item target then Ok offset
      else let! s := sz item in offset_of_loop sz rest target (offset + s)
  end.

Definition offset_of_with (sz : handle -> outcome Z) (h : heap)
           (container target : handle) : outcome Z :=
  let! c := deref h container in
  let! items := get_items h container c true in
  offset_of_loop sz items target 0.

(** [DatatypeBase.offset]: relative to the parent; 0 for the root. *)
Definition offset_with (sz : handle -> outcome Z) (h : heap) (x : handle) : outcome Z :=
  let! o := deref h x in
  match parent o with
  | None => Ok 0
  | Some p => offset_of_with sz h p x
  end.

(** One call of [size()], the nested calls being [sz]. *)
Definition size_step (sz : handle -> outcome Z) (h : heap) (x : handle) : outcome Z :=
  let! o := deref h x in
  match body_of o with
  | BPrim p _ => Ok (_bit_size p / 8)
  | BBytes (Some s) _ => Ok s
  | BBytes None None => raise DependencyError "Size of Bytes is not yet known"
  | BBytes None (Some bs) => Ok (Z.of_nat (length bs))
  | BFile None => raise DependencyError "Size of File is not yet known"
  | BFile (Some bs) => Ok (Z.of_nat (length bs))
  | BBlock _ | BArray _ _ _ =>
      let! items := get_items h x o true in
      sum_sizes sz items
  | BOptional _ it =>
      if negb (_is_built o) then
        raise DependencyError "Cannot get size of Optional before it's built"
      else
        match it with
        | None => Ok 0
        | Some i =>
            let! t := datum_truth h (Ref i) in
            if t then sz (Ref i) else Ok 0
        end
  | BAlign align _ =>
      let! off := offset_with sz h x in
      if align =? 0 then raise (PyError "ZeroDivisionError") "integer modulo by zero"
      else Ok ((align - off mod align) mod align)
  end.

Fixpoint size (n : nat) (h : heap) (x : handle) : outcome Z :=
  match n with
  | O => OutOfFuel
  | S n' => size_step (size n' h) h x
  end.


Definition offset (n : nat) (h : heap) (x : handle) : outcome Z :=
  offset_with (size n h) h x.

Fixpoint join_bytes (gb : handle -> outcome (list byte)) (items : list handle)
  : outcome (list byte) :=
  match items with
  | [] => Ok []
  | item :: rest =>
      let! b := gb item in
      let! bs := join_bytes gb rest in
      Ok (b ++ bs)
  end.

(** [DatatypeBase.get_bytes] and the [_get_bytes] of each class. *)
Definition get_bytes_step (gb : handle -> outcome (list byte)) (h : heap) (x : handle)
  : outcome (list byte) :=
  let! o := deref h x in
  if negb (_is_instance o) then
    raise BuildError "Attempted to get bytes from a non-instantiated model"
  else if negb (_is_built o) then
    raise BuildError "Attempted to get bytes from a datum that has not yet been built"
  else
    match body_of o with
    | BPrim p None => raise BuildError "Primitive does not yet have a value"
    | BPrim p (Some v) => to_bytes v (_bit_size p / 8) (v <? 0)
    | BBytes _ None | BFile None =>
        raise (PyError "AttributeError") "object has no attribute '_data'"
    | BBytes _ (Some bs) | BFile (Some bs) => Ok bs
    | BBlock _ | BArray _ _ _ =>
        let! items := get_items h x o false in
        join_bytes gb items
    | BOptional _ None => Ok []
    | BOptional _ (Some i) =>
        let! t := datum_truth h (Ref i) in
        if t then gb (Ref i) else Ok []
    | BAlign _ None => raise BuildError "Cannot get bytes before having been built"
    | BAlign _ (Some pad) =>
        if pad <? 0 then raise (PyError "ValueError") "negative count"
        else Ok (repeat x00 (Z.to_nat pad))
    end.

Fixpoint get_bytes (n : nat) (h : heap) (x : handle) : outcome (list byte) :=
  match n with
  | O => OutOfFuel
  | S n' => get_bytes_step (get_bytes n' h) h x
  end.

(** The offset a visualizer prints ([f_global_offset] in [baf/__init__.py]):
    the offsets of a datum and of its ancestors, added up. *)
Fixpoint global_offset (depth n : nat) (h : heap) (x : handle) : outcome Z :=
  let! off := offset n h x in
  let! o := deref h x in
  match parent o, depth with
  | None, _ => Ok off
  | Some p, S d => let! up := global_offset d n h p in Ok (off + up)
  | Some _, O => OutOfFuel
  end.

(** ** Mutating the store *)

(** [setattr(block, name, item)] *)
Definition setattr (r : ref) (name : string) (item : ref) : M unit :=
  assign r (store_attr name item).

(** [DatatypeBase.instantiate]: the copy is a new object. *)
Definition instantiate (r : ref) (p : option handle) : M ref :=
  let* o' := reading (fun h =>
          let! o := lookup_ref h r in
          instantiate_obj o p
            (match p with
             | Some ph => let! po := deref h ph in Ok (_generic_type po)
             | None => Ok None
             end)) in
  alloc o'.

(** *** Constructors of models *)

Definition new_obj (c : cls) (default : option any) (b : body) : obj :=
  mk_obj c None false false None None default b.

Definition new_prim (p : prim) (default : option any) : M ref :=
  alloc (new_obj (CPrim p) default (BPrim p None)).

Definition new_Bytes (size : option Z) (default : option any) : M ref :=
  alloc (new_obj CBytes default (BBytes size None)).

Definition new_File (default : option any) : M ref :=
  alloc (new_obj CFile default (BFile None)).

Definition new_Array (model : option ref) (item_count : option Z) (default : option any) : M ref :=
  alloc (new_obj CArray default (BArray model item_count [])).

Definition new_Optional (model : ref) : M ref :=
  alloc (new_obj COptional None (BOptional model None)).

Definition new_Align (align_size : Z) : M ref :=
  alloc (new_obj CAlign None (BAlign align_size None)).

(** [Align(datum)]: the alignment is the datum's size. *)
Definition new_Align_of (n : nat) (datum : ref) : M ref :=
  let* a := reading (fun h => size n h (Ref datum)) in
  new_Align a.

Fixpoint init_fields (self : ref) (fields : list (string * ref)) : M unit :=
  match fields with
  | [] => ret tt
  | (name, model) :: rest =>
      let* item := instantiate model (Some (Ref self)) in
      let* _ := setattr self name item in
      init_fields self rest
  end.

(** [Block.__init__]: every field is instantiated with the new object as
    its parent. *)
Definition new_Block (c : cls) (default : option any) : M ref :=
  let* self := alloc (new_obj c None (BBlock [])) in
  let* _ := init_fields self (_fields c) in
  let* _ := modify self (fun o => mk_obj (cls_of o) (parent o) (_is_instance o) (_is_built o)
                              (orig_class o) (_generic_type o) default (body_of o)) in
  ret self.

(** [Array[T](...)]: the generic alias records [__orig_class__]. *)
Definition with_orig_class (g : generic) (r : ref) : M unit :=
  modify r (fun o => mk_obj (cls_of o) (parent o) (_is_instance o) (_is_built o)
                       (Some g) (_generic_type o) (_default_value o) (body_of o)).

(** [self._generic_type()]: the class called with no argument. *)
Definition construct (g : generic) : M ref :=
  match g with
  | GTypeVar => throw (PyError "TypeError") "'TypeVar' object is not callable"
  | GClass c =>
      if issubclass c CBlock then new_Block c None
      else match c with
           | CPrim p => new_prim p None
           | CBytes => new_Bytes None None
           | CFile => new_File None
           | CArray => new_Array None None None
           | COptional | CAlign =>
               throw (PyError "TypeError") "missing 1 required positional argument"
           | _ => throw (PyError "TypeError") "Can't instantiate abstract class"
           end
  end.

(** ** Building *)

Definition py_type_name (h : heap) (d : any) : string :=
  match d with
  | VDatum r => match h !! r with Some o => type_name (cls_of o) | None => "?" end
  | _ => value_type_name d
  end.

(** [Container._is_packed_type]: looking for [(SomeType, data)]. *)
Definition _is_packed_type (d : any) : bool :=
  match d with
  | VTuple [VDatum _; _] => true
  | _ => false
  end.

Definition refinement_message (sub_cls m_cls : cls) : string :=
  "Dynamically-resolved Datatype " +:+ type_name sub_cls
  +:+ " is not a child of " +:+ type_name m_cls.

(** [Container._unpack_type] *)
Definition _unpack_type (h : heap) (m : ref) (d : any) : outcome (ref * any) :=
  if negb (_is_packed_type d) then Ok (m, d)
  else
    match d with
    | VTuple [VDatum new_model; payload] =>
        let! nm := lookup_ref h new_model in
        let! mo := lookup_ref h m in
        if negb (issubclass (cls_of nm) (cls_of mo)) then
          raise BuildError (refinement_message (cls_of nm) (cls_of mo))
        else Ok (new_model, payload)
    | _ => Ok (m, d)
    end.

(** [isinstance(data, type(model))] for an input value. *)
Definition data_isinstance (h : heap) (d : any) (m : ref) : bool :=
  match d, h !! m with
  | VDatum r, Some mo => isinstance h r (cls_of mo)
  | _, _ => false
  end.

Definition has_default (o : obj) : bool :=
  match _default_value o with
  | None | Some VNone => false
  | Some _ => true
  end.

(** [_Primitive._preprocess] *)
Definition Primitive_preprocess (h : heap) (c : cls) (p : prim) (d : any) : outcome Z :=
  match d with
  | VInt v =>
      if (v <? _min p) || (_max p <? v) then
        raise ValidationError ("Value " +:+ pretty v +:+ " outside of " +:+ type_name c
                               +:+ " range, must be " +:+ pretty (_min p) +:+ " to "
                               +:+ pretty (_max p))
      else Ok v
  | _ => raise ValidationError ("Expected int, received " +:+ py_type_name h d)
  end.

(** [Bytes._preprocess] *)
Definition Bytes_preprocess (h : heap) (size : option Z) (d : any) : outcome (list byte) :=
  match d with
  | VBytes bs | VBytearray bs =>
      match size with
      | Some s =>
          if negb (Z.of_nat (length bs) =? s) then
            raise ValidationError ("Expected " +:+ pretty s +:+ " bytes but data is "
                                   +:+ pretty (Z.of_nat (length bs)) +:+ " bytes")
          else Ok bs
      | None => Ok bs
      end
  | _ => raise ValidationError ("Expected bytes type, received " +:+ py_type_name h d)
  end.

(** [File._preprocess] *)
Definition File_preprocess (h : heap) (d : any) : outcome (list byte) :=
  match d with
  | VStr s =>
      let! path := (if path_is_absolute s then Ok (path_str s)
                    else match root_path with
                         | Some root => Ok (path_join root s)
                         | None => raise (PyError "AttributeError")
                                         "module 'baf' has no attribute 'root_path'"
                         end) in
      match fs path with
      | None => raise ValidationError ("File does not exist: " +:+ path)
      | Some bs => Ok bs
      end
  | _ => raise ValidationError ("File datatype expected PathLike or str, received "
                                +:+ py_type_name h d)
  end.

(** [Block._preprocess]: the preflight validation. *)
Fixpoint Block_preflight (h : heap) (o : obj) (kv : list (string * any))
         (fields : list (string * ref)) : outcome unit :=
  match fields with
  | [] => Ok tt
  | (nm, m) :: rest =>
      let! mo := lookup_ref h m in
      if (issubclass (cls_of mo) CGenDatatype || issubclass (cls_of mo) COptional)
         || (issubclass (cls_of mo) CDatatype && has_default mo) then
        Block_preflight h o kv rest
      else if (match dict_get kv nm with Some _ => true | None => false end)
              || hasattr o ("set_" +:+ nm) then
        Block_preflight h o kv rest
      else raise ValidationError ("No setter or dict value found for " +:+ nm)
  end.

Definition Block_preprocess (h : heap) (o : obj) (d : any) : outcome (list (string * any)) :=
  match d with
  | VDict kv => let! _ := Block_preflight h o kv (_fields (cls_of o)) in Ok kv
  | _ => raise ValidationError ("Expected dict, received " +:+ py_type_name h d)
  end.

(** Truth value of what [getattr(self, 'set_' + name, None)] returned. *)
Definition value_truth (h : heap) (v : any) : outcome bool :=
  match v with
  | VNone => Ok false
  | VBool b => Ok b
  | VInt z => Ok (negb (z =? 0))
  | VStr s => Ok (negb (String.eqb s ""))
  | VBytes bs | VBytearray bs => Ok (match bs with [] => false | _ => true end)
  | VList xs | VTuple xs => Ok (match xs with [] => false | _ => true end)
  | VDict kv => Ok (match kv with [] => false | _ => true end)
  | VDatum r => datum_truth h (Ref r)
  end.

Definition attr_truth (h : heap) (a : attr) : outcome bool :=
  match a with
  | AFunc _ => Ok true
  | AValue v => value_truth h v
  end.

(** The first statement of [_BlockItem.build]: run the setter once. *)
Definition run_setter (a : api) (h : heap) (parent_ : ref) (it : BlockItem) : outcome BlockItem :=
  match setter it with
  | None => Ok it
  | Some s =>
      let! t := attr_truth h s in
      if t && negb (setter_done it) then
        match s with
        | AFunc f =>
            let! v := f a h parent_ (base_data it) in
            Ok (with_setter_done (with_data it v))
        | AValue _ => raise (PyError "TypeError") "object is not callable"
        end
      else Ok it
  end.

(** The rest of [_BlockItem.build]: install the field. *)
Definition install_item (build_rec : ref -> any -> M unit) (parent_ : ref) (it : BlockItem)
  : M unit :=
  fun h =>
    if data_isinstance h (data it) (model it) then
      match data it with
      | VDatum r => setattr parent_ (name it) r h
      | _ => (Ok tt, h)
      end
    else
      (let* um := reading (fun h => _unpack_type h (model it) (data it)) in
       let* item := instantiate (fst um) (Some (Ref parent_)) in
       let* _ := setattr parent_ (name it) item in
       build_rec item (snd um)) h.

Definition BlockItem_build (build_rec : ref -> any -> M unit) (a : api) (parent_ : ref)
           (it : BlockItem) (h : heap) : outcome unit * BlockItem * heap :=
  match run_setter a h parent_ it with
  | Raise e => (Raise e, it, h)
  | OutOfFuel => (OutOfFuel, it, h)
  | Ok it1 =>
      match install_item build_rec parent_ it1 h with
      | (Ok _, h') => (Ok tt, with_done it1, h')
      | (Raise e, h') => (Raise e, it1, h')
      | (OutOfFuel, h') => (OutOfFuel, it1, h')
      end
  end.

Definition the_api (n : nat) : api := mk_api (size n) (offset n) (get_bytes n).

(** [e.add_note(...); raise] around a computation. *)
Definition annotate {A} (m : M A) (note : string) : M A :=
  fun h => match m h with
           | (Raise e, h') => (Raise (add_note e note), h')
           | r => r
           end.

(** The entries [Block._process] starts from: one per declared field, with
    its setter, and its data taken from the input or from the default. *)
Definition initial_items (h : heap) (o : obj) (kv : list (string * any)) : list BlockItem :=
  map (fun '(nm, m) =>
         let d := match dict_get kv nm with
                  | Some v => v
                  | None =>
                      match h !! m with
                      | Some mo =>
                          if issubclass (cls_of mo) CDatatype && has_default mo
                          then default VNone (_default_value mo)
                          else VNone
                      | None => VNone
                      end
                  end in
         mk_item nm m (VDict kv) d (getattr o ("set_" +:+ nm)) false false)
      (_fields (cls_of o)).

Definition field_note (h : heap) (o : obj) (it : BlockItem) : string :=
  type_name (cls_of o) +:+ " -> " +:+ name it +:+ ": "
  +:+ match h !! model it with Some mo => type_name (cls_of mo) | None => "?" end.

(** [Block._process] *)
Definition Block_process (build_rec : ref -> any -> M unit) (n : nat) (self : ref)
           (kv : list (string * any)) : M unit :=
  fun h =>
    match lookup_ref h self with
    | Ok o =>
        let blockitems := initial_items h o kv in
        Block_loop (BlockItem_build build_rec (the_api n) self) (field_note h o)
                   (length blockitems) blockitems h
    | Raise e => (Raise e, h)
    | OutOfFuel => (OutOfFuel, h)
    end.

(** [Array._preprocess] *)
Definition Array_preprocess (self : ref) (d : any) : M (list any) :=
  let* o := reading (fun h => lookup_ref h self) in
  match body_of o with
  | BArray m count its =>
      let* _ := match m with
                | Some _ => ret tt
                | None =>
                    match _generic_type o with
                    | None => throw SpecError "Array has no valid type argument"
                    | Some g =>
                        let* r := construct g in
                        assign self (store_model r)
                    end
                end in
      match as_sequence d with
      | None =>
          fun h => (raise ValidationError
                      ("Expected Sequence type, received " +:+ py_type_name h d), h)
      | Some xs =>
          match count with
          | None =>
              let* _ := assign self (store_item_count (Z.of_nat (length xs))) in
              ret xs
          | Some c =>
              if c <? 0 then throw SpecError "Array item count cannot be less than 0"
              else if negb (Z.of_nat (length xs) =? c) then
                throw ValidationError ("Expected " +:+ pretty c +:+ " items, received "
                                       +:+ pretty (Z.of_nat (length xs)))
              else ret xs
          end
      end
  | _ => throw InternalError "not an Array"
  end.

(** The loop of [Array._process]. *)
Fixpoint Array_process_loop (build_rec : ref -> any -> M unit) (self m : ref)
         (elem : string) (xs : list any) (i : nat) (items : list ref) : M (list ref) :=
  match xs with
  | [] => ret items
  | data_item :: rest =>
      fun h =>
        if data_isinstance h data_item m then
          match data_item with
          | VDatum r => Array_process_loop build_rec self m elem rest (S i) (items ++ [r]) h
          | _ => (Ok items, h)
          end
        else
          (let* um := reading (fun h => _unpack_type h m data_item) in
           let* item := instantiate (fst um) (Some (Ref self)) in
           let* _ := annotate (build_rec item (snd um))
                       ("Array[" +:+ elem +:+ "] -> (element " +:+ pretty i +:+ ")") in
           Array_process_loop build_rec self m elem rest (S i) (items ++ [item])) h
  end.

(** [Array._process] *)
Definition Array_process (build_rec : ref -> any -> M unit) (self : ref) (xs : list any)
  : M unit :=
  let* o := reading (fun h => lookup_ref h self) in
  match body_of o with
  | BArray (Some m) _ _ =>
      let* elem := reading (fun h => let! mo := lookup_ref h m in Ok (type_name (cls_of mo))) in
      let* items := Array_process_loop build_rec self m elem xs 0 [] in
      assign self (store_items items)
  | _ => throw InternalError "Array still has no inferred type in _process()"
  end.

(** [data is None or isinstance(data, Sequence) and len(data) == 0] *)
Definition is_absent (d : any) : bool :=
  match d with
  | VNone => true
  | _ => match as_sequence d with
         | Some [] => true
         | _ => false
         end
  end.

(** [Optional._build] *)
Definition Optional_build (build_rec : ref -> any -> M unit) (self : ref) (d : any) : M unit :=
  let* o := reading (fun h => lookup_ref h self) in
  match body_of o with
  | BOptional m _ =>
      let* mo := reading (fun h => lookup_ref h m) in
      if negb (issubclass (cls_of mo) CDatatype) then
        throw SpecError ("Optional must wrap a known Datatype but received "
                         +:+ type_name (cls_of mo))
      else if is_absent d then ret tt
      else
        let* item := instantiate m (parent o) in
        let* _ := build_rec item d in
        assign self (store_item item)
  | _ => throw InternalError "not an Optional"
  end.

(** [GenDatatype._build] for [Align]: [_preprocess], then [_process]. *)
Definition Align_build (n : nat) (self : ref) : M unit :=
  let* o := reading (fun h => lookup_ref h self) in
  match body_of o with
  | BAlign align _ =>
      if align <? 2 then throw SpecError "Align size must be at least 2"
      else
        let* pad := reading (fun h => size n h (Ref self)) in
        assign self (store_pad_amount pad)
  | _ => throw InternalError "not an Align"
  end.

(** [_build]: [Datatype._build] runs [preprocess] (the identity unless a
    schema overrides it), [_preprocess] and [_process]; [Optional] and the
    generators have their own. *)
Definition _build (build_rec : ref -> any -> M unit) (n : nat) (self : ref) (d : any)
  : M unit :=
  let* o := reading (fun h => lookup_ref h self) in
  match body_of o with
  | BPrim p _ =>
      let* v := reading (fun h => Primitive_preprocess h (cls_of o) p d) in
      assign self (store_int v)
  | BBytes sz _ =>
      let* bs := reading (fun h => Bytes_preprocess h sz d) in
      assign self (store_data bs)
  | BFile _ =>
      let* bs := reading (fun h => File_preprocess h d) in
      assign self (store_data bs)
  | BBlock _ =>
      let* kv := reading (fun h => Block_preprocess h o d) in
      Block_process build_rec n self kv
  | BArray _ _ _ =>
      let* xs := Array_preprocess self d in
      Array_process build_rec self xs
  | BOptional _ _ => Optional_build build_rec self d
  | BAlign _ _ => Align_build n self
  end.

(** [DatatypeBase.build] *)
Fixpoint build (n : nat) (self : ref) (d : any) : M unit :=
  match n with
  | O => fun h => (OutOfFuel, h)
  | S n' =>
      let* o := reading (fun h => lookup_ref h self) in
      if negb (_is_instance o) then
        throw BuildError "Attempted to build a non-instantiated model"
      else if _is_built o then
        throw BuildError "Attempted to build an already-built datum"
      else
        let* _ := modify self set_built in
        _build (build n') n' self d
  end.

(** [baf.build(root_type, data)] *)
Definition baf_build (n : nat) (root_type : cls) (d : any) : M ref :=
  let* m := new_Block root_type None in
  let* root_item := instantiate m None in
  let* _ := build n root_item d in
  ret root_item.

(** [Block.force_dependency], for setters. *)
Definition force_dependency (h : heap) (m : ref) : outcome unit :=
  let! o := lookup_ref h m in
  if negb (_is_built o) then raise DependencyError "Forced dependency: Model is not yet built"
  else Ok tt.

(** [self.<field>] inside a setter: the instance attribute. *)
Definition self_attr (h : heap) (self : ref) (k : string) : outcome ref :=
  let! o := lookup_ref h self in
  match body_of o with
  | BBlock attrs =>
      match attrs_get attrs k with
      | Some r => Ok r
      | None => raise (PyError "AttributeError") ("object has no attribute '" +:+ k +:+ "'")
      end
  | _ => raise (PyError "AttributeError") ("object has no attribute '" +:+ k +:+ "'")
  end.

End Engine.


(** ** What building may change

    [stable o o']: the object is still the same datum (class, parent,
    instance flag, kind of body), and once built it stays built.  [keeps R b r h h']: the
    store only grew, the objects below [b] other than [r] are untouched, and
    [r] changed within [R] ([stable] for the datum being built, [eq] for a
    bystander).  [framed R b r Q m]: the computation [m], run on a store
    of at least [b] objects, keeps the store in that sense
    and returns a value satisfying [Q]. *)

Definition stable (o o' : obj) : Prop :=
  cls_of o' = cls_of o /\ parent o' = parent o /\ _is_instance o' = _is_instance o
  /\ body_kind (body_of o') = body_kind (body_of o)
  /\ (_is_built o = true -> _is_built o' = true).

Definition keeps (R : obj -> obj -> Prop) (b : nat) (r : ref) (h h' : heap) : Prop :=
  (length h <= length h')%nat
  /\ (forall i, (i < b)%nat -> i <> r -> h' !! i = h !! i)
  /\ (forall o, h !! r = Some o -> exists o', h' !! r = Some o' /\ R o o').

Definition framed {A} (R : obj -> obj -> Prop) (b : nat) (r : ref) (Q : A -> Prop)
           (m : M A) : Prop :=
  forall h res h', (b <= length h)%nat -> m h = (res, h') ->
    keeps R b r h h' /\ (forall a, res = Ok a -> Q a).

(** A reference made after the store held [b] objects. *)
Definition fresh (b : nat) (x : ref) : Prop := (b <= x)%nat.

(** The nested [build] calls of a container keep the store around the
    datum they build. *)
Definition rec_ok (build_rec : ref -> any -> M unit) : Prop :=
  forall r d h res h', build_rec r d h = (res, h') -> keeps stable (length h) r h h'.

(** A store to a field keeps the kind of the body. *)
Definition kind_preserving (f : body -> body) : Prop :=
  forall b, body_kind (f b) = body_kind b.

(** The sum of a list of sizes. *)
Definition Zsum (l : list Z) : Z := fold_right Z.add 0 l.

(** A datum without what [Align._process] stored in it. *)
Definition forget_pad (o : obj) : obj :=
  match body_of o with
  | BAlign A _ => set_body (BAlign A None) o
  | _ => o
  end.

(** ** More of the engine *)

(** Reading a byte string back as a big-endian unsigned number, the inverse
    of [int.to_bytes] that [int.from_bytes(bs)] is. *)
Definition be_decode (bs : list byte) : Z :=
  fold_left (fun acc b => acc * 256 + Z_of_byte b) bs 0.

(** Whether the class accepts both the signed and the unsigned range. *)
Definition ambiguous (p : prim) : bool :=
  match p with
  | I8 | I16 | I32 => true
  | _ => false
  end.

(** [_Primitive.__int__] *)
Definition Primitive_int (h : heap) (x : handle) : outcome Z :=
  let! o := deref h x in
  match body_of o with
  | BPrim _ (Some v) => Ok v
  | BPrim _ None => raise DependencyError "Primitive does not yet have a value"
  | _ => raise (PyError "TypeError") "int() argument must be a number"
  end.

(** [DatatypeBase.root_datum]: [while parent.parent is not None]. *)
Fixpoint root_walk (depth : nat) (h : heap) (p : handle) : outcome handle :=
  let! o := deref h p in
  match parent o with
  | None => Ok p
  | Some q =>
      match depth with
      | O => OutOfFuel
      | S depth' => root_walk depth' h q
      end
  end.

Definition root_datum (depth : nat) (h : heap) (x : handle) : outcome handle :=
  let! o := deref h x in
  match parent o with
  | None => Ok x
  | Some p => root_walk depth h p
  end.

(** [Optional.__bool__] *)
Definition Optional_bool (h : heap) (x : handle) : outcome bool :=
  let! o := deref h x in
  match body_of o with
  | BOptional _ it =>
      if negb (_is_built o) then raise DependencyError "Optional is ambiguous until it is built"
      else Ok (match it with Some _ => true | None => false end)
  | _ => raise (PyError "AttributeError") "not an Optional"
  end.


(** A store whose sizes are settled: the data of every built [Bytes] has the
    length that was declared for it, and the padding every built [Align]
    froze is what its [size()] gives now. *)
Definition settled (ct : class_table) (h : heap) : Prop :=
  forall r o, h !! r = Some o -> _is_built o = true ->
    match body_of o with
    | BBytes (Some s) (Some bs) => Z.of_nat (length bs) = s
    | BAlign _ (Some pad) => forall k s, size ct k h (Ref r) = Ok s -> s = pad
    | _ => True
    end.

(** An instance of the primitive [p] that was built with the value [v]. *)
Definition built_primitive (p : prim) (v : Z) (ob : obj) : Prop :=
  body_of ob = BPrim p (Some v) /\ _is_instance ob = true /\ _is_built ob = true.

(** [Block.static_size]: a classmethod, which sums the sizes of the models
    in the dictionary of the class. *)
Definition Block_static_size (ct : class_table) (n : nat) (h : heap) (c : cls) : outcome Z :=
  sum_sizes (size ct n h) (map (fun f => Ref (snd f)) (_fields ct c)).

(** What a model contributes to [static_size] when it is a primitive. *)
Definition primitive_size (h : heap) (m : ref) : Z :=
  match body_of <$> h !! m with
  | Some (BPrim p _) => _bit_size p / 8
  | _ => 0
  end.




(** * Schemas used as examples

    Each module writes out a small schema the way its Python source would
    construct it: the models are made in the order of the class bodies, so
    that the references in the class table are those the constructors
    return on an empty store. *)

Definition no_files : string -> option (list byte) := fun _ => None.

(** [self.<name>] of a block, as a handle. *)
Definition field (h : heap) (block : ref) (k : string) : handle :=
  match self_attr h block k with
  | Ok r => Ref r
  | _ => Ref block
  end.

(** The object a reference names. *)
Definition obj_at (h : heap) (r : ref) : obj :=
  default (new_obj CDatatypeBase None (BBlock [])) (h !! r).

Definition heap_of {A} (m : M A) (h : heap) : heap := snd (m h).

Definition value_of {A} (m : M A) (h : heap) (default : A) : A :=
  match fst (m h) with
  | Ok a => a
  | _ => default
  end.

(** Data on their own: [U16()], [U8()], [Align(4)] and [Align(1)], and an
    instance of each. *)
Module Primitives.

Definition classes : class_table := [].

Definition setup : M unit :=
  let* u16 := new_prim U16 None in       (* 0 *)
  let* _ := instantiate u16 None in      (* 1 *)
  let* u8 := new_prim U8 None in         (* 2 *)
  let* _ := instantiate u8 None in       (* 3 *)
  let* align4 := new_Align 4 in          (* 4 *)
  let* _ := instantiate align4 None in   (* 5 *)
  let* align1 := new_Align 1 in          (* 6 *)
  let* _ := instantiate align1 None in   (* 7 *)
  ret tt.

Definition store : heap := heap_of setup [].
Definition u16_instance : ref := 1%nat.
Definition u8_instance : ref := 3%nat.
Definition align4_instance : ref := 5%nat.
Definition align1_instance : ref := 7%nat.

(** [U8().build(300)] on the instance. *)
Definition failed : outcome unit * heap :=
  build classes None no_files 1 u8_instance (VInt 300) store.
Definition failed_store : heap := snd failed.
Definition failure : exn :=
  match fst failed with
  | Raise e => e
  | _ => mk_exn InternalError "" []
  end.

End Primitives.

(** [[
class Inner(Block):
    x = U8()
    pad = Align(4)
    y = U8()

class Root(Block):
    a = U8()
    inner = Inner()
]] *)
Module Nested.

Definition classes : class_table :=
  [ mk_class "Inner" CBlock
      [("x", AValue (VDatum 0%nat)); ("pad", AValue (VDatum 1%nat));
       ("y", AValue (VDatum 2%nat))];
    mk_class "Root" CBlock
      [("a", AValue (VDatum 3%nat)); ("inner", AValue (VDatum 4%nat))] ].

Definition Inner : cls := CUser 0.
Definition Root : cls := CUser 1.

Definition setup : M unit :=
  let* _ := new_prim U8 None in            (* 0: Inner.x *)
  let* _ := new_Align 4 in                 (* 1: Inner.pad *)
  let* _ := new_prim U8 None in            (* 2: Inner.y *)
  let* _ := new_prim U8 None in            (* 3: Root.a *)
  let* _ := new_Block classes Inner None in  (* 4: Root.inner *)
  ret tt.

Definition schema : heap := heap_of setup [].

Definition input : any :=
  VDict [("a", VInt 1); ("inner", VDict [("x", VInt 2); ("y", VInt 3)])].

Definition run : M ref := baf_build classes None no_files 8 Root input.
Definition store : heap := heap_of run schema.
Definition root : ref := value_of run schema 0%nat.
Definition inner : handle := field store root "inner".
Definition inner_ref : ref := match inner with Ref r => r | _ => 0%nat end.
Definition x : handle := field store inner_ref "x".
Definition pad : handle := field store inner_ref "pad".
Definition y : handle := field store inner_ref "y".
Definition y_ref : ref := match y with Ref r => r | _ => 0%nat end.

End Nested.

(** A field refined to a larger subclass after the padding behind it was
    built.
[[
class Base(Block):
    pass

class Sub(Base):
    x = U8()

SUB = Sub()

class Root(Block):
    f = Base()
    pad = Align(4)
    n = U8()

    def set_f(self, data):
        self.force_dependency(self.n)
        return (SUB, {'x': 1})
]] *)
Module StalePad.

Definition SUB : ref := 2%nat.

Definition set_f : setter_fn := fun _ h self _ =>
  let! n := self_attr h self "n" in
  let! _ := force_dependency h n in
  Ok (VTuple [VDatum SUB; VDict [("x", VInt 1)]]).

Definition classes : class_table :=
  [ mk_class "Base" CBlock [];
    mk_class "Sub" (CUser 0) [("x", AValue (VDatum 0%nat))];
    mk_class "Root" CBlock
      [("f", AValue (VDatum 4%nat)); ("pad", AValue (VDatum 5%nat));
       ("n", AValue (VDatum 6%nat)); ("set_f", AFunc set_f)] ].

Definition Base : cls := CUser 0.
Definition Sub : cls := CUser 1.
Definition Root : cls := CUser 2.

Definition setup : M unit :=
  let* _ := new_prim U8 None in               (* 0: Sub.x *)
  let* _ := new_prim U8 None in               (* 1: a spare model, unused *)
  let* _ := new_Block classes Sub None in     (* 2: SUB, and 3: its x *)
  let* _ := new_Block classes Base None in    (* 4: Root.f *)
  let* _ := new_Align 4 in                    (* 5: Root.pad *)
  let* _ := new_prim U8 None in               (* 6: Root.n *)
  ret tt.

Definition schema : heap := heap_of setup [].

Definition input : any := VDict [("n", VInt 5)].

Definition run : M ref := baf_build classes None no_files 8 Root input.
Definition store : heap := heap_of run schema.
Definition root : ref := value_of run schema 0%nat.
Definition pad : handle := field store root "pad".

End StalePad.

(** Two setters that wait for each other.
[[
class R(Block):
    a = U8()
    b = U8()

    def set_a(self, data):
        self.force_dependency(self.b)
        return 1

    def set_b(self, data):
        self.force_dependency(self.a)
        return 2
]] *)
Module Cyclic.

Definition waits_for (other : string) (v : Z) : setter_fn := fun _ h self _ =>
  let! o := self_attr h self other in
  let! _ := force_dependency h o in
  Ok (VInt v).

Definition classes : class_table :=
  [ mk_class "R" CBlock
      [("a", AValue (VDatum 0%nat)); ("b", AValue (VDatum 1%nat));
       ("set_a", AFunc (waits_for "b" 1)); ("set_b", AFunc (waits_for "a" 2))] ].

Definition R : cls := CUser 0.

Definition setup : M unit :=
  let* _ := new_prim U8 None in     (* 0: R.a *)
  let* _ := new_prim U8 None in     (* 1: R.b *)
  ret tt.

Definition schema : heap := heap_of setup [].

Definition run : M ref := baf_build classes None no_files 8 R (VDict []).

(** The root instance before its build, and the entries its build starts
    from. *)
Definition instance : M ref :=
  let* m := new_Block classes R None in
  instantiate m None.

Definition root : ref := value_of instance schema 0%nat.
Definition store : heap := heap_of instance schema.

Definition entries : list BlockItem :=
  match store !! root with
  | Some o => initial_items classes store o []
  | None => []
  end.

End Cyclic.

(** [Optional(U32())] on its own, instantiated. *)
Module OptionalU32.

Definition classes : class_table := [].

Definition setup : M ref :=
  let* u32 := new_prim U32 None in     (* 0 *)
  let* opt := new_Optional u32 in      (* 1 *)
  instantiate opt None.                (* 2 *)

Definition store : heap := heap_of setup [].
Definition wrapper : ref := 2%nat.

End OptionalU32.

(** [[
class R(Block): pass
class R1(R): x = U8()
class R2(R): y = U16()
class Other(Block): z = U8()

class Holder(Block):
    f = R()
]] *)
Module Refinement.

Definition classes : class_table :=
  [ mk_class "R" CBlock [];
    mk_class "R1" (CUser 0) [("x", AValue (VDatum 0%nat))];
    mk_class "R2" (CUser 0) [("y", AValue (VDatum 1%nat))];
    mk_class "Other" CBlock [("z", AValue (VDatum 2%nat))];
    mk_class "Holder" CBlock [("f", AValue (VDatum 3%nat))] ].

Definition R : cls := CUser 0.
Definition R1 : cls := CUser 1.
Definition R2 : cls := CUser 2.
Definition Other : cls := CUser 3.
Definition Holder : cls := CUser 4.

Definition setup : M unit :=
  let* _ := new_prim U8 None in               (* 0: R1.x *)
  let* _ := new_prim U16 None in              (* 1: R2.y *)
  let* _ := new_prim U8 None in               (* 2: Other.z *)
  let* _ := new_Block classes R None in       (* 3: Holder.f *)
  let* _ := new_Block classes R2 None in      (* 4: an R2(), and 5: its y *)
  let* _ := new_Block classes Other None in   (* 6: an Other(), and 7: its z *)
  ret tt.

Definition schema : heap := heap_of setup [].
Definition an_R2 : ref := 4%nat.
Definition an_Other : ref := 6%nat.
Definition f_model : ref := 3%nat.

Definition good_input : any :=
  VDict [("f", VTuple [VDatum an_R2; VDict [("y", VInt 258)]])].
Definition bad_input : any :=
  VDict [("f", VTuple [VDatum an_Other; VDict [("z", VInt 1)]])].

Definition run (input : any) : M ref := baf_build classes None no_files 8 Holder input.

(** The entry of [f] with the good input, as [Block._process] makes it. *)
Definition f_entry : BlockItem :=
  mk_item "f" f_model good_input (VTuple [VDatum an_R2; VDict [("y", VInt 258)]])
          None false false.

End Refinement.

(** [Array(U8(), 1)], [Array(U8())], [Array(None, 3)] and [Array(U8(), -1)],
    each instantiated. *)
Module Arrays.

Definition classes : class_table := [].

Definition setup : M unit :=
  let* u8 := new_prim U8 None in                 (* 0 *)
  let* one := new_Array (Some u8) (Some 1) None in   (* 1 *)
  let* _ := instantiate one None in              (* 2 *)
  let* any_ := new_Array (Some u8) None None in  (* 3 *)
  let* _ := instantiate any_ None in             (* 4 *)
  let* untyped := new_Array None (Some 3) None in    (* 5 *)
  let* _ := instantiate untyped None in          (* 6 *)
  let* negative := new_Array (Some u8) (Some (-1)) None in   (* 7 *)
  let* _ := instantiate negative None in         (* 8 *)
  ret tt.

Definition store : heap := heap_of setup [].
Definition counted : ref := 2%nat.
Definition uncounted : ref := 4%nat.
Definition untyped : ref := 6%nat.
Definition negative : ref := 8%nat.

End Arrays.

(** [[
class R(Block):
    _hidden = U8()
    version = 3
    a = U8()
    def helper(self, data): ...
    b = U16()
]] *)
Module Hidden.

Definition helper : setter_fn := fun _ _ _ d => Ok d.

Definition classes : class_table :=
  [ mk_class "R" CBlock
      [("_hidden", AValue (VDatum 0%nat)); ("version", AValue (VInt 3));
       ("a", AValue (VDatum 1%nat)); ("helper", AFunc helper);
       ("b", AValue (VDatum 2%nat))] ].

Definition R : cls := CUser 0.

Definition setup : M unit :=
  let* _ := new_prim U8 None in      (* 0: R._hidden *)
  let* _ := new_prim U8 None in      (* 1: R.a *)
  let* _ := new_prim U16 None in     (* 2: R.b *)
  ret tt.

Definition schema : heap := heap_of setup [].

Definition run : M ref :=
  baf_build classes None no_files 8 R (VDict [("a", VInt 1); ("b", VInt 2)]).

End Hidden.

(** [Bytes(2)], [Bytes()] and [File()] with an instance of each, and a file
    system holding one file. *)
Module Blobs.

Definition classes : class_table := [].

Definition files : string -> option (list byte) :=
  fun path => if String.eqb path "/data/logo.bin" then Some [x89; x50; x4e] else None.

Definition setup : M unit :=
  let* sized := new_Bytes (Some 2) None in   (* 0 *)
  let* _ := instantiate sized None in        (* 1 *)
  let* unsized := new_Bytes None None in     (* 2 *)
  let* _ := instantiate unsized None in      (* 3 *)
  let* file := new_File None in              (* 4 *)
  let* _ := instantiate file None in         (* 5 *)
  ret tt.

Definition store : heap := heap_of setup [].
Definition sized_instance : ref := 1%nat.
Definition unsized_instance : ref := 3%nat.

End Blobs.

(** [Optional(Align(4))] and an instance of it. *)
Module OptionalAlign.

Definition classes : class_table := [].

Definition setup : M ref :=
  let* align := new_Align 4 in         (* 0 *)
  let* opt := new_Optional align in    (* 1 *)
  instantiate opt None.                (* 2 *)

Definition store : heap := heap_of setup [].
Definition wrapper : ref := 2%nat.

End OptionalAlign.

(** [Array(U16(), 3)] and [Array(Align(4), 2)], with an instance of each. *)
Module Tables.

Definition classes : class_table := [].

Definition setup : M unit :=
  let* u16 := new_prim U16 None in                       (* 0 *)
  let* words := new_Array (Some u16) (Some 3) None in    (* 1 *)
  let* _ := instantiate words None in                    (* 2 *)
  let* align := new_Align 4 in                           (* 3 *)
  let* pads := new_Array (Some align) (Some 2) None in   (* 4 *)
  let* _ := instantiate pads None in                     (* 5 *)
  ret tt.

Definition store : heap := heap_of setup [].
Definition words : ref := 2%nat.
Definition pads : ref := 5%nat.

End Tables.

(** [[
class Holder(Block):
    a = U8()
    o = Optional(U16())
]] built with [{'a': 1, 'o': 7}]. *)
Module OptionalField.

Definition classes : class_table :=
  [ mk_class "Holder" CBlock
      [("a", AValue (VDatum 0%nat)); ("o", AValue (VDatum 2%nat))] ].

Definition Holder : cls := CUser 0.

Definition setup : M unit :=
  let* _ := new_prim U8 None in        (* 0: Holder.a *)
  let* u16 := new_prim U16 None in     (* 1 *)
  let* _ := new_Optional u16 in        (* 2: Holder.o *)
  ret tt.

Definition schema : heap := heap_of setup [].

Definition input : any := VDict [("a", VInt 1); ("o", VInt 7)].

Definition run : M ref := baf_build classes None no_files 8 Holder input.
Definition store : heap := heap_of run schema.
Definition root : ref := value_of run schema 0%nat.
Definition a : handle := field store root "a".
Definition o : handle := field store root "o".

End OptionalField.

(** An instance of [Nested.Root] that is not built yet. *)
Module NestedInstance.

Definition setup : M ref :=
  let* m := new_Block Nested.classes Nested.Root None in
  instantiate m None.

Definition store : heap := heap_of setup Nested.schema.
Definition root : ref := value_of setup Nested.schema 0%nat.

End NestedInstance.

(** [[
class Header(Block):
    magic = U16()
    version = U8()
    length = U32()
]] and an instance that is not built yet. *)
Module Header.

Definition classes : class_table :=
  [ mk_class "Header" CBlock
      [("magic", AValue (VDatum 0%nat)); ("version", AValue (VDatum 1%nat));
       ("length", AValue (VDatum 2%nat))] ].

Definition Header : cls := CUser 0.

Definition setup : M ref :=
  let* _ := new_prim U16 None in     (* 0: Header.magic *)
  let* _ := new_prim U8 None in      (* 1: Header.version *)
  let* _ := new_prim U32 None in     (* 2: Header.length *)
  let* m := new_Block classes Header None in
  instantiate m None.

Definition store : heap := heap_of setup [].
Definition root : ref := value_of setup [] 0%nat.

(** The data, with its keys in another order than the fields. *)
Definition input : list (string * any) :=
  [("length", VInt 258); ("magic", VInt 16961); ("version", VInt 1)].

End Header.

(** [[
class Tagged(Block):
    x = U8()

    def set_x(self, data):
        return 7
]] with an instance that is not built yet, and the entry [Block._process]
    makes for [x] from the data [{'x': 1}]. *)
Module Overridden.

Definition set_x : setter_fn := fun _ _ _ _ => Ok (VInt 7).

Definition classes : class_table :=
  [ mk_class "Tagged" CBlock [("x", AValue (VDatum 0%nat)); ("set_x", AFunc set_x)] ].

Definition Tagged : cls := CUser 0.

Definition setup : M ref :=
  let* _ := new_prim U8 None in      (* 0: Tagged.x *)
  let* m := new_Block classes Tagged None in
  instantiate m None.

Definition store : heap := heap_of setup [].
Definition root : ref := value_of setup [] 0%nat.

Definition input : list (string * any) := [("x", VInt 1)].

Definition entry : BlockItem :=
  match initial_items classes store (obj_at store root) input with
  | it :: _ => it
  | [] => mk_item "" 0%nat VNone VNone None false false
  end.

End Overridden.

(** The root of [StalePad] at the moment its build enters the loop of
    [Block._process]: instantiated, marked as built, with the entries made
    from the data [{'n': 5}]. *)
Module StalePadStart.

Definition instance : M ref :=
  let* m := new_Block StalePad.classes StalePad.Root None in
  instantiate m None.

Definition root : ref := value_of instance StalePad.schema 0%nat.

Definition store : heap :=
  let h := heap_of instance StalePad.schema in
  <[root := set_built (obj_at h root)]> h.

Definition entries : list BlockItem :=
  initial_items StalePad.classes store (obj_at store root) [("n", VInt 5)].

End StalePadStart.

(** [Nested.Inner] while it is being built: [x] is built, [pad] has just
    been installed in the block and is about to be built. *)
Module AlignPending.

Definition setup : M ref :=
  let* inner := instantiate 4%nat None in
  let* _ := modify inner set_built in
  let* x := instantiate 0%nat (Some (Ref inner)) in
  let* _ := setattr inner "x" x in
  let* _ := build Nested.classes None no_files 3 x (VInt 2) in
  let* pad := instantiate 1%nat (Some (Ref inner)) in
  let* _ := setattr inner "pad" pad in
  ret pad.

Definition store : heap := heap_of setup Nested.schema.
Definition pad : ref := value_of setup Nested.schema 0%nat.

End AlignPending.

(** [Optional(U32())] built with [1]: the stages of [Optional._build]. *)
Module OptionalPresent.

Definition marked : heap :=
  <[OptionalU32.wrapper := set_built (obj_at OptionalU32.store OptionalU32.wrapper)]>
    OptionalU32.store.
Definition item : ref := value_of (instantiate 0%nat None) marked 0%nat.
Definition instantiated : heap := heap_of (instantiate 0%nat None) marked.
Definition built : heap :=
  heap_of (build OptionalU32.classes None no_files 2 item (VInt 1)) instantiated.
Definition final : heap :=
  <[OptionalU32.wrapper :=
      set_body (BOptional 0%nat (Some item))
               (set_built (obj_at OptionalU32.store OptionalU32.wrapper))]> built.

End OptionalPresent.

(** The schema of [Refinement] with a [Holder] and an [Array(R())] while
    they are being built.
[[
class Holder(Block):
    f = R()

ARR = Array(R())
]] *)
Module RefinementSlots.

Definition setup : M (ref * ref) :=
  let* hm := new_Block Refinement.classes Refinement.Holder None in
  let* holder := instantiate hm None in
  let* _ := modify holder set_built in
  let* am := new_Array (Some Refinement.f_model) None None in
  let* arr := instantiate am None in
  let* _ := modify arr set_built in
  ret (holder, arr).

Definition store : heap := heap_of setup Refinement.schema.
Definition holder : ref := fst (value_of setup Refinement.schema (0%nat, 0%nat)).
Definition arr : ref := snd (value_of setup Refinement.schema (0%nat, 0%nat)).

Definition good : any := VTuple [VDatum Refinement.an_R2; VDict [("y", VInt 258)]].
Definition bad : any := VTuple [VDatum Refinement.an_Other; VDict [("z", VInt 1)]].
Definition plain : any := VTuple [VInt 1; VInt 2].

Definition entry (d : any) : BlockItem :=
  mk_item "f" Refinement.f_model d d None false false.

Definition build_rec : ref -> any -> M unit := build Refinement.classes None no_files 5.

End RefinementSlots.

(** [Array[U8](1)] and [Array[U8]()], each instantiated: the element model
    is made from the type argument when the array is built. *)
Module GenericArray.

Definition classes : class_table := [].

Definition setup : M (ref * ref) :=
  let* one := new_Array None (Some 1) None in
  let* _ := with_orig_class (GClass (CPrim U8)) one in
  let* counted := instantiate one None in
  let* any_ := new_Array None None None in
  let* _ := with_orig_class (GClass (CPrim U8)) any_ in
  let* uncounted := instantiate any_ None in
  ret (counted, uncounted).

Definition store : heap := heap_of setup [].
Definition counted : ref := fst (value_of setup [] (0%nat, 0%nat)).
Definition uncounted : ref := snd (value_of setup [] (0%nat, 0%nat)).

(** The stages of [Array._preprocess] for [r]. *)
Definition marked (r : ref) : heap := <[r := set_built (obj_at store r)]> store.
Definition model (r : ref) : ref :=
  value_of (construct classes (GClass (CPrim U8))) (marked r) 0%nat.
Definition constructed (r : ref) : heap :=
  heap_of (construct classes (GClass (CPrim U8))) (marked r).
Definition ready (r : ref) (count : option Z) : heap :=
  <[r := set_body (BArray (Some (model r)) count []) (set_built (obj_at store r))]>
    (constructed r).

End GenericArray.

(** A field declared in a base class.
[[
class Base(Block):
    x = U8()

class Sub(Base):
    y = U16()
]] *)
Module Inherited.

Definition classes : class_table :=
  [ mk_class "Base" CBlock [("x", AValue (VDatum 0%nat))];
    mk_class "Sub" (CUser 0) [("y", AValue (VDatum 1%nat))] ].

Definition Base : cls := CUser 0.
Definition Sub : cls := CUser 1.

Definition setup : M unit :=
  let* _ := new_prim U8 None in      (* 0: Base.x *)
  let* _ := new_prim U16 None in     (* 1: Sub.y *)
  ret tt.

Definition schema : heap := heap_of setup [].

Definition run : M ref :=
  baf_build classes None no_files 8 Sub (VDict [("x", VInt 1); ("y", VInt 2)]).

Definition store : heap := heap_of run schema.
Definition root : ref := value_of run schema 0%nat.

End Inherited.
(** * Properties *)

(** ** Integer encoding *)

Lemma byte_of_Z_mod (z : Z) : byte_of_Z (z mod 256) = byte_of_Z z.
Proof. unfold byte_of_Z. now rewrite Z.mod_mod by lia. Qed.

Lemma be_digits_encode (n : nat) (u : Z) : be_digits n u = be_encode n u.
Proof.
  unfold be_encode, le_encode. revert u.
  induction n as [|n IH]; intros u; [reflexivity|].
  cbn [be_digits seq map]. rewrite IH. cbn [rev].
  rewrite byte_of_Z_mod, Z.pow_0_r, Z.div_1_r.
  f_equal. f_equal. rewrite <- seq_shift, map_map.
  apply map_ext; intros i.
  rewrite Zdiv_Zdiv by lia. do 2 f_equal.
  rewrite Nat2Z.inj_succ, Z.pow_succ_r by lia. reflexivity.
Qed.

Lemma length_be_digits (n : nat) (u : Z) : length (be_digits n u) = n.
Proof.
  revert u. induction n as [|n IH]; intros u; [reflexivity|].
  cbn [be_digits]. rewrite length_app, IH. cbn. lia.
Qed.

(** Closed powers, quotients and products of the goal, evaluated. *)
Ltac is_Z_literal r :=
  match r with
  | Z0 => idtac
  | Zpos ?p => is_ground p
  | Zneg ?p => is_ground p
  end.

Ltac eval_Z_consts :=
  repeat match goal with
         | |- context [Z.pow ?a ?b] =>
             let r := eval vm_compute in (Z.pow a b) in
             is_Z_literal r; change (Z.pow a b) with r
         | |- context [Z.div ?a ?b] =>
             let r := eval vm_compute in (Z.div a b) in
             is_Z_literal r; change (Z.div a b) with r
         | |- context [Z.opp (Zpos ?a)] => change (Z.opp (Zpos a)) with (Zneg a)
         | |- context [Z.mul (Zpos ?a) (Zpos ?b)] =>
             let r := eval vm_compute in (Z.mul (Zpos a) (Zpos b)) in
             change (Z.mul (Zpos a) (Zpos b)) with r
         | |- context [Z.sub (Zpos ?a) (Zpos ?b)] =>
             let r := eval vm_compute in (Z.sub (Zpos a) (Zpos b)) in
             change (Z.sub (Zpos a) (Zpos b)) with r
         end.

Ltac case_Z_tests :=
  repeat match goal with
         | |- context [?a <=? ?b] => destruct (Z.leb_spec a b); try lia
         | |- context [?a <? ?b] => destruct (Z.ltb_spec a b); try lia
         | |- context [?a =? ?b] => destruct (Z.eqb_spec a b); try lia
         end.

(** In range, [to_bytes] with [signed = (v < 0)] never overflows and yields
    the big-endian digits of the two's-complement pattern. *)
Lemma to_bytes_in_range (p : prim) (v : Z) :
  _min p <= v <= _max p ->
  to_bytes v (_bit_size p / 8) (v <? 0) = Ok (big_endian_twos_complement p v).
Proof.
  unfold to_bytes, big_endian_twos_complement, twos_complement.
  rewrite <- be_digits_encode.
  destruct p; unfold _min, _max, _bit_size; eval_Z_consts; intros Hv;
    destruct (Z.ltb_spec v 0); cbn [negb andb]; case_Z_tests; reflexivity.
Qed.

(** ** Store lemmas *)

Lemma lookup_ref_Some (h : heap) (r : ref) (o : obj) :
  h !! r = Some o -> lookup_ref h r = Ok o.
Proof. unfold lookup_ref. now intros ->. Qed.

Lemma lookup_ref_Ok (h : heap) (r : ref) (o : obj) :
  lookup_ref h r = Ok o -> h !! r = Some o.
Proof. unfold lookup_ref. destruct (h !! r); [now intros [= ->]|discriminate]. Qed.

Lemma lookup_insert_same (h : heap) (r : ref) (o o' : obj) :
  h !! r = Some o -> <[r := o']> h !! r = Some o'.
Proof. intros H. apply list_lookup_insert_eq. eapply lookup_lt_Some; eauto. Qed.

Lemma modify_Some (h : heap) (r : ref) (o : obj) (f : obj -> obj) :
  h !! r = Some o -> modify r f h = (Ok tt, <[r := f o]> h).
Proof. unfold modify. now intros ->. Qed.

Lemma assign_Some (h : heap) (r : ref) (o : obj) (f : body -> body) :
  h !! r = Some o -> assign r f h = (Ok tt, <[r := set_body (f (body_of o)) o]> h).
Proof. intros H. unfold assign. now rewrite (modify_Some _ _ _ _ H). Qed.

Section EngineFacts.

Variable ct : class_table.
Variable root_path : option string.
Variable fs : string -> option (list byte).

(** C1, as the code has it: a value in range builds, and the bytes are the
    two's-complement pattern of the value in [_bit_size / 8] bytes, most
    significant byte first (the byte order [int.to_bytes] defaults to); a
    value out of range fails with a validation error. *)
Theorem primitive_build_big_endian
  (h : heap) (r : ref) (o : obj) (p : prim) (d0 : option Z) (v : Z) (n m : nat) :
  h !! r = Some o -> body_of o = BPrim p d0 ->
  _is_instance o = true -> _is_built o = false ->
  (_min p <= v <= _max p ->
     exists h', build ct root_path fs (S n) r (VInt v) h = (Ok tt, h')
       /\ get_bytes ct (S m) h' (Ref r) = Ok (big_endian_twos_complement p v)
       /\ Z.of_nat (length (big_endian_twos_complement p v)) = _bit_size p / 8)
  /\ (v < _min p \/ _max p < v ->
      raises (fst (build ct root_path fs (S n) r (VInt v) h)) ValidationError).
Proof.
  intros Hr Hb Hi Hu.
  assert (Hr1 : <[r := set_built o]> h !! r = Some (set_built o))
    by (eapply lookup_insert_same; eauto).
  assert (Hstart : forall k, build ct root_path fs (S n) r (VInt v) h =
            _build ct root_path fs k n r (VInt v) (<[r := set_built o]> h)).
  { intros k. cbn [build]. unfold bind, reading, throw.
    rewrite (lookup_ref_Some _ _ _ Hr), Hi, Hu. cbn [negb].
    rewrite (modify_Some _ _ _ _ Hr). 
    unfold _build, bind, reading. rewrite (lookup_ref_Some _ _ _ Hr1).
    cbn [body_of set_built]. rewrite Hb. reflexivity. }
  split.
  - intros Hv. eexists. split; [|split].
    + rewrite (Hstart (fun _ _ h => (Ok tt, h))). unfold _build, bind, reading.
      rewrite (lookup_ref_Some _ _ _ Hr1). cbn [body_of set_built]. rewrite Hb.
      unfold Primitive_preprocess.
      destruct (Z.ltb_spec v (_min p)); [lia|].
      destruct (Z.ltb_spec (_max p) v); [lia|]. cbn [orb].
      rewrite (assign_Some _ _ _ _ Hr1). reflexivity.
    + cbn [get_bytes]. unfold get_bytes_step. cbn [deref].
      erewrite lookup_ref_Some by (eapply lookup_insert_same; eauto).
      cbn [obind set_body set_built _is_instance _is_built body_of negb].
      rewrite Hi, Hb. cbn [negb store_int]. now apply to_bytes_in_range.
    + unfold big_endian_twos_complement. rewrite <- be_digits_encode, length_be_digits.
      destruct p; reflexivity.
  - intros Hv. rewrite (Hstart (fun _ _ h => (Ok tt, h))). unfold _build, bind, reading.
    rewrite (lookup_ref_Some _ _ _ Hr1). cbn [body_of set_built]. rewrite Hb.
    unfold Primitive_preprocess.
    destruct (Z.ltb_spec v (_min p)); [reflexivity|].
    destruct (Z.ltb_spec (_max p) v); [reflexivity|lia].
Qed.

(** ** Offsets *)



(** ** Alignment *)

Lemma align_pad_range (A O : Z) : 2 <= A -> 0 <= (A - O mod A) mod A < A.
Proof. intros HA. apply Z.mod_pos_bound. lia. Qed.

Lemma size_Align (k : nat) (h : heap) (r : ref) (o : obj) (A : Z) (pad : option Z) :
  h !! r = Some o -> body_of o = BAlign A pad ->
  size ct (S k) h (Ref r) =
    (let! off := offset ct k h (Ref r) in
     if A =? 0 then raise (PyError "ZeroDivisionError") "integer modulo by zero"
     else Ok ((A - off mod A) mod A)).
Proof.
  intros Hr Hb. cbn [size]. unfold size_step at 1. cbn [deref].
  rewrite (lookup_ref_Some _ _ _ Hr). cbn [obind]. rewrite Hb. reflexivity.
Qed.

(** *** Sizes and offsets do not read the stored padding

    [Align.size] computes the padding anew from the offset; what
    [Align._process] stored is read by [_get_bytes] only. *)

Lemma lookup_ref_forget (h : heap) (r : ref) :
  lookup_ref (forget_pad <$> h) r = (let! o := lookup_ref h r in Ok (forget_pad o)).
Proof.
  unfold lookup_ref, ref in *. rewrite list_lookup_fmap. destruct (h !! r); reflexivity.
Qed.

Lemma body_of_forget_pad (o : obj) :
  body_of (forget_pad o)
  = match body_of o with BAlign A _ => BAlign A None | b => b end.
Proof. unfold forget_pad. now destruct (body_of o) eqn:E; cbn; rewrite ?E. Qed.

Lemma instantiate_obj_forget (o : obj) (p : option handle) (pg : outcome (option generic)) :
  instantiate_obj (forget_pad o) p pg
  = (let! x := instantiate_obj o p pg in Ok (forget_pad x)).
Proof.
  unfold instantiate_obj, forget_pad.
  destruct (body_of o) eqn:E; cbn [set_body _is_built orig_class _generic_type cls_of
                                    _default_value body_of];
    destruct (_is_built o); try reflexivity;
    (destruct (match orig_class o with Some g => Some g | None => _generic_type o end)
       as [[|c]|]; [destruct p; [destruct pg|]| |]);
    cbn [obind body_of]; rewrite ?E; reflexivity.
Qed.

Lemma deref_forget (h : heap) (x : handle) :
  deref (forget_pad <$> h) x = (let! o := deref h x in Ok (forget_pad o)).
Proof.
  induction x as [r|a IH]; cbn [deref]; [apply lookup_ref_forget|].
  rewrite IH. destruct (deref h a) as [oa| |]; cbn [obind]; try reflexivity.
  rewrite body_of_forget_pad.
  destruct (body_of oa) as [| | | |[m|] c its| |]; try reflexivity.
  rewrite lookup_ref_forget. destruct (lookup_ref h m) as [om| |]; cbn [obind];
    try reflexivity.
  rewrite instantiate_obj_forget.
  assert (Hg : _generic_type (forget_pad oa) = _generic_type oa)
    by (unfold forget_pad; now destruct (body_of oa)).
  now rewrite Hg.
Qed.

Lemma cls_of_forget_pad (o : obj) : cls_of (forget_pad o) = cls_of o.
Proof. unfold forget_pad. now destruct (body_of o). Qed.

Lemma parent_forget_pad (o : obj) : parent (forget_pad o) = parent o.
Proof. unfold forget_pad. now destruct (body_of o). Qed.

Lemma is_built_forget_pad (o : obj) : _is_built (forget_pad o) = _is_built o.
Proof. unfold forget_pad. now destruct (body_of o). Qed.

Lemma get_items_forget (h : heap) (x : handle) (o : obj) (dflt : bool) :
  get_items ct (forget_pad <$> h) x (forget_pad o) dflt = get_items ct h x o dflt.
Proof.
  unfold get_items. rewrite body_of_forget_pad, cls_of_forget_pad.
  destruct (body_of o) as [| | | |m [c|] its| |]; try reflexivity.
  destruct (_ && _); [reflexivity|]. destruct m as [m|]; [|reflexivity].
  rewrite deref_forget. now destruct (deref h (Default x)).
Qed.

Lemma datum_truth_forget (h : heap) (x : handle) :
  datum_truth ct (forget_pad <$> h) x = datum_truth ct h x.
Proof.
  unfold datum_truth. rewrite deref_forget.
  destruct (deref h x) as [o| |]; cbn [obind]; try reflexivity.
  rewrite body_of_forget_pad, is_built_forget_pad.
  destruct (body_of o) as [| | | |m c its| |] eqn:E; try reflexivity.
  unfold Array_len. rewrite body_of_forget_pad, E.
  destruct c; [reflexivity|]. now rewrite get_items_forget.
Qed.

Lemma sum_sizes_ext (sz sz' : handle -> outcome Z) (items : list handle) :
  (forall x, sz x = sz' x) -> sum_sizes sz items = sum_sizes sz' items.
Proof.
  intros Hext. induction items as [|it items IH]; [reflexivity|].
  cbn [sum_sizes]. now rewrite Hext, IH.
Qed.

Lemma offset_of_loop_ext (sz sz' : handle -> outcome Z) (target : handle) :
  (forall x, sz x = sz' x) ->
  forall items acc, offset_of_loop sz items target acc = offset_of_loop sz' items target acc.
Proof.
  intros Hext. induction items as [|it items IH]; intros acc; [reflexivity|].
  cbn [offset_of_loop]. destruct (handle_is it target); [reflexivity|].
  rewrite Hext. destruct (sz' it); cbn [obind]; auto.
Qed.

Lemma offset_with_forget (sz sz' : handle -> outcome Z) (h : heap) (x : handle) :
  (forall y, sz y = sz' y) ->
  offset_with ct sz (forget_pad <$> h) x = offset_with ct sz' h x.
Proof.
  intros Hext. unfold offset_with. rewrite deref_forget.
  destruct (deref h x) as [o| |]; cbn [obind]; try reflexivity.
  rewrite parent_forget_pad. destruct (parent o) as [p|]; [|reflexivity].
  unfold offset_of_with. rewrite deref_forget.
  destruct (deref h p) as [c| |]; cbn [obind]; try reflexivity.
  rewrite get_items_forget. destruct (get_items ct h p c true); cbn [obind];
    try reflexivity.
  now apply offset_of_loop_ext.
Qed.

Lemma size_forget (k : nat) (h : heap) :
  forall x, size ct k (forget_pad <$> h) x = size ct k h x.
Proof.
  induction k as [|k IH]; intros x; [reflexivity|].
  cbn [size]. unfold size_step. rewrite deref_forget.
  destruct (deref h x) as [o| |]; cbn [obind]; try reflexivity.
  rewrite get_items_forget, is_built_forget_pad,
    (offset_with_forget _ (size ct k h) h x IH), body_of_forget_pad.
  destruct (body_of o) as [| | | | | |A pad] eqn:E; try reflexivity.
  - destruct (get_items ct h x o true); cbn [obind]; try reflexivity.
    now apply sum_sizes_ext.
  - destruct (get_items ct h x o true); cbn [obind]; try reflexivity.
    now apply sum_sizes_ext.
  - destruct (negb (_is_built o)); [reflexivity|]. destruct _item as [i|]; [|reflexivity].
    rewrite datum_truth_forget.
    destruct (datum_truth ct h (Ref i)) as [[|]| |]; cbn [obind]; auto.
Qed.

Lemma offset_forget (k : nat) (h : heap) (x : handle) :
  offset ct k (forget_pad <$> h) x = offset ct k h x.
Proof. unfold offset. apply offset_with_forget. apply size_forget. Qed.

(** Storing a padding in an [Align] changes no size and no offset. *)
Lemma store_pad_keeps_sizes (h : heap) (r : ref) (o : obj) (A : Z) (pad0 pad : option Z) :
  h !! r = Some o -> body_of o = BAlign A pad0 ->
  forall k x,
    size ct k (<[r := set_body (BAlign A pad) o]> h) x = size ct k h x
    /\ offset ct k (<[r := set_body (BAlign A pad) o]> h) x = offset ct k h x.
Proof.
  intros Hr Hb k x.
  assert (Hsame : forget_pad <$> <[r := set_body (BAlign A pad) o]> h = forget_pad <$> h).
  { rewrite list_fmap_insert.
    assert (Hf : forget_pad (set_body (BAlign A pad) o) = forget_pad o)
      by (unfold forget_pad; cbn [body_of set_body]; rewrite Hb; reflexivity).
    rewrite Hf. apply list_insert_id. unfold ref in *.
    rewrite list_lookup_fmap, Hr. reflexivity. }
  split.
  - now rewrite <- size_forget, Hsame, size_forget.
  - now rewrite <- offset_forget, Hsame, offset_forget.
Qed.

(** C5, as the code has it.  The size of an [Align(A)], built or not, is
    [(A - O mod A) mod A] for [O] its offset within its parent ([offset()] is
    relative to the parent).  Building one with [A < 2] fails with a
    specification error; building one with [A >= 2] succeeds when its offset
    can be computed, and right after the build its offset is the same, its
    size follows the formula and its bytes are exactly that many zero
    bytes.  The bytes of a built [Align] whose stored padding is the one the
    formula gives for its offset are that many zero bytes. *)
Theorem align_law
  (h : heap) (r : ref) (o : obj) (A : Z) (pad0 : option Z) (n m : nat) :
  h !! r = Some o -> body_of o = BAlign A pad0 ->
  let pad_at (O : Z) := (A - O mod A) mod A in
  (forall k off, A <> 0 -> offset ct k h (Ref r) = Ok off ->
     size ct (S k) h (Ref r) = Ok (pad_at off))
  /\ (_is_instance o = true -> _is_built o = false ->
      (A < 2 -> forall d, raises (fst (build ct root_path fs (S n) r d h)) SpecError)
      /\ (2 <= A -> forall d,
            match offset ct n (<[r := set_built o]> h) (Ref r) with
            | Ok off =>
                exists h',
                  build ct root_path fs (S (S n)) r d h = (Ok tt, h')
                  /\ offset ct n h' (Ref r) = Ok off
                  /\ size ct (S n) h' (Ref r) = Ok (pad_at off)
                  /\ get_bytes ct (S m) h' (Ref r) = Ok (repeat x00 (Z.to_nat (pad_at off)))
            | Raise e =>
                build ct root_path fs (S (S n)) r d h = (Raise e, <[r := set_built o]> h)
            | OutOfFuel => fst (build ct root_path fs (S (S n)) r d h) = OutOfFuel
            end))
  /\ (_is_instance o = true -> _is_built o = true ->
      forall k off, 2 <= A -> offset ct k h (Ref r) = Ok off -> pad0 = Some (pad_at off) ->
        size ct (S k) h (Ref r) = Ok (pad_at off)
        /\ get_bytes ct (S m) h (Ref r) = Ok (repeat x00 (Z.to_nat (pad_at off)))).
Proof.
  intros Hr Hb pad_at.
  assert (Hsize : forall g oo p0, g !! r = Some oo -> body_of oo = BAlign A p0 ->
            forall k off, A <> 0 -> offset ct k g (Ref r) = Ok off ->
                        size ct (S k) g (Ref r) = Ok (pad_at off)).
  { intros g oo p0 Hg Hbo k off HA HO. rewrite (size_Align k g r oo A p0 Hg Hbo), HO.
    cbn [obind]. destruct (Z.eqb_spec A 0); [lia|reflexivity]. }
  assert (Hbytes : forall g oo off, g !! r = Some oo -> body_of oo = BAlign A (Some (pad_at off)) ->
            _is_instance oo = true -> _is_built oo = true -> 2 <= A ->
            get_bytes ct (S m) g (Ref r) = Ok (repeat x00 (Z.to_nat (pad_at off)))).
  { intros g oo off Hg Hbo Hio Hbu HA. cbn [get_bytes]. unfold get_bytes_step. cbn [deref].
    rewrite (lookup_ref_Some _ _ _ Hg). cbn [obind]. rewrite Hio, Hbu, Hbo. cbn [negb].
    pose proof (align_pad_range A off HA).
    destruct (Z.ltb_spec (pad_at off) 0); [unfold pad_at in *; lia|reflexivity]. }
  split; [|split].
  - now apply (Hsize h o pad0).
  - intros Hi Hu.
    assert (Hr1 : <[r := set_built o]> h !! r = Some (set_built o))
      by (eapply lookup_insert_same; eauto).
    assert (Hstart : forall k d, build ct root_path fs (S k) r d h =
              Align_build ct k r (<[r := set_built o]> h)).
    { intros k d. cbn [build]. unfold bind, reading, throw.
      rewrite (lookup_ref_Some _ _ _ Hr), Hi, Hu. cbn [negb].
      rewrite (modify_Some _ _ _ _ Hr).
      unfold _build, bind, reading. rewrite (lookup_ref_Some _ _ _ Hr1).
      cbn [body_of set_built]. rewrite Hb. reflexivity. }
    split.
    + intros HA d. rewrite Hstart. unfold Align_build, bind, reading, throw.
      rewrite (lookup_ref_Some _ _ _ Hr1). cbn [body_of set_built]. rewrite Hb.
      destruct (Z.ltb_spec A 2); [reflexivity|lia].
    + intros HA d. rewrite Hstart. unfold Align_build, bind, reading, throw.
      rewrite (lookup_ref_Some _ _ _ Hr1). cbn [body_of set_built]. rewrite Hb.
      destruct (Z.ltb_spec A 2); [lia|].
      rewrite (size_Align n _ r (set_built o) A pad0 Hr1) by (cbn; exact Hb).
      destruct (offset ct n (<[r:=set_built o]> h) (Ref r)) as [off| |] eqn:HO;
        cbn [obind]; try reflexivity.
      destruct (Z.eqb_spec A 0); [lia|].
      rewrite (assign_Some _ _ _ _ Hr1). cbn [body_of set_built]. rewrite Hb.
      cbn [store_pad_amount]. fold (pad_at off).
      set (o' := set_body (BAlign A (Some (pad_at off))) (set_built o)).
      assert (Hr2 : <[r:=o']> (<[r:=set_built o]> h) !! r = Some o')
        by (eapply lookup_insert_same; eauto).
      assert (HO' : offset ct n (<[r:=o']> (<[r:=set_built o]> h)) (Ref r) = Ok off).
      { rewrite <- HO.
        apply (store_pad_keeps_sizes _ r (set_built o) A pad0 (Some (pad_at off)) Hr1 Hb). }
      eexists. split; [reflexivity|]. split; [exact HO'|]. split.
      * apply (Hsize _ o' (Some (pad_at off)) Hr2 eq_refl); [lia|exact HO'].
      * apply (Hbytes _ o' off Hr2 eq_refl); [exact Hi|reflexivity|exact HA].
  - intros Hi Hbu k off HA HO Hpad. subst pad0. split.
    + apply (Hsize h o _ Hr Hb); [lia|exact HO].
    + now apply (Hbytes h o off Hr Hb).
Qed.

(** ** Type refinement *)

(** C7: for a slot declared with model [m], in a block (the field of an
    entry) and in an array (an element), and an input [(sub, payload)] whose
    first element is a datum: when the class of [sub] is a subclass of the
    class of [m] the container instantiates [sub] under itself and builds
    that instance with [payload]; otherwise it raises the build error
    "Dynamically-resolved Datatype X is not a child of M" and changes
    nothing.  A pair whose first element is not a datum is the data of [m]:
    the container instantiates [m] and builds the instance with the pair. *)
Theorem packed_type_refinement
  (h : heap) (m sub : ref) (mo so : obj) (payload : any)
  (build_rec : ref -> any -> M unit) :
  h !! m = Some mo -> h !! sub = Some so ->
  let packed := VTuple [VDatum sub; payload] in
  let not_a_child :=
    mk_exn BuildError
      ("Dynamically-resolved Datatype " +:+ type_name ct (cls_of so)
       +:+ " is not a child of " +:+ type_name ct (cls_of mo)) [] in
  let element_note (elem : string) (i : nat) :=
    "Array[" +:+ elem +:+ "] -> (element " +:+ pretty i +:+ ")" in
  (forall parent_ it, model it = m -> data it = packed ->
     install_item ct build_rec parent_ it h =
     if issubclass ct (cls_of so) (cls_of mo)
     then (let* item := instantiate sub (Some (Ref parent_)) in
           let* _ := setattr parent_ (name it) item in
           build_rec item payload) h
     else (Raise not_a_child, h))
  /\ (forall self elem rest i items,
     Array_process_loop ct build_rec self m elem (packed :: rest) i items h =
     if issubclass ct (cls_of so) (cls_of mo)
     then (let* item := instantiate sub (Some (Ref self)) in
           let* _ := annotate (build_rec item payload) (element_note elem i) in
           Array_process_loop ct build_rec self m elem rest (S i) (items ++ [item])) h
     else (Raise not_a_child, h))
  /\ (forall a b, (forall r, a <> VDatum r) ->
      (forall parent_ it, model it = m -> data it = VTuple [a; b] ->
         install_item ct build_rec parent_ it h =
         (let* item := instantiate m (Some (Ref parent_)) in
          let* _ := setattr parent_ (name it) item in
          build_rec item (VTuple [a; b])) h)
      /\ (forall self elem rest i items,
         Array_process_loop ct build_rec self m elem (VTuple [a; b] :: rest) i items h =
         (let* item := instantiate m (Some (Ref self)) in
          let* _ := annotate (build_rec item (VTuple [a; b])) (element_note elem i) in
          Array_process_loop ct build_rec self m elem rest (S i) (items ++ [item])) h)).
Proof.
  intros Hm Hsub packed not_a_child element_note.
  assert (Hu : _unpack_type ct h m packed =
               if issubclass ct (cls_of so) (cls_of mo) then Ok (sub, payload)
               else Raise not_a_child).
  { unfold _unpack_type, packed. cbn [_is_packed_type negb].
    rewrite (lookup_ref_Some _ _ _ Hsub), (lookup_ref_Some _ _ _ Hm). cbn [obind].
    destruct (issubclass ct (cls_of so) (cls_of mo)); reflexivity. }
  assert (Hplain : forall a b, (forall r, a <> VDatum r) ->
            _unpack_type ct h m (VTuple [a; b]) = Ok (m, VTuple [a; b])).
  { intros a b Ha. unfold _unpack_type. destruct a; try reflexivity. now destruct (Ha r). }
  assert (Hno : forall l, data_isinstance ct h (VTuple l) m = false) by reflexivity.
  unfold packed in *. clear packed.
  split; [|split; [|intros a b Ha; split]].
  - intros parent_ it Hmodel Hdata. unfold install_item.
    rewrite Hdata, Hmodel, Hno. unfold bind at 1. unfold reading. rewrite Hu.
    destruct (issubclass ct (cls_of so) (cls_of mo)); reflexivity.
  - intros self elem rest i items. cbn [Array_process_loop].
    rewrite Hno. unfold bind at 1. unfold reading. rewrite Hu.
    destruct (issubclass ct (cls_of so) (cls_of mo)); reflexivity.
  - intros parent_ it Hmodel Hdata. unfold install_item.
    rewrite Hdata, Hmodel, Hno. unfold bind at 1. unfold reading.
    rewrite (Hplain a b Ha). reflexivity.
  - intros self elem rest i items. cbn [Array_process_loop].
    rewrite Hno. unfold bind at 1. unfold reading.
    rewrite (Hplain a b Ha). reflexivity.
Qed.

(** ** Declared fields *)







End EngineFacts.

(** ** The field-resolution loop *)

Section ResolverFacts.

Variable build_item : BlockItem -> heap -> outcome unit * BlockItem * heap.
Variable note : BlockItem -> string.

(** What an attempt does to the entry: a successful one marks it done, a
    failed one leaves it not done; the name never changes. *)
Hypothesis build_item_ok : forall it h u it' h',
  build_item it h = (Ok u, it', h') -> done it' = true /\ name it' = name it.
Hypothesis build_item_raise : forall it h e it' h',
  build_item it h = (Raise e, it', h') -> done it' = done it /\ name it' = name it.












End ResolverFacts.

Section BlockFacts.

Variable ct : class_table.
Variable root_path : option string.
Variable fs : string -> option (list byte).






End BlockFacts.

(** ** Building touches the datum being built and new objects only *)

Lemma stable_refl (o : obj) : stable o o.
Proof. unfold stable. auto. Qed.

Lemma stable_trans (o1 o2 o3 : obj) : stable o1 o2 -> stable o2 o3 -> stable o1 o3.
Proof.
  unfold stable. intros (?&?&?&?&?) (?&?&?&?&?). repeat split; try congruence. auto.
Qed.

Lemma stable_set_body (b : body) (o : obj) :
  body_kind b = body_kind (body_of o) -> stable o (set_body b o).
Proof. unfold stable. cbn. auto. Qed.

Lemma stable_set_built (o : obj) : stable o (set_built o).
Proof. unfold stable. cbn. auto. Qed.

Lemma store_int_kind v : kind_preserving (store_int v).
Proof. now intros []. Qed.
Lemma store_data_kind bs : kind_preserving (store_data bs).
Proof. now intros []. Qed.
Lemma store_attr_kind nm item : kind_preserving (store_attr nm item).
Proof. now intros []. Qed.
Lemma store_model_kind m : kind_preserving (store_model m).
Proof. now intros []. Qed.
Lemma store_item_count_kind c : kind_preserving (store_item_count c).
Proof. now intros []. Qed.
Lemma store_items_kind its : kind_preserving (store_items its).
Proof. now intros []. Qed.
Lemma store_item_kind i : kind_preserving (store_item i).
Proof. now intros []. Qed.
Lemma store_pad_amount_kind p : kind_preserving (store_pad_amount p).
Proof. now intros []. Qed.

#[local] Hint Resolve store_int_kind store_data_kind store_attr_kind store_model_kind
  store_item_count_kind store_items_kind store_item_kind store_pad_amount_kind : core.

Global Instance stable_reflexive : Reflexive stable := stable_refl.
Global Instance stable_transitive : Transitive stable := stable_trans.

Section Framing.

Variable R : obj -> obj -> Prop.
Context `{!Reflexive R, !Transitive R}.

Lemma keeps_refl (b : nat) (r : ref) (h : heap) : keeps R b r h h.
Proof. unfold keeps. repeat split; auto. intros o Ho. exists o. auto. Qed.

Lemma keeps_trans (b : nat) (r : ref) (h1 h2 h3 : heap) :
  keeps R b r h1 h2 -> keeps R b r h2 h3 -> keeps R b r h1 h3.
Proof.
  intros (Hl1 & Ho1 & Hs1) (Hl2 & Ho2 & Hs2). repeat split.
  - lia.
  - intros i Hi Hne. rewrite Ho2, Ho1; auto.
  - intros o Ho. destruct (Hs1 o Ho) as (o2 & Ho2' & Hst1).
    destruct (Hs2 o2 Ho2') as (o3 & Ho3 & Hst2).
    exists o3. split; [exact Ho3|]. etransitivity; eauto.
Qed.

Lemma keeps_alloc (b : nat) (r : ref) (h : heap) (o : obj) :
  (b <= length h)%nat -> keeps R b r h (h ++ [o]).
Proof.
  intros Hb. repeat split.
  - rewrite length_app. lia.
  - intros i Hi Hne. apply lookup_app_l. lia.
  - intros o' Ho'. exists o'. split; [now apply lookup_app_l_Some|reflexivity].
Qed.

Lemma keeps_modify_self (b : nat) (r : ref) (h : heap) (o : obj) (f : obj -> obj) :
  h !! r = Some o -> R o (f o) -> keeps R b r h (<[r := f o]> h).
Proof.
  intros Hr Hst. repeat split.
  - now rewrite length_insert.
  - intros i Hi Hne. now apply list_lookup_insert_ne.
  - intros o' Ho'. assert (o' = o) as -> by congruence.
    exists (f o). split; [|exact Hst]. eapply lookup_insert_same; eauto.
Qed.

Lemma keeps_modify_other (b : nat) (r x : ref) (h : heap) (o : obj) :
  (b <= x)%nat -> x <> r -> keeps R b r h (<[x := o]> h).
Proof.
  intros Hb Hne. repeat split.
  - now rewrite length_insert.
  - intros i Hi Hir. apply list_lookup_insert_ne. lia.
  - intros o' Ho'. exists o'. split; [|reflexivity].
    rewrite list_lookup_insert_ne; auto.
Qed.

(** A nested build of a new object [x] keeps the store around [r]. *)
Lemma keeps_child (b : nat) (r x : ref) (h h' : heap) :
  (b <= length h)%nat -> (b <= x)%nat -> x <> r ->
  keeps stable (length h) x h h' -> keeps R b r h h'.
Proof.
  intros Hbh Hb Hne (Hl & Ho & Hs). repeat split.
  - exact Hl.
  - intros i Hi Hir. apply Ho; lia.
  - intros o Hr. exists o. split; [|reflexivity].
    rewrite Ho; auto. eapply lookup_lt_Some; eauto.
Qed.

(** *** The rules of [framed] *)


Lemma framed_ret {A} (b : nat) (r : ref) (Q : A -> Prop) (a : A) :
  Q a -> framed R b r Q (ret a).
Proof.
  intros Ha h res h' _ [= <- <-]. split; [apply keeps_refl|]. now intros ? [= <-].
Qed.

Lemma framed_reading {A} (b : nat) (r : ref) (f : heap -> outcome A) :
  framed R b r (fun _ => True) (reading f).
Proof. intros h res h' _ [= <- <-]. split; [apply keeps_refl|auto]. Qed.

Lemma framed_throw {A} (b : nat) (r : ref) (Q : A -> Prop) (k : error_kind) (msg : string) :
  framed R b r Q (throw k msg).
Proof. intros h res h' _ [= <- <-]. split; [apply keeps_refl|]. discriminate. Qed.

Lemma framed_bind {A B} (b : nat) (r : ref) (Q : A -> Prop) (Q' : B -> Prop)
      (m : M A) (f : A -> M B) :
  framed R b r Q m -> (forall a, Q a -> framed R b r Q' (f a)) -> framed R b r Q' (bind m f).
Proof.
  intros Hm Hf h res h' Hb. unfold bind.
  destruct (m h) as [[a|e|] h1] eqn:E; destruct (Hm _ _ _ Hb E) as [Hk Hq].
  - intros E2.
    assert (Hb1 : (b <= length h1)%nat) by (destruct Hk; lia).
    destruct (Hf a (Hq a eq_refl) h1 res h' Hb1 E2) as [Hk2 Hq2].
    split; [eapply keeps_trans; eauto|exact Hq2].
  - intros [= <- <-]. split; [exact Hk|discriminate].
  - intros [= <- <-]. split; [exact Hk|discriminate].
Qed.

Lemma framed_alloc (b : nat) (r : ref) (o : obj) : framed R b r (fresh b) (alloc o).
Proof.
  intros h res h' Hb [= <- <-]. split; [now apply keeps_alloc|].
  intros a [= <-]. exact Hb.
Qed.

Lemma framed_modify_self (b : nat) (r : ref) (f : obj -> obj) :
  (forall o, R o (f o)) -> framed R b r (fun _ => True) (modify r f).
Proof.
  intros Hf h res h' Hb. unfold modify. destruct (h !! r) as [o|] eqn:E.
  - intros [= <- <-]. split; [now apply keeps_modify_self|auto].
  - intros [= <- <-]. split; [apply keeps_refl|auto].
Qed.

Lemma framed_modify_fresh (b : nat) (r x : ref) (f : obj -> obj) :
  (r < b)%nat -> fresh b x -> framed R b r (fun _ => True) (modify x f).
Proof.
  intros Hr Hx h res h' Hb. unfold fresh in Hx. unfold modify.
  destruct (h !! x) as [o|] eqn:E.
  - intros [= <- <-]. split; [apply keeps_modify_other; lia|auto].
  - intros [= <- <-]. split; [apply keeps_refl|auto].
Qed.

Lemma framed_annotate {A} (b : nat) (r : ref) (Q : A -> Prop) (m : M A) (note : string) :
  framed R b r Q m -> framed R b r Q (annotate m note).
Proof.
  intros Hm h res h' Hb. unfold annotate.
  destruct (m h) as [[a|e|] h1] eqn:E; destruct (Hm _ _ _ Hb E) as [Hk Hq];
    intros [= <- <-]; (split; [exact Hk|]); auto; discriminate.
Qed.

Lemma framed_child (b : nat) (r x : ref) (build_rec : ref -> any -> M unit) (d : any) :
  rec_ok build_rec -> (r < b)%nat -> fresh b x ->
  framed R b r (fun _ => True) (build_rec x d).
Proof.
  intros Hrec Hr Hx h res h' Hb E. unfold fresh in Hx. split; [|auto].
  apply (keeps_child b r x); auto; [lia|]. eapply Hrec; eauto.
Qed.

End Framing.

Lemma framed_assign (b : nat) (r : ref) (f : body -> body) :
  kind_preserving f -> framed stable b r (fun _ => True) (assign r f).
Proof.
  intros Hf. apply (framed_modify_self stable). intros o. apply stable_set_body, Hf.
Qed.

Lemma framed_assign_fresh (R : obj -> obj -> Prop) `{!Reflexive R} (b : nat) (r x : ref)
      (f : body -> body) :
  (r < b)%nat -> fresh b x -> framed R b r (fun _ => True) (assign x f).
Proof. intros Hr Hx. now apply (framed_modify_fresh R). Qed.

Section FrameFacts.

Variable ct : class_table.
Variable root_path : option string.
Variable fs : string -> option (list byte).

Section AnyRelation.

Variable R : obj -> obj -> Prop.
Context `{!Reflexive R, !Transitive R}.

Lemma framed_instantiate (b : nat) (r m : ref) (p : option handle) :
  framed R b r (fresh b) (instantiate m p).
Proof.
  unfold instantiate. eapply (framed_bind R); [apply (framed_reading R)|].
  intros o' _. apply (framed_alloc R).
Qed.

Lemma framed_init_fields (b : nat) (r x : ref) (fields : list (string * ref)) :
  (r < b)%nat -> fresh b x -> framed R b r (fun _ => True) (init_fields x fields).
Proof.
  intros Hr Hx. induction fields as [|[nm m] fields IH]; cbn [init_fields].
  - now apply (framed_ret R).
  - eapply (framed_bind R); [apply framed_instantiate|]. intros item _.
    eapply (framed_bind R); [now apply (framed_assign_fresh R)|]. intros _ _. exact IH.
Qed.

Lemma framed_new_Block (b : nat) (r : ref) (c : cls) (default : option any) :
  (r < b)%nat -> framed R b r (fresh b) (new_Block ct c default).
Proof.
  intros Hr. unfold new_Block.
  eapply (framed_bind R); [apply (framed_alloc R)|]. intros x Hx.
  eapply (framed_bind R); [now apply framed_init_fields|]. intros _ _.
  eapply (framed_bind R); [now apply (framed_modify_fresh R)|]. intros _ _.
  now apply (framed_ret R).
Qed.

Lemma framed_construct (b : nat) (r : ref) (g : generic) :
  (r < b)%nat -> framed R b r (fresh b) (construct ct g).
Proof.
  intros Hr. destruct g as [|c]; cbn [construct]; [apply (framed_throw R)|].
  destruct (issubclass ct c CBlock); [now apply framed_new_Block|].
  destruct c; try apply (framed_throw R); apply (framed_alloc R).
Qed.

Section AnyRelationRec.

Variable build_rec : ref -> any -> M unit.
Hypothesis Hrec : rec_ok build_rec.

Lemma framed_Array_process_loop (b : nat) (r m : ref) (elem : string) :
  (r < b)%nat ->
  forall xs i items,
    framed R b r (fun _ => True) (Array_process_loop ct build_rec r m elem xs i items).
Proof.
  intros Hr. induction xs as [|x xs IH]; intros i items; cbn [Array_process_loop].
  - now apply (framed_ret R).
  - intros h res h' Hb. destruct (data_isinstance ct h x m).
    + destruct x; try (intros [= <- <-]; split; [apply (keeps_refl R)|auto]).
      apply IH; exact Hb.
    + revert h res h' Hb.
      change (framed R b r (fun _ : list ref => True)
        (let* um := reading (fun h => _unpack_type ct h m x) in
         let* item := instantiate (fst um) (Some (Ref r)) in
         let* _ := annotate (build_rec item (snd um))
                     ("Array[" +:+ elem +:+ "] -> (element " +:+ pretty i +:+ ")") in
         Array_process_loop ct build_rec r m elem xs (S i) (items ++ [item]))).
      eapply (framed_bind R); [apply (framed_reading R)|]. intros um _.
      eapply (framed_bind R); [apply framed_instantiate|]. intros item Hitem.
      eapply (framed_bind R); [apply (framed_annotate R); now apply (framed_child R)|].
      intros _ _. apply IH.
Qed.

End AnyRelationRec.

End AnyRelation.

Section WithRec.

Variable build_rec : ref -> any -> M unit.
Hypothesis Hrec : rec_ok build_rec.

Local Abbreviation R := stable.

Lemma framed_setattr_self (b : nat) (r : ref) (nm : string) (item : ref) :
  framed R b r (fun _ => True) (setattr r nm item).
Proof. apply framed_assign. auto. Qed.


Lemma framed_install_item (b : nat) (r : ref) (it : BlockItem) :
  (r < b)%nat -> framed R b r (fun _ => True) (install_item ct build_rec r it).
Proof.
  intros Hr h res h' Hb. unfold install_item.
  destruct (data_isinstance ct h (data it) (model it)).
  - destruct (data it); try (intros [= <- <-]; split; [apply (keeps_refl R)|auto]).
    apply framed_setattr_self; exact Hb.
  - revert h res h' Hb. change (framed R b r (fun _ : unit => True)
      (let* um := reading (fun h => _unpack_type ct h (model it) (data it)) in
       let* item := instantiate (fst um) (Some (Ref r)) in
       let* _ := setattr r (name it) item in
       build_rec item (snd um))).
    eapply (framed_bind R); [apply (framed_reading R)|]. intros um _.
    eapply (framed_bind R); [apply (framed_instantiate R)|]. intros item Hitem.
    eapply (framed_bind R); [apply framed_setattr_self|]. intros _ _.
    now apply (framed_child R).
Qed.

Lemma BlockItem_build_keeps (b : nat) (r : ref) (a : api) (it it' : BlockItem)
      (h h' : heap) (res : outcome unit) :
  (r < b)%nat -> (b <= length h)%nat ->
  BlockItem_build ct build_rec a r it h = (res, it', h') -> keeps R b r h h'.
Proof.
  intros Hr Hb. unfold BlockItem_build.
  destruct (run_setter ct a h r it) as [it1| |];
    try (intros [= <- <- <-]; apply (keeps_refl R)).
  destruct (install_item ct build_rec r it1 h) as [[[]| |] h1] eqn:E;
    intros [= <- <- <-]; eapply (framed_install_item b r it1 Hr); eauto.
Qed.

Lemma Block_pass_keeps (b : nat) (r : ref) (a : api) (note : BlockItem -> string) :
  (r < b)%nat ->
  forall items p h res h',
    (b <= length h)%nat ->
    Block_pass (BlockItem_build ct build_rec a r) note items p h = (res, h') ->
    keeps R b r h h'.
Proof.
  intros Hr. induction items as [|it items IH]; intros p h res h' Hb H.
  - cbn in H. injection H as <- <-. apply (keeps_refl R).
  - cbn [Block_pass] in H. destruct (done it).
    + destruct (Block_pass _ note items p h) as [[[rest q]| |] h1] eqn:Hp;
        injection H as <- <-; eapply IH; eauto.
    + destruct (BlockItem_build ct build_rec a r it h) as [[res1 it1] h1] eqn:Hbi.
      pose proof (BlockItem_build_keeps b r a it it1 h h1 res1 Hr Hb Hbi) as Hk1.
      assert (Hb1 : (b <= length h1)%nat) by (destruct Hk1; lia).
      destruct res1 as [u|e|].
      * destruct (Block_pass _ note items true h1) as [[[rest q]| |] h2] eqn:Hp;
          injection H as <- <-; (eapply (keeps_trans R); [exact Hk1|eapply IH; eauto]).
      * destruct (is_error_kind (kind e) DependencyError).
        -- destruct (Block_pass _ note items p h1) as [[[rest q]| |] h2] eqn:Hp;
             injection H as <- <-; (eapply (keeps_trans R); [exact Hk1|eapply IH; eauto]).
        -- injection H as <- <-. exact Hk1.
      * injection H as <- <-. exact Hk1.
Qed.

Lemma Block_loop_keeps (b : nat) (r : ref) (a : api) (note : BlockItem -> string) :
  (r < b)%nat ->
  forall passes items h res h',
    (b <= length h)%nat ->
    Block_loop (BlockItem_build ct build_rec a r) note passes items h = (res, h') ->
    keeps R b r h h'.
Proof.
  intros Hr. induction passes as [|passes IH]; intros items h res h' Hb H.
  - cbn [Block_loop] in H. destruct (forallb done items); injection H as <- <-;
      apply (keeps_refl R).
  - cbn [Block_loop] in H. destruct (forallb done items);
      [injection H as <- <-; apply (keeps_refl R)|].
    destruct (Block_pass _ note items false h) as [[[items' q]| |] h1] eqn:Hp;
      pose proof (Block_pass_keeps b r a note Hr _ _ _ _ _ Hb Hp) as Hk1.
    + destruct q.
      * eapply (keeps_trans R); [exact Hk1|]. eapply IH; [|exact H]. destruct Hk1; lia.
      * injection H as <- <-. exact Hk1.
    + injection H as <- <-. exact Hk1.
    + injection H as <- <-. exact Hk1.
Qed.

Lemma framed_Block_process (b : nat) (r : ref) (n : nat) (kv : list (string * any)) :
  (r < b)%nat -> framed R b r (fun _ => True) (Block_process ct build_rec n r kv).
Proof.
  intros Hr h res h' Hb. unfold Block_process.
  destruct (lookup_ref h r) as [o| |]; try (intros [= <- <-]; split; [apply (keeps_refl R)|auto]).
  intros H. split; [|auto]. eapply Block_loop_keeps; eauto.
Qed.

Lemma framed_Array_preprocess (b : nat) (r : ref) (d : any) :
  (r < b)%nat -> framed R b r (fun _ => True) (Array_preprocess ct r d).
Proof.
  intros Hr. unfold Array_preprocess.
  eapply (framed_bind R); [apply (framed_reading R)|]. intros o _.
  destruct (body_of o) as [| | | |m count its| |]; try apply (framed_throw R).
  eapply (framed_bind R) with (Q := fun _ => True).
  - destruct m; [now apply (framed_ret R)|].
    destruct (_generic_type o); [|apply (framed_throw R)].
    eapply (framed_bind R); [now apply (framed_construct R)|]. intros x _.
    apply framed_assign. auto.
  - intros _ _. destruct (as_sequence d) as [xs|].
    + destruct count as [c|].
      * destruct (c <? 0); [apply (framed_throw R)|].
        destruct (negb _); [apply (framed_throw R)|now apply (framed_ret R)].
      * eapply (framed_bind R); [|intros _ _; now apply (framed_ret R)].
        apply framed_assign. auto.
    + intros h res h' _ [= <- <-]. split; [apply (keeps_refl R)|discriminate].
Qed.

Lemma framed_Array_process (b : nat) (r : ref) (xs : list any) :
  (r < b)%nat -> framed R b r (fun _ => True) (Array_process ct build_rec r xs).
Proof.
  intros Hr. unfold Array_process.
  eapply (framed_bind R); [apply (framed_reading R)|]. intros o _.
  destruct (body_of o) as [| | | |[m|] count its| |]; try apply (framed_throw R).
  eapply (framed_bind R); [apply (framed_reading R)|]. intros elem _.
  eapply (framed_bind R); [now apply (framed_Array_process_loop R)|]. intros items _.
  apply framed_assign. auto.
Qed.

Lemma framed_Optional_build (b : nat) (r : ref) (d : any) :
  (r < b)%nat -> framed R b r (fun _ => True) (Optional_build ct build_rec r d).
Proof.
  intros Hr. unfold Optional_build.
  eapply (framed_bind R); [apply (framed_reading R)|]. intros o _.
  destruct (body_of o) as [| | | | |m it|]; try apply (framed_throw R).
  eapply (framed_bind R); [apply (framed_reading R)|]. intros mo _.
  destruct (negb _); [apply (framed_throw R)|].
  destruct (is_absent d); [now apply (framed_ret R)|].
  eapply (framed_bind R); [apply (framed_instantiate R)|]. intros item Hitem.
  eapply (framed_bind R); [now apply (framed_child R)|]. intros _ _.
  apply framed_assign. auto.
Qed.

Lemma framed_Align_build (b : nat) (r : ref) (n : nat) :
  framed R b r (fun _ => True) (Align_build ct n r).
Proof.
  unfold Align_build.
  eapply (framed_bind R); [apply (framed_reading R)|]. intros o _.
  destruct (body_of o) as [| | | | | |a pad]; try apply (framed_throw R).
  destruct (a <? 2); [apply (framed_throw R)|].
  eapply (framed_bind R); [apply (framed_reading R)|]. intros p _.
  apply framed_assign. auto.
Qed.

Lemma framed__build (b : nat) (r : ref) (n : nat) (d : any) :
  (r < b)%nat -> framed R b r (fun _ => True) (_build ct root_path fs build_rec n r d).
Proof.
  intros Hr. unfold _build.
  eapply (framed_bind R); [apply (framed_reading R)|]. intros o _.
  destruct (body_of o).
  - eapply (framed_bind R); [apply (framed_reading R)|]. intros v _.
    apply framed_assign. auto.
  - eapply (framed_bind R); [apply (framed_reading R)|]. intros v _.
    apply framed_assign. auto.
  - eapply (framed_bind R); [apply (framed_reading R)|]. intros v _.
    apply framed_assign. auto.
  - eapply (framed_bind R); [apply (framed_reading R)|]. intros kv _.
    now apply framed_Block_process.
  - eapply (framed_bind R); [now apply framed_Array_preprocess|]. intros xs _.
    now apply framed_Array_process.
  - now apply framed_Optional_build.
  - apply framed_Align_build.
Qed.

End WithRec.

(** [build] changes the datum it builds, which stays the same datum and
    stays built, and otherwise only adds objects to the store. *)
Lemma build_keeps : forall n, rec_ok (build ct root_path fs n).
Proof.
  induction n as [|n IH]; intros r d h res h' H.
  - injection H as <- <-. apply (keeps_refl stable).
  - destruct (decide (r < length h)%nat) as [Hr|Hr].
    + revert H. cbn [build].
      match goal with |- ?m h = _ -> _ =>
        assert (Hf : framed stable (length h) r (fun _ => True) m) end.
      { eapply (framed_bind stable); [apply (framed_reading stable)|]. intros o _.
        destruct (negb (_is_instance o)); [apply (framed_throw stable)|].
        destruct (_is_built o); [apply (framed_throw stable)|].
        eapply (framed_bind stable); [apply (framed_modify_self stable); intros; apply stable_set_built|].
        intros _ _. now apply framed__build. }
      intros H. now apply (Hf h res h').
    + cbn [build] in H. unfold bind, reading, lookup_ref in H. cbv beta in H.
      rewrite lookup_ge_None_2 in H by lia.
      injection H as <- <-. apply (keeps_refl stable).
Qed.

End FrameFacts.

(** ** The life cycle of a datum *)

Section LifecycleFacts.

Variable ct : class_table.
Variable root_path : option string.
Variable fs : string -> option (list byte).

(** An unbuilt instance is marked built before [_build] runs. *)
Lemma build_unfold (n : nat) (h : heap) (r : ref) (o : obj) (d : any) :
  h !! r = Some o -> _is_instance o = true -> _is_built o = false ->
  build ct root_path fs (S n) r d h =
  _build ct root_path fs (build ct root_path fs n) n r d (<[r := set_built o]> h).
Proof.
  intros Hr Hi Hu. cbn [build]. unfold bind at 1. unfold reading.
  rewrite (lookup_ref_Some _ _ _ Hr), Hi, Hu. cbn [negb].
  unfold bind. now rewrite (modify_Some _ _ _ _ Hr).
Qed.

Lemma build_marks_built (n : nat) (h : heap) (r : ref) (o : obj) (d : any)
      (res : outcome unit) (h' : heap) :
  h !! r = Some o -> _is_instance o = true -> _is_built o = false ->
  build ct root_path fs (S n) r d h = (res, h') ->
  exists o', h' !! r = Some o' /\ _is_built o' = true /\ _is_instance o' = true
             /\ cls_of o' = cls_of o /\ parent o' = parent o.
Proof.
  intros Hr Hi Hu H. rewrite (build_unfold n h r o d Hr Hi Hu) in H.
  assert (Hr1 : <[r := set_built o]> h !! r = Some (set_built o))
    by (eapply lookup_insert_same; eauto).
  assert (Hlt : (r < length (<[r := set_built o]> h))%nat)
    by (eapply lookup_lt_Some; eauto).
  destruct (framed__build ct root_path fs (build ct root_path fs n)
              (build_keeps ct root_path fs n) _ r n d Hlt _ _ _ (le_n _) H)
    as [(_ & _ & Hs) _].
  destruct (Hs _ Hr1) as (o' & Ho' & Hc & Hp & Hinst & Hk & Hb).
  exists o'. cbn in Hc, Hp, Hinst, Hb. repeat split; auto; congruence.
Qed.

(** C9: [build] marks the datum built before the class's [_build] runs, so
    when [_build] raises the datum stays marked: building it again fails with
    the already-built build error, and so does instantiating from it. *)
Theorem build_is_not_atomic
  (n : nat) (h : heap) (r : ref) (o : obj) (d : any) (e : exn) (h' : heap) :
  h !! r = Some o -> _is_instance o = true -> _is_built o = false ->
  build ct root_path fs n r d h = (Raise e, h') ->
  (exists o', h' !! r = Some o' /\ _is_built o' = true /\ _is_instance o' = true)
  /\ (forall m d2, build ct root_path fs (S m) r d2 h'
        = (raise BuildError "Attempted to build an already-built datum", h'))
  /\ (forall p, instantiate r p h'
        = (raise BuildError
             "Attempted to instantiate from a datum that is building or already built", h')).
Proof.
  intros Hr Hi Hu H. destruct n as [|n]; [discriminate|].
  destruct (build_marks_built n h r o d _ h' Hr Hi Hu H) as (o' & Ho' & Hb & Hinst & _).
  split; [eauto|split].
  - intros m d2. cbn [build]. unfold bind at 1. unfold reading.
    rewrite (lookup_ref_Some _ _ _ Ho'), Hinst, Hb. reflexivity.
  - intros p. unfold instantiate, bind, reading.
    rewrite (lookup_ref_Some _ _ _ Ho'). cbn [obind]. unfold instantiate_obj.
    rewrite Hb. reflexivity.
Qed.

End LifecycleFacts.

(** ** Arrays *)

Section ArrayFacts.

Variable ct : class_table.
Variable root_path : option string.
Variable fs : string -> option (list byte).

(** Building the elements leaves the array object itself as it was; only
    the final assignment of [_items] changes it. *)
Lemma Array_process_keeps_count
  (build_rec : ref -> any -> M unit) (a : ref) (xs : list any) (h h' : heap)
  (res : outcome unit) (o : obj) (mm : option ref) (c : option Z) (its : list ref) :
  rec_ok build_rec ->
  h !! a = Some o -> body_of o = BArray mm c its ->
  Array_process ct build_rec a xs h = (res, h') ->
  exists its', h' !! a = Some (set_body (BArray mm c its') o).
Proof.
  intros Hrec Ha Hb. unfold Array_process. unfold bind at 1. unfold reading at 1.
  rewrite (lookup_ref_Some _ _ _ Ha), Hb.
  assert (Hid : h !! a = Some (set_body (BArray mm c its) o)).
  { rewrite Ha. f_equal. destruct o; cbn in *; now subst. }
  destruct mm as [m|]; [|intros [= <- <-]; eauto].
  unfold bind at 1. unfold reading at 1.
  destruct (lookup_ref h m) as [mo| |]; cbn [obind]; try (intros [= <- <-]; eauto).
  unfold bind.
  destruct (Array_process_loop ct build_rec a m (type_name ct (cls_of mo)) xs 0 [] h)
    as [[items| |] h1] eqn:Hl.
  - assert (Hlt : (a < length h)%nat) by (eapply lookup_lt_Some; eauto).
    destruct (framed_Array_process_loop ct eq build_rec Hrec (length h) a m _ Hlt
                xs 0%nat [] h _ h1 (le_n _) Hl) as [(_ & _ & Hs) _].
    destruct (Hs o Ha) as (o' & Ho' & <-).
    rewrite (assign_Some _ _ _ _ Ho'). rewrite Hb. cbn [store_items]. intros [= <- <-].
    exists items. eapply lookup_insert_same; eauto.
  - assert (Hlt : (a < length h)%nat) by (eapply lookup_lt_Some; eauto).
    destruct (framed_Array_process_loop ct eq build_rec Hrec (length h) a m _ Hlt
                xs 0%nat [] h _ h1 (le_n _) Hl) as [(_ & _ & Hs) _].
    destruct (Hs o Ha) as (o' & Ho' & <-). intros [= <- <-].
    exists its. rewrite Ho'. f_equal. destruct o; cbn in *; now subst.
  - assert (Hlt : (a < length h)%nat) by (eapply lookup_lt_Some; eauto).
    destruct (framed_Array_process_loop ct eq build_rec Hrec (length h) a m _ Hlt
                xs 0%nat [] h _ h1 (le_n _) Hl) as [(_ & _ & Hs) _].
    destruct (Hs o Ha) as (o' & Ho' & <-). intros [= <- <-].
    exists its. rewrite Ho'. f_equal. destruct o; cbn in *; now subst.
Qed.

Lemma set_body_same (o : obj) (b : body) : body_of o = b -> set_body b o = o.
Proof. intros <-. now destruct o. Qed.


(** The count check of [Array._preprocess] on an array that has an element
    model. *)
Lemma Array_preprocess_with_model
  (a : ref) (d : any) (xs : list any) (h : heap) (o : obj) (m : ref)
  (count : option Z) (its : list ref) :
  h !! a = Some o -> body_of o = BArray (Some m) count its -> as_sequence d = Some xs ->
  Array_preprocess ct a d h =
    match count with
    | None =>
        (Ok xs, <[a := set_body (BArray (Some m) (Some (Z.of_nat (length xs))) its) o]> h)
    | Some c =>
        if c <? 0 then (raise SpecError "Array item count cannot be less than 0", h)
        else if negb (Z.of_nat (length xs) =? c) then
          (raise ValidationError ("Expected " +:+ pretty c +:+ " items, received "
                                  +:+ pretty (Z.of_nat (length xs))), h)
        else (Ok xs, h)
    end.
Proof.
  intros Ha Hb Hseq. unfold Array_preprocess. unfold bind at 1. unfold reading.
  rewrite (lookup_ref_Some _ _ _ Ha), Hb. unfold bind at 1. unfold ret at 1.
  rewrite Hseq. destruct count as [c|].
  - destruct (c <? 0); [reflexivity|]. destruct (negb _); reflexivity.
  - unfold bind, ret. rewrite (assign_Some _ _ _ _ Ha), Hb. reflexivity.
Qed.

(** When [Array._preprocess] returns, the input was a sequence and the
    array's count is its length. *)
Lemma Array_preprocess_ok
  (a : ref) (d : any) (xs : list any) (h h2 : heap) (o : obj) (mm : option ref)
  (count : option Z) (its : list ref) :
  h !! a = Some o -> body_of o = BArray mm count its ->
  Array_preprocess ct a d h = (Ok xs, h2) ->
  as_sequence d = Some xs
  /\ exists mm', h2 !! a
        = Some (set_body (BArray mm' (Some (Z.of_nat (length xs))) its) o).
Proof.
  intros Ha Hb. unfold Array_preprocess. unfold bind at 1. unfold reading.
  rewrite (lookup_ref_Some _ _ _ Ha), Hb. unfold bind at 1.
  assert (Hlt : (a < length h)%nat) by (eapply lookup_lt_Some; eauto).
  destruct (match mm with
            | Some _ => ret ()
            | None => _
            end h) as [[[]| |] h1] eqn:Hm; try discriminate.
  assert (H1 : exists mm', h1 !! a = Some (set_body (BArray mm' count its) o)).
  { destruct mm as [m|].
    - injection Hm as <-. exists (Some m). now rewrite set_body_same.
    - destruct (_generic_type o) as [g|]; [|discriminate].
      unfold bind in Hm. destruct (construct ct g h) as [[x| |] hc] eqn:Hc; try discriminate.
      destruct (framed_construct ct eq (length h) a g Hlt h _ hc (le_n _) Hc)
        as [(_ & _ & Hs) _].
      destruct (Hs o Ha) as (o' & Ho' & <-).
      rewrite (assign_Some _ _ _ _ Ho'), Hb in Hm. injection Hm as <-.
      exists (Some x). eapply lookup_insert_same; eauto. }
  destruct H1 as (mm' & H1).
  destruct (as_sequence d) as [ys|]; [|discriminate].
  destruct count as [c|].
  - destruct (c <? 0); [discriminate|].
    destruct (Z.eqb_spec (Z.of_nat (length ys)) c) as [Hc|Hc]; cbn [negb]; [|discriminate].
    intros [= <- <-]. split; [reflexivity|]. exists mm'. now rewrite Hc.
  - unfold bind, ret. rewrite (assign_Some _ _ _ _ H1). cbn [body_of set_body].
    intros [= <- <-]. split; [reflexivity|]. exists mm'.
    eapply lookup_insert_same; eauto.
Qed.

Lemma build_Array_unfold (n : nat) (h : heap) (a : ref) (o : obj) (d : any)
      (mm : option ref) (count : option Z) (its : list ref) :
  h !! a = Some o -> body_of o = BArray mm count its ->
  _is_instance o = true -> _is_built o = false ->
  build ct root_path fs (S n) a d h =
  (let* xs := Array_preprocess ct a d in
   Array_process ct (build ct root_path fs n) a xs) (<[a := set_built o]> h).
Proof.
  intros Ha Hb Hi Hu. rewrite (build_unfold ct root_path fs n h a o d Ha Hi Hu).
  unfold _build. unfold bind at 1. unfold reading at 1.
  erewrite lookup_ref_Some by (eapply lookup_insert_same; eauto).
  cbn [body_of set_built]. now rewrite Hb.
Qed.

(** [Array._preprocess] on a sequence, for an array whose element model
    [m] is declared or made from its type argument; [hm] is the store once
    the model is known. *)
Lemma Array_preprocess_run
  (a : ref) (d : any) (xs : list any) (h : heap) (o : obj) (mm : option ref)
  (count : option Z) (its : list ref) (m : ref) (hm : heap) :
  h !! a = Some o -> body_of o = BArray mm count its -> as_sequence d = Some xs ->
  match mm with
  | Some m0 => m = m0 /\ hm = h
  | None => exists g hc, _generic_type o = Some g /\ construct ct g h = (Ok m, hc)
                         /\ hm = <[a := set_body (BArray (Some m) count its) o]> hc
  end ->
  hm !! a = Some (set_body (BArray (Some m) count its) o)
  /\ Array_preprocess ct a d h =
     match count with
     | None =>
         (Ok xs, <[a := set_body (BArray (Some m) (Some (Z.of_nat (length xs))) its) o]> hm)
     | Some c =>
         if c <? 0 then (raise SpecError "Array item count cannot be less than 0", hm)
         else if negb (Z.of_nat (length xs) =? c) then
           (raise ValidationError ("Expected " +:+ pretty c +:+ " items, received "
                                   +:+ pretty (Z.of_nat (length xs))), hm)
         else (Ok xs, hm)
     end.
Proof.
  intros Ha Hb Hseq Hmodel. destruct mm as [m0|].
  - destruct Hmodel as [-> ->]. split.
    + rewrite Ha. f_equal. symmetry. now apply set_body_same.
    + apply (Array_preprocess_with_model a d xs h o m0 count its Ha Hb Hseq).
  - destruct Hmodel as (g & hc & Hg & Hc & ->).
    assert (Hlt : (a < length h)%nat) by (eapply lookup_lt_Some; eauto).
    destruct (framed_construct ct eq (length h) a g Hlt h _ hc (le_n _) Hc)
      as [(_ & _ & Hs) _].
    destruct (Hs o Ha) as (o' & Ho' & <-).
    assert (Ha' : <[a := set_body (BArray (Some m) count its) o]> hc !! a
                  = Some (set_body (BArray (Some m) count its) o))
      by (eapply lookup_insert_same; eauto).
    split; [exact Ha'|].
    unfold Array_preprocess. unfold bind at 1. unfold reading.
    rewrite (lookup_ref_Some _ _ _ Ha), Hb, Hg. unfold bind at 1. unfold bind at 1.
    rewrite Hc. rewrite (assign_Some _ _ _ _ Ho'), Hb. cbn [store_model].
    rewrite Hseq. destruct count as [c|].
    + destruct (c <? 0); [reflexivity|]. destruct (negb _); reflexivity.
    + unfold bind, ret. rewrite (assign_Some _ _ _ _ Ha'). reflexivity.
Qed.

(** C8, as the code has it, for an array built with a sequence.  An array
    with neither a declared element model nor a type argument fails with a
    specification error.  For an array that has an element model, declared
    or made from its type argument: a negative declared count fails with a
    specification error; with a declared count [N >= 0], an input of another
    length fails with a validation error, and the count check itself fails
    (with a validation error) exactly when the length is not [N], so that any
    failure of a build with the right length comes from an element; with no
    declared count, the count is set from the input and the array's length
    is the input's from then on, whatever becomes of the elements. *)
Theorem array_length_law
  (n : nat) (h : heap) (a : ref) (o : obj) (mm : option ref) (count : option Z)
  (its : list ref) (d : any) (xs : list any) :
  h !! a = Some o -> body_of o = BArray mm count its ->
  _is_instance o = true -> _is_built o = false ->
  as_sequence d = Some xs ->
  let len := Z.of_nat (length xs) in
  let h1 := <[a := set_built o]> h in
  (mm = None -> _generic_type o = None ->
     raises (fst (build ct root_path fs (S n) a d h)) SpecError)
  /\ (forall m hm,
      match mm with
      | Some m0 => m = m0 /\ hm = h1
      | None => exists g hc, _generic_type o = Some g /\ construct ct g h1 = (Ok m, hc)
                  /\ hm = <[a := set_body (BArray (Some m) count its) (set_built o)]> hc
      end ->
      match count with
      | Some N =>
          (N < 0 -> raises (fst (build ct root_path fs (S n) a d h)) SpecError)
          /\ (0 <= N -> len <> N ->
              raises (fst (build ct root_path fs (S n) a d h)) ValidationError)
          /\ (raises (fst (Array_preprocess ct a d h1)) ValidationError
              <-> 0 <= N /\ len <> N)
          /\ (0 <= N -> len = N -> Array_preprocess ct a d h1 = (Ok xs, hm))
      | None =>
          forall res h', build ct root_path fs (S n) a d h = (res, h') ->
            exists o', h' !! a = Some o' /\ Array_len ct h' (Ref a) o' = Ok len
      end).
Proof.
  intros Ha Hb Hi Hu Hseq len h1.
  assert (Ha1 : h1 !! a = Some (set_built o)) by (eapply lookup_insert_same; eauto).
  assert (Hb1 : body_of (set_built o) = BArray mm count its) by exact Hb.
  pose proof (build_Array_unfold n h a o d _ _ _ Ha Hb Hi Hu) as Hbuild.
  fold h1 in Hbuild. split.
  { intros -> Hg. rewrite Hbuild. unfold bind at 1. unfold Array_preprocess.
    unfold bind at 1. unfold reading. rewrite (lookup_ref_Some _ _ _ Ha1), Hb1.
    cbn [_generic_type set_built]. rewrite Hg. reflexivity. }
  intros m hm Hmodel.
  destruct (Array_preprocess_run a d xs h1 (set_built o) mm count its m hm
              Ha1 Hb1 Hseq Hmodel) as [Hhm Hpre].
  destruct count as [N|].
  - fold len in Hpre. split; [|split; [|split]].
    + intros HN. rewrite Hbuild. unfold bind. rewrite Hpre.
      destruct (Z.ltb_spec N 0); [reflexivity|lia].
    + intros HN Hne. rewrite Hbuild. unfold bind. rewrite Hpre.
      destruct (Z.ltb_spec N 0); [lia|].
      destruct (Z.eqb_spec len N); [lia|reflexivity].
    + rewrite Hpre. destruct (Z.ltb_spec N 0).
      * cbn. split; [discriminate|intros [? _]; lia].
      * destruct (Z.eqb_spec len N); cbn.
        -- split; [intros []|intros [_ ?]; lia].
        -- split; [intros _; lia|reflexivity].
    + intros HN Hlen. rewrite Hpre. destruct (Z.ltb_spec N 0); [lia|].
      destruct (Z.eqb_spec len N); [reflexivity|lia].
  - intros res h'. rewrite Hbuild. unfold bind. rewrite Hpre. fold len.
    set (o2 := set_body _ _). intros Hproc.
    assert (Ha2 : <[a := o2]> hm !! a = Some o2) by (eapply lookup_insert_same; eauto).
    destruct (Array_process_keeps_count (build _ _ _ n) a xs _ h' res o2
                (Some m) (Some len) its (build_keeps ct root_path fs n) Ha2 eq_refl Hproc)
      as (its' & Ho').
    eexists. split; [exact Ho'|]. reflexivity.
Qed.

End ArrayFacts.

(** ** Optional *)

Section OptionalFacts.

Variable ct : class_table.
Variable root_path : option string.
Variable fs : string -> option (list byte).

Lemma build_stable (n : nat) (h : heap) (r : ref) (o : obj) (d : any)
      (res : outcome unit) (h' : heap) :
  h !! r = Some o -> _is_instance o = true -> _is_built o = false ->
  build ct root_path fs (S n) r d h = (res, h') ->
  exists o', h' !! r = Some o' /\ stable (set_built o) o'.
Proof.
  intros Hr Hi Hu H. rewrite (build_unfold ct root_path fs n h r o d Hr Hi Hu) in H.
  assert (Hr1 : <[r := set_built o]> h !! r = Some (set_built o))
    by (eapply lookup_insert_same; eauto).
  assert (Hlt : (r < length (<[r := set_built o]> h))%nat)
    by (eapply lookup_lt_Some; eauto).
  destruct (framed__build ct root_path fs (build ct root_path fs n)
              (build_keeps ct root_path fs n) _ r n d Hlt _ _ _ (le_n _) H)
    as [(_ & _ & Hs) _].
  exact (Hs _ Hr1).
Qed.

Lemma build_Optional_unfold (n : nat) (h : heap) (w : ref) (o : obj) (d : any)
      (m : ref) (it0 : option ref) :
  h !! w = Some o -> body_of o = BOptional m it0 ->
  _is_instance o = true -> _is_built o = false ->
  build ct root_path fs (S n) w d h =
  Optional_build ct (build ct root_path fs n) w d (<[w := set_built o]> h).
Proof.
  intros Hw Hb Hi Hu. rewrite (build_unfold ct root_path fs n h w o d Hw Hi Hu).
  unfold _build. unfold bind at 1. unfold reading at 1.
  erewrite lookup_ref_Some by (eapply lookup_insert_same; eauto).
  cbn [body_of set_built]. now rewrite Hb.
Qed.

(** A successful [Optional._build] on data that is not absent: the inner
    model was instantiated with the wrapper's parent, the new instance was
    built with the data, and the wrapper holds it. *)
Lemma Optional_build_present
  (build_rec : ref -> any -> M unit) (w : ref) (d : any) (h h' : heap) (o : obj)
  (m : ref) (it0 : option ref) :
  rec_ok build_rec ->
  h !! w = Some o -> body_of o = BOptional m it0 -> is_absent d = false ->
  Optional_build ct build_rec w d h = (Ok tt, h') ->
  exists item h0 h2,
    instantiate m (parent o) h = (Ok item, h0)
    /\ build_rec item d h0 = (Ok tt, h2)
    /\ item <> w /\ h2 !! w = Some o
    /\ h' = <[w := set_body (BOptional m (Some item)) o]> h2.
Proof.
  intros Hrec Hw Hb Habs. unfold Optional_build. unfold bind at 1. unfold reading at 1.
  rewrite (lookup_ref_Some _ _ _ Hw), Hb. unfold bind at 1. unfold reading at 1.
  destruct (lookup_ref h m) as [mo| |]; try discriminate.
  destruct (negb _); [discriminate|]. rewrite Habs. unfold bind.
  destruct (instantiate m (parent o) h) as [[item| |] h0] eqn:Hinst; try discriminate.
  destruct (build_rec item d h0) as [[[]| |] h2] eqn:Hbuild; try discriminate.
  assert (Hlt : (w < length h)%nat) by (eapply lookup_lt_Some; eauto).
  destruct (framed_instantiate eq (length h) w m (parent o) h _ h0 (le_n _) Hinst)
    as [(Hl0 & _ & Hs0) Hfresh].
  specialize (Hfresh item eq_refl). unfold fresh in Hfresh.
  destruct (Hs0 o Hw) as (o0 & Ho0 & <-).
  assert (Hne : item <> w) by lia.
  destruct (Hrec item d h0 _ h2 Hbuild) as (_ & Hoth & _).
  assert (Hw2 : h2 !! w = Some o) by (rewrite Hoth; [exact Ho0|lia|auto]).
  rewrite (assign_Some _ _ _ _ Hw2), Hb. cbn [store_item]. intros [= <-].
  exists item, h0, h2. auto.
Qed.

Lemma instantiate_Ok (m : ref) (p : option handle) (h h0 : heap) (item : ref) :
  instantiate m p h = (Ok item, h0) ->
  exists mo oi, h !! m = Some mo /\ item = length h /\ h0 = h ++ [oi]
    /\ _is_instance oi = true /\ _is_built oi = false
    /\ body_of oi = body_of mo /\ cls_of oi = cls_of mo /\ parent oi = p.
Proof.
  unfold instantiate, bind, reading. destruct (lookup_ref h m) as [mo| |] eqn:Hm;
    cbn [obind]; try discriminate.
  unfold instantiate_obj. destruct (_is_built mo) eqn:Hb; [discriminate|].
  match goal with |- context [obind ?x _] => destruct x as [g| |] end;
    cbn [obind]; try discriminate.
  unfold alloc. intros [= <- <-]. apply lookup_ref_Ok in Hm.
  exists mo. eexists. split; [exact Hm|]. repeat split; cbn; eauto.
Qed.

Lemma is_absent_sequence (d : any) (xs : list any) :
  is_absent d = false -> as_sequence d = Some xs -> xs <> [].
Proof.
  unfold is_absent. intros Habs Hseq ->. rewrite Hseq in Habs. now destruct d.
Qed.

(** A datum built with data that is not absent is true: an array has a
    positive length, an optional holds its item, any other datum is true
    as every object is. *)
Lemma built_datum_truth (n : nat) (h h' h'' : heap) (x : ref) (ox : obj) (d : any) :
  h !! x = Some ox -> _is_instance ox = true -> _is_built ox = false ->
  is_absent d = false ->
  build ct root_path fs (S n) x d h = (Ok tt, h') ->
  h'' !! x = h' !! x ->
  datum_truth ct h'' (Ref x) = Ok true.
Proof.
  intros Hx Hi Hu Habs Hbuild Hsame.
  assert (Hx1 : <[x := set_built ox]> h !! x = Some (set_built ox))
    by (eapply lookup_insert_same; eauto).
  unfold datum_truth. cbn [deref]. unfold lookup_ref. rewrite Hsame.
  destruct (body_of ox) as [p v|sz v|v|attrs|mm c its|m it0|al pad] eqn:Hb.
  5: { (* Array *)
    rewrite (build_Array_unfold ct root_path fs n h x ox d _ _ _ Hx Hb Hi Hu) in Hbuild.
    unfold bind in Hbuild.
    destruct (Array_preprocess ct x d _) as [[xs| |] h2] eqn:Hpre; try discriminate.
    destruct (Array_preprocess_ok ct x d xs _ h2 _ mm c its Hx1 Hb Hpre)
      as (Hseq & mm' & Hx2).
    destruct (Array_process_keeps_count ct _ x xs h2 h' _ _ mm' _ its
                (build_keeps ct root_path fs n) Hx2 eq_refl Hbuild) as (its' & Hx').
    rewrite Hx'. cbn.
    pose proof (is_absent_sequence d xs Habs Hseq).
    destruct xs; [congruence|]. cbn [length].
    destruct (Z.ltb_spec (Z.of_nat (S (length xs))) 0); [lia|].
    destruct (Z.eqb_spec (Z.of_nat (S (length xs))) 0); [lia|reflexivity]. }
  5: { (* Optional *)
    rewrite (build_Optional_unfold n h x ox d m it0 Hx Hb Hi Hu) in Hbuild.
    destruct (Optional_build_present _ x d _ h' _ m it0
                (build_keeps ct root_path fs n) Hx1 Hb Habs Hbuild)
      as (item & h0 & h2 & _ & Hb2 & _ & Hx2 & ->).
    rewrite (lookup_insert_same _ _ _ _ Hx2). reflexivity. }
  all: destruct (build_stable n h x ox d _ h' Hx Hi Hu Hbuild)
         as (o' & Ho' & _ & _ & _ & Hk & _);
       rewrite Ho'; cbn [obind];
       cbn [body_of set_built] in Hk; rewrite Hb in Hk;
       destruct (body_of o'); try discriminate; reflexivity.
Qed.

(** C6: an optional whose inner model is a data-absorbing datum, built
    with [None] or with an empty sequence, builds to size 0 and no bytes.
    Built with any other data [d], it instantiates the inner model (with the
    wrapper's parent) and builds that instance with [d]: when [d] is valid
    for the inner model, that is when that build succeeds, the build of the
    wrapper succeeds, the wrapper holds the instance, and its size and bytes
    are the instance's; when that build fails, the build of the wrapper fails
    in the same way. *)
Theorem optional_identity
  (n : nat) (h : heap) (w : ref) (o : obj) (m : ref) (mo : obj) (d : any) :
  h !! w = Some o -> body_of o = BOptional m None ->
  _is_instance o = true -> _is_built o = false ->
  h !! m = Some mo -> issubclass ct (cls_of mo) CDatatype = true ->
  let h1 := <[w := set_built o]> h in
  (is_absent d = true ->
     build ct root_path fs (S n) w d h = (Ok tt, h1)
     /\ forall k, size ct (S k) h1 (Ref w) = Ok 0
                  /\ get_bytes ct (S k) h1 (Ref w) = Ok [])
  /\ (is_absent d = false ->
      forall item h0, instantiate m (parent o) h1 = (Ok item, h0) ->
        match build ct root_path fs n item d h0 with
        | (Ok _, h2) =>
            let h' := <[w := set_body (BOptional m (Some item)) (set_built o)]> h2 in
            build ct root_path fs (S n) w d h = (Ok tt, h')
            /\ forall k, size ct (S k) h' (Ref w) = size ct k h' (Ref item)
                         /\ get_bytes ct (S k) h' (Ref w) = get_bytes ct k h' (Ref item)
        | (Raise e, h2) => build ct root_path fs (S n) w d h = (Raise e, h2)
        | (OutOfFuel, h2) => build ct root_path fs (S n) w d h = (OutOfFuel, h2)
        end).
Proof.
  intros Hw Hb Hi Hu Hm Hsub h1.
  assert (Hw1 : h1 !! w = Some (set_built o)) by (eapply lookup_insert_same; eauto).
  pose proof (build_Optional_unfold n h w o d m None Hw Hb Hi Hu) as Hbuild.
  fold h1 in Hbuild.
  assert (Hstart : build ct root_path fs (S n) w d h =
            (if is_absent d then ret tt
             else let* item := instantiate m (parent o) in
                  let* _ := build ct root_path fs n item d in
                  assign w (store_item item)) h1).
  { rewrite Hbuild. unfold Optional_build. unfold bind at 1. unfold reading at 1.
    rewrite (lookup_ref_Some _ _ _ Hw1). cbn [body_of set_built parent]. rewrite Hb.
    unfold bind at 1. unfold reading at 1.
    assert (Hm1 : h1 !! m = Some mo \/ m = w).
    { destruct (decide (m = w)) as [->|Hne]; [now right|left].
      unfold h1. now rewrite list_lookup_insert_ne. }
    destruct Hm1 as [Hm1| ->].
    - rewrite (lookup_ref_Some _ _ _ Hm1), Hsub. reflexivity.
    - rewrite (lookup_ref_Some _ _ _ Hw1). cbn [cls_of set_built].
      assert (mo = o) as -> by congruence. rewrite Hsub. reflexivity. }
  split.
  - intros Habs. split.
    + rewrite Hstart, Habs. reflexivity.
    + intros k. split.
      * cbn [size]. unfold size_step. cbn [deref]. rewrite (lookup_ref_Some _ _ _ Hw1).
        cbn [obind body_of set_built _is_built negb]. now rewrite Hb.
      * cbn [get_bytes]. unfold get_bytes_step. cbn [deref].
        rewrite (lookup_ref_Some _ _ _ Hw1).
        cbn [obind body_of set_built _is_built _is_instance negb]. now rewrite Hi, Hb.
  - intros Habs item h0 Hinst.
    assert (Hrun : build ct root_path fs (S n) w d h =
              match build ct root_path fs n item d h0 with
              | (Ok _, h2) => assign w (store_item item) h2
              | (Raise e, h2) => (Raise e, h2)
              | (OutOfFuel, h2) => (OutOfFuel, h2)
              end).
    { rewrite Hstart, Habs. unfold bind at 1. rewrite Hinst. unfold bind at 1.
      now destruct (build ct root_path fs n item d h0) as [[[]|e|] h2]. }
    destruct (build ct root_path fs n item d h0) as [[[]|e|] h2] eqn:Hbi;
      try exact Hrun.
    rewrite Hrun.
    assert (Hlt : (w < length h1)%nat) by (eapply lookup_lt_Some; eauto).
    destruct (framed_instantiate eq (length h1) w m (parent o) h1 _ h0 (le_n _) Hinst)
      as [(Hl0 & _ & Hs0) Hfresh].
    specialize (Hfresh item eq_refl). unfold fresh in Hfresh.
    destruct (Hs0 _ Hw1) as (o0 & Ho0 & <-).
    assert (Hne : item <> w) by lia.
    destruct (build_keeps ct root_path fs n item d h0 _ h2 Hbi) as (_ & Hoth & _).
    assert (Hw2 : h2 !! w = Some (set_built o)) by (rewrite Hoth; [exact Ho0|lia|auto]).
    rewrite (assign_Some _ _ _ _ Hw2). cbn [body_of set_built]. rewrite Hb.
    cbn [store_item]. cbv beta iota. split; [reflexivity|].
    set (ow := set_body _ _). set (h' := <[w := ow]> h2).
    assert (Hw' : h' !! w = Some ow) by (eapply lookup_insert_same; eauto).
    assert (Htruth : datum_truth ct h' (Ref item) = Ok true).
    { destruct (instantiate_Ok m _ h1 h0 item Hinst)
        as (mo1 & oi & _ & -> & -> & Hii & Hiu & _).
      destruct n as [|n']; [discriminate|].
      apply (built_datum_truth n' (h1 ++ [oi]) h2 _ (length h1) oi d); auto.
      - now apply list_lookup_middle.
      - now apply list_lookup_insert_ne. }
    intros k. split.
    + cbn [size]. unfold size_step at 1. cbn [deref]. rewrite (lookup_ref_Some _ _ _ Hw').
      subst ow. cbn [obind body_of set_body set_built _is_built negb].
      rewrite Htruth. reflexivity.
    + cbn [get_bytes]. unfold get_bytes_step at 1. cbn [deref].
      rewrite (lookup_ref_Some _ _ _ Hw').
      subst ow. cbn [obind body_of set_body set_built _is_built _is_instance negb].
      rewrite Hi. cbn [negb]. rewrite Htruth. reflexivity.
Qed.

End OptionalFacts.

(** * The properties on the example schemas *)

(** ** Integers *)

Lemma primitive_build_big_endian_witness :
  _min U16 <= 4660 <= _max U16
  /\ exists h',
       build Primitives.classes None no_files 1 Primitives.u16_instance (VInt 4660)
             Primitives.store = (Ok tt, h')
       /\ get_bytes Primitives.classes 1 h' (Ref Primitives.u16_instance)
          = Ok (big_endian_twos_complement U16 4660)
       /\ Z.of_nat (length (big_endian_twos_complement U16 4660)) = _bit_size U16 / 8.
Proof.
  assert (Hrange : _min U16 <= 4660 <= _max U16) by (vm_compute; split; discriminate).
  split; [exact Hrange|].
  exact (proj1 (primitive_build_big_endian Primitives.classes None no_files
                  Primitives.store Primitives.u16_instance
                  (obj_at Primitives.store Primitives.u16_instance) U16 None 4660 0 0
                  eq_refl eq_refl eq_refl eq_refl) Hrange).
Defined.

(** C1 as stated fails: [U16] built with [0x1234] serializes to [12 34],
    while the little-endian encoding is [34 12]. *)
Lemma little_endian_counterexample :
  exists h',
    build Primitives.classes None no_files 1 Primitives.u16_instance (VInt 4660)
          Primitives.store = (Ok tt, h')
    /\ get_bytes Primitives.classes 1 h' (Ref Primitives.u16_instance) = Ok [x12; x34]
    /\ little_endian_twos_complement U16 4660 = [x34; x12]
    /\ [x12; x34] <> little_endian_twos_complement U16 4660.
Proof.
  eexists. split; [vm_compute; reflexivity|].
  split; [vm_compute; reflexivity|].
  split; [vm_compute; reflexivity|].
  vm_compute. discriminate.
Qed.

(** ** Offsets and alignment in a nested block *)

Example nested_builds :
  fst (Nested.run Nested.schema) = Ok Nested.root
  /\ get_bytes Nested.classes 8 Nested.store (Ref Nested.root)
     = Ok [x01; x02; x00; x00; x00; x03]
  /\ parent (obj_at Nested.store Nested.y_ref) = Some Nested.inner
  /\ get_items Nested.classes Nested.store Nested.inner
       (obj_at Nested.store Nested.inner_ref) true
     = Ok [Nested.x; Nested.pad; Nested.y].
Proof. repeat split; vm_compute; reflexivity. Qed.



Lemma align_law_witness :
  raises (fst (build Primitives.classes None no_files 1 Primitives.align1_instance VNone
                 Primitives.store)) SpecError
  /\ size Nested.classes 3 AlignPending.store (Ref AlignPending.pad) = Ok 3
  /\ (exists h',
       build Nested.classes None no_files 4 AlignPending.pad VNone AlignPending.store
       = (Ok tt, h')
       /\ offset Nested.classes 2 h' (Ref AlignPending.pad) = Ok 1
       /\ size Nested.classes 3 h' (Ref AlignPending.pad) = Ok 3
       /\ get_bytes Nested.classes 1 h' (Ref AlignPending.pad) = Ok [x00; x00; x00])
  /\ size Nested.classes 3 Nested.store (Ref 15%nat) = Ok 3
  /\ get_bytes Nested.classes 1 Nested.store (Ref 15%nat) = Ok [x00; x00; x00].
Proof.
  assert (H1 : 1 < 2) by reflexivity.
  assert (H4 : 4 <> 0) by discriminate.
  assert (H24 : 2 <= 4) by discriminate.
  split; [|split; [|split]].
  - exact (proj1 (proj1 (proj2 (align_law Primitives.classes None no_files Primitives.store
                    Primitives.align1_instance
                    (obj_at Primitives.store Primitives.align1_instance)
                    1 None 0 0 eq_refl eq_refl)) eq_refl eq_refl) H1 VNone).
  - exact (proj1 (align_law Nested.classes None no_files AlignPending.store
                    AlignPending.pad (obj_at AlignPending.store AlignPending.pad)
                    4 None 2 0 eq_refl eq_refl) 2%nat 1 H4 eq_refl).
  - exact (proj2 (proj1 (proj2 (align_law Nested.classes None no_files AlignPending.store
                    AlignPending.pad (obj_at AlignPending.store AlignPending.pad)
                    4 None 2 0 eq_refl eq_refl)) eq_refl eq_refl) H24 VNone).
  - exact (proj2 (proj2 (align_law Nested.classes None no_files Nested.store
                    15%nat (obj_at Nested.store 15%nat)
                    4 (Some 3) 0 0 eq_refl eq_refl)) eq_refl eq_refl 2%nat 1 H24
             eq_refl eq_refl).
Defined.

Example align_below_two_fails :
  raises (fst (build Primitives.classes None no_files 1 Primitives.align1_instance VNone
                 Primitives.store)) SpecError.
Proof. vm_compute. reflexivity. Qed.

(** C5 as stated fails: the built [Align(4)] stands at global offset 2 (1
    inside [inner], which stands at 1), where the claim's formula gives 2
    bytes of padding; its size is 3, from its offset 1 inside [inner]. *)
Lemma global_offset_counterexample :
  body_of (obj_at Nested.store (match Nested.pad with Ref r => r | _ => 0%nat end))
  = BAlign 4 (Some 3)
  /\ global_offset Nested.classes 5 8 Nested.store Nested.pad = Ok 2
  /\ offset Nested.classes 8 Nested.store Nested.pad = Ok 1
  /\ size Nested.classes 8 Nested.store Nested.pad = Ok 3
  /\ get_bytes Nested.classes 8 Nested.store Nested.pad = Ok [x00; x00; x00]
  /\ (4 - 2 mod 4) mod 4 = 2
  /\ 3 <> (4 - 2 mod 4) mod 4.
Proof. repeat split; try (vm_compute; reflexivity). vm_compute. discriminate. Qed.

(** ** Size and bytes *)

(** C3 fails on the code for this schema: [pad] was built while [f] was
    still its empty default, so it froze a padding of 0; [f] was then built
    as the one-byte [Sub].  The root reports size 5 and serializes to 2
    bytes; [pad] reports size 3 and serializes to none. *)
Theorem stale_padding_breaks_size_bytes_agreement :
  fst (StalePad.run StalePad.schema) = Ok StalePad.root
  /\ size StalePad.classes 8 StalePad.store (Ref StalePad.root) = Ok 5
  /\ get_bytes StalePad.classes 8 StalePad.store (Ref StalePad.root) = Ok [x01; x05]
  /\ size StalePad.classes 8 StalePad.store StalePad.pad = Ok 3
  /\ get_bytes StalePad.classes 8 StalePad.store StalePad.pad = Ok [].
Proof. repeat split; vm_compute; reflexivity. Qed.

(** ** Resolution *)

Example cyclic_record_fails :
  fst (Cyclic.run Cyclic.schema)
  = raise BuildError
      "Could not resolve dependencies. Check for cyclical dependencies in: a, b".
Proof. vm_compute. reflexivity. Qed.


(** ** Optional *)

Lemma optional_identity_witness :
  (is_absent VNone = true
   /\ forall k,
        size OptionalU32.classes (S k) OptionalPresent.marked (Ref OptionalU32.wrapper) = Ok 0
        /\ get_bytes OptionalU32.classes (S k) OptionalPresent.marked
             (Ref OptionalU32.wrapper) = Ok [])
  /\ is_absent (VInt 1) = false
  /\ build OptionalU32.classes None no_files 3 OptionalU32.wrapper (VInt 1)
       OptionalU32.store = (Ok tt, OptionalPresent.final)
  /\ size OptionalU32.classes 3 OptionalPresent.final (Ref OptionalU32.wrapper) = Ok 4
  /\ get_bytes OptionalU32.classes 3 OptionalPresent.final (Ref OptionalU32.wrapper)
     = Ok [x00; x00; x00; x01].
Proof.
  pose proof (optional_identity OptionalU32.classes None no_files 2
                OptionalU32.store OptionalU32.wrapper
                (obj_at OptionalU32.store OptionalU32.wrapper) 0%nat
                (obj_at OptionalU32.store 0%nat)) as H.
  split.
  - split; [reflexivity|].
    exact (proj2 (proj1 (H VNone eq_refl eq_refl eq_refl eq_refl eq_refl eq_refl)
                    eq_refl)).
  - split; [reflexivity|].
    destruct (proj2 (H (VInt 1) eq_refl eq_refl eq_refl eq_refl eq_refl eq_refl) eq_refl
                OptionalPresent.item OptionalPresent.instantiated eq_refl)
      as [Hbuild Hsame].
    split; [exact Hbuild|].
    destruct (Hsame 2%nat) as [Hsize Hbytes]. split.
    + etransitivity; [exact Hsize|]. vm_compute. reflexivity.
    + etransitivity; [exact Hbytes|]. vm_compute. reflexivity.
Defined.

Example optional_present_and_absent :
  (let r := build OptionalU32.classes None no_files 3 OptionalU32.wrapper (VInt 1)
                  OptionalU32.store in
   fst r = Ok tt
   /\ get_bytes OptionalU32.classes 3 (snd r) (Ref OptionalU32.wrapper)
      = Ok [x00; x00; x00; x01]
   /\ size OptionalU32.classes 3 (snd r) (Ref OptionalU32.wrapper) = Ok 4)
  /\ (let r := build OptionalU32.classes None no_files 3 OptionalU32.wrapper (VList [])
                     OptionalU32.store in
      fst r = Ok tt
      /\ get_bytes OptionalU32.classes 3 (snd r) (Ref OptionalU32.wrapper) = Ok []
      /\ size OptionalU32.classes 3 (snd r) (Ref OptionalU32.wrapper) = Ok 0).
Proof. repeat split; vm_compute; reflexivity. Qed.

(** ** Refinement *)

Lemma packed_type_refinement_witness :
  (let r := install_item Refinement.classes RefinementSlots.build_rec RefinementSlots.holder
              (RefinementSlots.entry RefinementSlots.good) RefinementSlots.store in
   fst r = Ok tt
   /\ field (snd r) RefinementSlots.holder "f" = Ref 13%nat
   /\ cls_of (obj_at (snd r) 13%nat) = Refinement.R2
   /\ get_bytes Refinement.classes 5 (snd r) (Ref 13%nat) = Ok [x01; x02])
  /\ install_item Refinement.classes RefinementSlots.build_rec RefinementSlots.holder
       (RefinementSlots.entry RefinementSlots.bad) RefinementSlots.store
     = (Raise (mk_exn BuildError "Dynamically-resolved Datatype Other is not a child of R" []),
        RefinementSlots.store)
  /\ (let r := Array_process_loop Refinement.classes RefinementSlots.build_rec
                 RefinementSlots.arr Refinement.f_model "R" [RefinementSlots.good] 0 []
                 RefinementSlots.store in
      fst r = Ok [13%nat]
      /\ cls_of (obj_at (snd r) 13%nat) = Refinement.R2
      /\ get_bytes Refinement.classes 5 (snd r) (Ref 13%nat) = Ok [x01; x02])
  /\ Array_process_loop Refinement.classes RefinementSlots.build_rec
       RefinementSlots.arr Refinement.f_model "R" [RefinementSlots.bad] 0 []
       RefinementSlots.store
     = (Raise (mk_exn BuildError "Dynamically-resolved Datatype Other is not a child of R" []),
        RefinementSlots.store)
  /\ fst (install_item Refinement.classes RefinementSlots.build_rec RefinementSlots.holder
            (RefinementSlots.entry RefinementSlots.plain) RefinementSlots.store)
     = Raise (mk_exn ValidationError "Expected dict, received tuple" [])
  /\ fst (Array_process_loop Refinement.classes RefinementSlots.build_rec
            RefinementSlots.arr Refinement.f_model "R" [RefinementSlots.plain] 0 []
            RefinementSlots.store)
     = Raise (mk_exn ValidationError "Expected dict, received tuple"
                     ["Array[R] -> (element 0)"]).
Proof.
  pose proof (fun sub payload =>
                packed_type_refinement Refinement.classes RefinementSlots.store
                  Refinement.f_model sub
                  (obj_at RefinementSlots.store Refinement.f_model)
                  (obj_at RefinementSlots.store sub) payload
                  RefinementSlots.build_rec eq_refl) as H.
  destruct (H Refinement.an_R2 (VDict [("y", VInt 258)]) eq_refl)
    as (Hblock & Harray & Hplain).
  destruct (H Refinement.an_Other (VDict [("z", VInt 1)]) eq_refl)
    as (Hblock' & Harray' & _).
  assert (Hnot : forall r, VInt 1 <> VDatum r) by discriminate.
  destruct (Hplain (VInt 1) (VInt 2) Hnot) as [Hp1 Hp2].
  split; [|split; [|split; [|split; [|split]]]].
  - rewrite (Hblock RefinementSlots.holder (RefinementSlots.entry RefinementSlots.good)
               eq_refl eq_refl).
    vm_compute. repeat split; reflexivity.
  - exact (Hblock' RefinementSlots.holder (RefinementSlots.entry RefinementSlots.bad)
             eq_refl eq_refl).
  - unfold RefinementSlots.good. rewrite (Harray RefinementSlots.arr "R" [] 0%nat []).
    vm_compute. repeat split; reflexivity.
  - exact (Harray' RefinementSlots.arr "R" [] 0%nat []).
  - rewrite (Hp1 RefinementSlots.holder (RefinementSlots.entry RefinementSlots.plain)
               eq_refl eq_refl).
    vm_compute. reflexivity.
  - unfold RefinementSlots.plain. rewrite (Hp2 RefinementSlots.arr "R" [] 0%nat []).
    vm_compute. reflexivity.
Defined.

Example refinement_scenario :
  fst (Refinement.run Refinement.good_input Refinement.schema) = Ok 10%nat
  /\ get_bytes Refinement.classes 8
       (snd (Refinement.run Refinement.good_input Refinement.schema)) (Ref 10%nat)
     = Ok [x01; x02]
  /\ fst (Refinement.run Refinement.bad_input Refinement.schema)
     = Raise (mk_exn BuildError "Dynamically-resolved Datatype Other is not a child of R"
                     ["Holder -> f: R"]).
Proof. repeat split; vm_compute; reflexivity. Qed.

(** ** Arrays *)

Lemma array_length_law_witness :
  raises (fst (build Arrays.classes None no_files 1 Arrays.untyped (VList [VInt 1])
                 Arrays.store)) SpecError
  /\ (raises (fst (Array_preprocess Arrays.classes Arrays.counted (VList [VInt 1; VInt 2])
                     (<[Arrays.counted := set_built (obj_at Arrays.store Arrays.counted)]>
                        Arrays.store))) ValidationError
      <-> 0 <= 1 /\ Z.of_nat (length [VInt 1; VInt 2]) <> 1)
  /\ raises (fst (build GenericArray.classes None no_files 3 GenericArray.counted
                    (VList [VInt 1; VInt 2]) GenericArray.store)) ValidationError
  /\ Array_preprocess GenericArray.classes GenericArray.counted (VList [VInt 7])
       (GenericArray.marked GenericArray.counted)
     = (Ok [VInt 7], GenericArray.ready GenericArray.counted (Some 1))
  /\ (forall res h',
        build GenericArray.classes None no_files 3 GenericArray.uncounted
          (VList [VInt 1; VInt 2]) GenericArray.store = (res, h') ->
        exists o', h' !! GenericArray.uncounted = Some o'
                   /\ Array_len GenericArray.classes h' (Ref GenericArray.uncounted) o'
                      = Ok 2).
Proof.
  assert (H01 : 0 <= 1) by discriminate.
  assert (H21 : Z.of_nat (length [VInt 1; VInt 2]) <> 1) by discriminate.
  split; [|split; [|split; [|split]]].
  - exact (proj1 (array_length_law Arrays.classes None no_files 0 Arrays.store
                    Arrays.untyped (obj_at Arrays.store Arrays.untyped) None (Some 3) []
                    (VList [VInt 1]) [VInt 1] eq_refl eq_refl eq_refl eq_refl eq_refl)
             eq_refl eq_refl).
  - exact (proj1 (proj2 (proj2
             (proj2 (array_length_law Arrays.classes None no_files 1 Arrays.store
                       Arrays.counted (obj_at Arrays.store Arrays.counted) (Some 0%nat)
                       (Some 1) [] (VList [VInt 1; VInt 2]) [VInt 1; VInt 2]
                       eq_refl eq_refl eq_refl eq_refl eq_refl)
                0%nat _ (conj eq_refl eq_refl))))).
  - exact (proj1 (proj2
             (proj2 (array_length_law GenericArray.classes None no_files 2
                       GenericArray.store GenericArray.counted
                       (obj_at GenericArray.store GenericArray.counted) None (Some 1) []
                       (VList [VInt 1; VInt 2]) [VInt 1; VInt 2]
                       eq_refl eq_refl eq_refl eq_refl eq_refl)
                (GenericArray.model GenericArray.counted)
                (GenericArray.ready GenericArray.counted (Some 1))
                (ex_intro _ (GClass (CPrim U8))
                   (ex_intro _ (GenericArray.constructed GenericArray.counted)
                      (conj eq_refl (conj eq_refl eq_refl))))))
             H01 H21).
  - exact (proj2 (proj2 (proj2
             (proj2 (array_length_law GenericArray.classes None no_files 2
                       GenericArray.store GenericArray.counted
                       (obj_at GenericArray.store GenericArray.counted) None (Some 1) []
                       (VList [VInt 7]) [VInt 7]
                       eq_refl eq_refl eq_refl eq_refl eq_refl)
                (GenericArray.model GenericArray.counted)
                (GenericArray.ready GenericArray.counted (Some 1))
                (ex_intro _ (GClass (CPrim U8))
                   (ex_intro _ (GenericArray.constructed GenericArray.counted)
                      (conj eq_refl (conj eq_refl eq_refl)))))))
             H01 eq_refl).
  - exact (proj2 (array_length_law GenericArray.classes None no_files 2
                    GenericArray.store GenericArray.uncounted
                    (obj_at GenericArray.store GenericArray.uncounted) None None []
                    (VList [VInt 1; VInt 2]) [VInt 1; VInt 2]
                    eq_refl eq_refl eq_refl eq_refl eq_refl)
             (GenericArray.model GenericArray.uncounted)
             (GenericArray.ready GenericArray.uncounted None)
             (ex_intro _ (GClass (CPrim U8))
                (ex_intro _ (GenericArray.constructed GenericArray.uncounted)
                   (conj eq_refl (conj eq_refl eq_refl))))).
Defined.

Example array_scenarios :
  raises (fst (build Arrays.classes None no_files 5 Arrays.negative (VList []) Arrays.store))
         SpecError
  /\ raises (fst (build Arrays.classes None no_files 5 Arrays.counted
                    (VList [VInt 1; VInt 2]) Arrays.store)) ValidationError
  /\ raises (fst (build Arrays.classes None no_files 5 Arrays.counted (VList [])
                    Arrays.store)) ValidationError
  /\ (let r := build Arrays.classes None no_files 5 Arrays.uncounted
                     (VList [VInt 1; VInt 2; VInt 3]) Arrays.store in
      fst r = Ok tt
      /\ Array_len Arrays.classes (snd r) (Ref Arrays.uncounted)
           (obj_at (snd r) Arrays.uncounted) = Ok 3
      /\ get_bytes Arrays.classes 5 (snd r) (Ref Arrays.uncounted) = Ok [x01; x02; x03]).
Proof. repeat split; vm_compute; reflexivity. Qed.

(** C8 as stated fails in both directions of its "iff": [Array(U8(), 1)]
    built with the one-element [[300]] fails with a validation error although
    the length is the declared count, and [Array(None, 3)], which has neither
    an element model nor a type argument, built with two elements fails with
    a specification error, not a validation error, although the length
    differs from the count. *)
Lemma array_validation_counterexample :
  (body_of (obj_at Arrays.store Arrays.counted) = BArray (Some 0%nat) (Some 1) []
   /\ Z.of_nat (length [VInt 300]) = 1
   /\ raises (fst (build Arrays.classes None no_files 5 Arrays.counted (VList [VInt 300])
                     Arrays.store)) ValidationError)
  /\ (body_of (obj_at Arrays.store Arrays.untyped) = BArray None (Some 3) []
      /\ _generic_type (obj_at Arrays.store Arrays.untyped) = None
      /\ Z.of_nat (length [VInt 1; VInt 2]) <> 3
      /\ raises (fst (build Arrays.classes None no_files 5 Arrays.untyped
                        (VList [VInt 1; VInt 2]) Arrays.store)) SpecError
      /\ ~ raises (fst (build Arrays.classes None no_files 5 Arrays.untyped
                          (VList [VInt 1; VInt 2]) Arrays.store)) ValidationError).
Proof.
  repeat split; try (vm_compute; reflexivity); vm_compute; discriminate.
Qed.

(** ** Life cycle *)

Lemma build_is_not_atomic_witness :
  kind Primitives.failure = ValidationError
  /\ (exists o', Primitives.failed_store !! Primitives.u8_instance = Some o'
                 /\ _is_built o' = true /\ _is_instance o' = true)
  /\ (forall m d2,
        build Primitives.classes None no_files (S m) Primitives.u8_instance d2
              Primitives.failed_store
        = (raise BuildError "Attempted to build an already-built datum",
           Primitives.failed_store))
  /\ (forall p,
        instantiate Primitives.u8_instance p Primitives.failed_store
        = (raise BuildError
             "Attempted to instantiate from a datum that is building or already built",
           Primitives.failed_store)).
Proof.
  split; [reflexivity|].
  exact (build_is_not_atomic Primitives.classes None no_files 1 Primitives.store
           Primitives.u8_instance (obj_at Primitives.store Primitives.u8_instance)
           (VInt 300) Primitives.failure Primitives.failed_store
           eq_refl eq_refl eq_refl eq_refl).
Defined.

(** ** Declared fields *)

Example hidden_attributes_are_no_fields :
  _fields Hidden.classes Hidden.R = [("a", 1%nat); ("b", 2%nat)]
  /\ fst (Hidden.run Hidden.schema) = Ok 6%nat
  /\ size Hidden.classes 8 (snd (Hidden.run Hidden.schema)) (Ref 6%nat) = Ok 3
  /\ get_bytes Hidden.classes 8 (snd (Hidden.run Hidden.schema)) (Ref 6%nat)
     = Ok [x01; x00; x02].
Proof. repeat split; vm_compute; reflexivity. Qed.



(** * Further properties of the engine *)

(** ** Integer encoding read back *)

Lemma Z_of_byte_of_Z (z : Z) : Z_of_byte (byte_of_Z z) = z mod 256.
Proof.
  unfold Z_of_byte, byte_of_Z.
  pose proof (Z.mod_pos_bound z 256 ltac:(lia)) as Hb.
  destruct (Byte.of_N (Z.to_N (z mod 256))) as [b|] eqn:E.
  - apply Byte.to_of_N in E. rewrite E. apply Z2N.id. lia.
  - apply Byte.of_N_None_iff in E. lia.
Qed.

Lemma be_decode_app (bs : list byte) (b : byte) :
  be_decode (bs ++ [b]) = be_decode bs * 256 + Z_of_byte b.
Proof. unfold be_decode. now rewrite fold_left_app. Qed.

Lemma be_decode_be_digits (n : nat) (u : Z) :
  be_decode (be_digits n u) = u mod 256 ^ Z.of_nat n.
Proof.
  revert u. induction n as [|n IH]; intros u.
  - cbn. now rewrite Z.mod_1_r.
  - cbn [be_digits]. rewrite be_decode_app, IH, Z_of_byte_of_Z.
    rewrite Nat2Z.inj_succ, Z.pow_succ_r by lia.
    assert (0 < 256 ^ Z.of_nat n) by (apply Z.pow_pos_nonneg; lia).
    rewrite Z.rem_mul_r, Z.mod_mod by lia. lia.
Qed.

Lemma pow_256_bytes (p : prim) :
  256 ^ Z.of_nat (Z.to_nat (_bit_size p / 8)) = 2 ^ _bit_size p.
Proof. destruct p; reflexivity. Qed.

(** X1: the bytes of an in-range value, read back as a big-endian number,
    are the value modulo [2 ^ bit width], and there are [bit width / 8] of
    them; so a signed or an unsigned primitive gives different bytes to
    different values, while an ambiguous one gives -1 and its maximum the
    same bytes. *)
Theorem integer_bytes_read_back (p : prim) (v : Z) (bs : list byte) :
  _min p <= v <= _max p ->
  to_bytes v (_bit_size p / 8) (v <? 0) = Ok bs ->
  be_decode bs = v mod 2 ^ _bit_size p
  /\ Z.of_nat (length bs) = _bit_size p / 8
  /\ (ambiguous p = false ->
      forall v', _min p <= v' <= _max p ->
                 to_bytes v' (_bit_size p / 8) (v' <? 0) = Ok bs -> v' = v)
  /\ (ambiguous p = true ->
      _min p <= -1 <= _max p
      /\ to_bytes (-1) (_bit_size p / 8) (-1 <? 0)
         = to_bytes (_max p) (_bit_size p / 8) (_max p <? 0)).
Proof.
  intros Hv Hbs.
  assert (Hdec : forall w ws, _min p <= w <= _max p ->
            to_bytes w (_bit_size p / 8) (w <? 0) = Ok ws ->
            be_decode ws = w mod 2 ^ _bit_size p).
  { intros w ws Hw Hws. rewrite (to_bytes_in_range p w Hw) in Hws. injection Hws as <-.
    unfold big_endian_twos_complement, twos_complement.
    rewrite <- be_digits_encode, be_decode_be_digits, pow_256_bytes.
    apply Z.mod_mod. destruct p; discriminate. }
  split; [now apply Hdec|]. split; [|split].
  - rewrite (to_bytes_in_range p v Hv) in Hbs. injection Hbs as <-.
    unfold big_endian_twos_complement. rewrite <- be_digits_encode, length_be_digits.
    destruct p; reflexivity.
  - intros Hamb v' Hv' Hbs'.
    pose proof (Hdec v bs Hv Hbs) as H1. pose proof (Hdec v' bs Hv' Hbs') as H2.
    rewrite H1 in H2. clear Hdec Hbs Hbs' H1.
    destruct p; try discriminate Hamb; revert Hv Hv' H2;
      unfold _min, _max, _bit_size; eval_Z_consts; intros;
      Z.div_mod_to_equations; lia.
  - intros Hamb. destruct p; try discriminate Hamb; split;
      try (vm_compute; split; discriminate); reflexivity.
Qed.

Lemma integer_bytes_read_back_witness :
  be_decode [xff] = -1 mod 2 ^ _bit_size S8
  /\ Z.of_nat (length [xff]) = _bit_size S8 / 8.
Proof.
  assert (Hr : _min S8 <= -1 <= _max S8) by (vm_compute; split; discriminate).
  destruct (integer_bytes_read_back S8 (-1) [xff] Hr eq_refl) as (H1 & H2 & _).
  split; [exact H1|exact H2].
Defined.

Section MoreEngineFacts.

Variable ct : class_table.
Variable root_path : option string.
Variable fs : string -> option (list byte).

(** Entering [build] on an instance that is not built yet: the datum is
    marked built and [_build] dispatches on its kind. *)
Ltac enter_build Hr Hi Hu Hb :=
  rewrite (build_unfold _ _ _ _ _ _ _ _ Hr Hi Hu);
  unfold _build, bind, reading;
  erewrite lookup_ref_Some by (eapply lookup_insert_same; exact Hr);
  cbn [body_of set_built]; rewrite Hb.

Lemma set_built_store (h : heap) (r : ref) (o : obj) (f : body -> body) :
  h !! r = Some o ->
  assign r f (<[r := set_built o]> h)
  = (Ok tt, <[r := set_body (f (body_of o)) (set_built o)]> h).
Proof.
  intros Hr. erewrite assign_Some by (eapply lookup_insert_same; exact Hr).
  now rewrite list_insert_insert_eq.
Qed.

(** ** Primitives *)

(** X2: a primitive takes nothing but an [int]: data of any other type,
    [bool] included, is refused with a validation error that names the type
    received; the datum is left marked as built. *)
Theorem primitive_rejects_other_types
  (h : heap) (r : ref) (o : obj) (p : prim) (d0 : option Z) (d : any) (n : nat) :
  h !! r = Some o -> body_of o = BPrim p d0 ->
  _is_instance o = true -> _is_built o = false ->
  (forall v, d <> VInt v) ->
  build ct root_path fs (S n) r d h
  = (raise ValidationError
       ("Expected int, received " +:+ py_type_name ct (<[r := set_built o]> h) d),
     <[r := set_built o]> h).
Proof.
  intros Hr Hb Hi Hu Hd. enter_build Hr Hi Hu Hb.
  unfold Primitive_preprocess.
  destruct d; try reflexivity. now destruct (Hd z).
Qed.

(** X3: [int()] of a primitive gives back the value it was built with, and
    fails with a dependency error before; the size is known before the build
    and does not change. *)
Theorem primitive_int_round_trip
  (h : heap) (r : ref) (o : obj) (p : prim) (v : Z) (n k : nat) :
  h !! r = Some o -> body_of o = BPrim p None ->
  _is_instance o = true -> _is_built o = false ->
  _min p <= v <= _max p ->
  raises (Primitive_int h (Ref r)) DependencyError
  /\ size ct (S k) h (Ref r) = Ok (_bit_size p / 8)
  /\ exists h', build ct root_path fs (S n) r (VInt v) h = (Ok tt, h')
       /\ Primitive_int h' (Ref r) = Ok v
       /\ size ct (S k) h' (Ref r) = Ok (_bit_size p / 8).
Proof.
  intros Hr Hb Hi Hu Hv. split; [|split].
  - unfold Primitive_int. cbn [deref]. rewrite (lookup_ref_Some _ _ _ Hr).
    cbn [obind]. now rewrite Hb.
  - cbn [size]. unfold size_step. cbn [deref]. rewrite (lookup_ref_Some _ _ _ Hr).
    cbn [obind]. now rewrite Hb.
  - eexists. split; [|split].
    + enter_build Hr Hi Hu Hb. unfold Primitive_preprocess.
      destruct (Z.ltb_spec v (_min p)); [lia|].
      destruct (Z.ltb_spec (_max p) v); [lia|]. cbn [orb].
      rewrite (set_built_store _ _ _ _ Hr), Hb. reflexivity.
    + unfold Primitive_int. cbn [deref].
      erewrite lookup_ref_Some by (eapply lookup_insert_same; exact Hr).
      reflexivity.
    + cbn [size]. unfold size_step. cbn [deref].
      erewrite lookup_ref_Some by (eapply lookup_insert_same; exact Hr).
      reflexivity.
Qed.

(** ** Bytes and files *)

(** X4: a [Bytes] datum built with [bytes] or a [bytearray] gives the same
    bytes back and has their length as its size, when no size was declared or
    the declared size is that length; with a declared size that differs the
    build fails with a validation error, as it does for data of any other
    type. *)
Theorem bytes_build_round_trip
  (h : heap) (r : ref) (o : obj) (sz : option Z) (d0 : option (list byte))
  (d : any) (n k : nat) :
  h !! r = Some o -> body_of o = BBytes sz d0 ->
  _is_instance o = true -> _is_built o = false ->
  (forall bs, d = VBytes bs \/ d = VBytearray bs ->
     (sz = None \/ sz = Some (Z.of_nat (length bs)) ->
        exists h', build ct root_path fs (S n) r d h = (Ok tt, h')
          /\ get_bytes ct (S k) h' (Ref r) = Ok bs
          /\ size ct (S k) h' (Ref r) = Ok (Z.of_nat (length bs)))
     /\ (forall s, sz = Some s -> s <> Z.of_nat (length bs) ->
           raises (fst (build ct root_path fs (S n) r d h)) ValidationError))
  /\ ((forall bs, d <> VBytes bs /\ d <> VBytearray bs) ->
      raises (fst (build ct root_path fs (S n) r d h)) ValidationError).
Proof.
  intros Hr Hb Hi Hu. split.
  - intros bs Hd. split.
    + intros Hsz. exists (<[r := set_body (BBytes sz (Some bs)) (set_built o)]> h).
      assert (Hpre : forall h0, Bytes_preprocess ct h0 sz d = Ok bs).
      { intros h0. unfold Bytes_preprocess.
        destruct Hd as [-> | ->], Hsz as [-> | ->]; try reflexivity;
          now rewrite Z.eqb_refl. }
      split; [|split].
      * enter_build Hr Hi Hu Hb. rewrite Hpre.
        rewrite (set_built_store _ _ _ _ Hr), Hb. reflexivity.
      * cbn [get_bytes]. unfold get_bytes_step. cbn [deref].
        erewrite lookup_ref_Some by (eapply lookup_insert_same; exact Hr).
        cbn [obind set_body set_built _is_instance _is_built body_of negb].
        now rewrite Hi.
      * cbn [size]. unfold size_step. cbn [deref].
        erewrite lookup_ref_Some by (eapply lookup_insert_same; exact Hr).
        cbn [obind set_body body_of].
        destruct Hsz as [-> | ->]; reflexivity.
    + intros s -> Hne. enter_build Hr Hi Hu Hb. unfold Bytes_preprocess.
      destruct Hd as [-> | ->];
        (destruct (Z.eqb_spec (Z.of_nat (length bs)) s); [congruence|reflexivity]).
  - intros Hd. enter_build Hr Hi Hu Hb. unfold Bytes_preprocess.
    destruct d; try reflexivity; destruct (Hd bs); congruence.
Qed.

End MoreEngineFacts.

Lemma primitive_rejects_other_types_witness :
  build Primitives.classes None no_files 1 Primitives.u8_instance (VBool true)
        Primitives.store
  = (raise ValidationError "Expected int, received bool",
     <[Primitives.u8_instance := set_built (obj_at Primitives.store Primitives.u8_instance)]>
       Primitives.store).
Proof.
  exact (primitive_rejects_other_types Primitives.classes None no_files
           Primitives.store Primitives.u8_instance
           (obj_at Primitives.store Primitives.u8_instance) U8 None (VBool true) 0
           eq_refl eq_refl eq_refl eq_refl
           (fun v (H : VBool true = VInt v) => eq_ind (VBool true)
              (fun d => match d with VBool _ => True | _ => False end) I (VInt v) H)).
Defined.

Lemma primitive_int_round_trip_witness :
  raises (Primitive_int Primitives.store (Ref Primitives.u16_instance)) DependencyError
  /\ size Primitives.classes 1 Primitives.store (Ref Primitives.u16_instance) = Ok 2
  /\ exists h',
       build Primitives.classes None no_files 1 Primitives.u16_instance (VInt 4660)
             Primitives.store = (Ok tt, h')
       /\ Primitive_int h' (Ref Primitives.u16_instance) = Ok 4660
       /\ size Primitives.classes 1 h' (Ref Primitives.u16_instance) = Ok 2.
Proof.
  assert (Hrange : _min U16 <= 4660 <= _max U16) by (vm_compute; split; discriminate).
  exact (primitive_int_round_trip Primitives.classes None no_files
           Primitives.store Primitives.u16_instance
           (obj_at Primitives.store Primitives.u16_instance) U16 4660 0 0
           eq_refl eq_refl eq_refl eq_refl Hrange).
Defined.

Lemma bytes_build_round_trip_witness :
  exists h',
    build Blobs.classes None Blobs.files 1 Blobs.sized_instance (VBytearray [x0a; x0b])
          Blobs.store = (Ok tt, h')
    /\ get_bytes Blobs.classes 1 h' (Ref Blobs.sized_instance) = Ok [x0a; x0b]
    /\ size Blobs.classes 1 h' (Ref Blobs.sized_instance) = Ok 2.
Proof.
  exact (proj1 (proj1 (bytes_build_round_trip Blobs.classes None Blobs.files
                         Blobs.store Blobs.sized_instance
                         (obj_at Blobs.store Blobs.sized_instance) (Some 2) None
                         (VBytearray [x0a; x0b]) 0 0
                         eq_refl eq_refl eq_refl eq_refl)
                      [x0a; x0b] (or_intror eq_refl))
               (or_intror eq_refl)).
Defined.

Section FileAndOptionalFacts.

Variable ct : class_table.
Variable root_path : option string.
Variable fs : string -> option (list byte).

Ltac enter_build Hr Hi Hu Hb :=
  rewrite (build_unfold _ _ _ _ _ _ _ _ Hr Hi Hu);
  unfold _build, bind, reading;
  erewrite lookup_ref_Some by (eapply lookup_insert_same; exact Hr);
  cbn [body_of set_built]; rewrite Hb.


(** X6: an [Optional] around a model that is no [Datatype] (an [Align], or
    another [Optional]) cannot be built, whatever the data, absent data
    included: the build fails with a specification error naming the class of
    the model. *)
Theorem optional_requires_a_datatype
  (h : heap) (w : ref) (o : obj) (m : ref) (it0 : option ref) (mo : obj)
  (d : any) (n : nat) :
  h !! w = Some o -> body_of o = BOptional m it0 ->
  _is_instance o = true -> _is_built o = false ->
  h !! m = Some mo -> issubclass ct (cls_of mo) CDatatype = false ->
  build ct root_path fs (S n) w d h
  = (raise SpecError ("Optional must wrap a known Datatype but received "
                      +:+ type_name ct (cls_of mo)),
     <[w := set_built o]> h).
Proof.
  intros Hw Hb Hi Hu Hm Hsub.
  rewrite (build_Optional_unfold _ _ _ _ _ _ _ _ _ _ Hw Hb Hi Hu).
  unfold Optional_build, bind, reading.
  erewrite lookup_ref_Some by (eapply lookup_insert_same; exact Hw).
  cbn [body_of set_built]. rewrite Hb.
  destruct (decide (m = w)) as [->|Hne].
  - erewrite lookup_ref_Some by (eapply lookup_insert_same; exact Hw).
    assert (mo = o) by congruence. subst mo.
    cbn [cls_of set_built]. now rewrite Hsub.
  - erewrite lookup_ref_Some by (rewrite list_lookup_insert_ne by congruence; exact Hm).
    now rewrite Hsub.
Qed.


End FileAndOptionalFacts.


Lemma optional_requires_a_datatype_witness :
  build OptionalAlign.classes None no_files 1 OptionalAlign.wrapper VNone
        OptionalAlign.store
  = (raise SpecError "Optional must wrap a known Datatype but received Align",
     <[OptionalAlign.wrapper
       := set_built (obj_at OptionalAlign.store OptionalAlign.wrapper)]>
       OptionalAlign.store).
Proof.
  exact (optional_requires_a_datatype OptionalAlign.classes None no_files
           OptionalAlign.store OptionalAlign.wrapper
           (obj_at OptionalAlign.store OptionalAlign.wrapper) 0%nat None
           (obj_at OptionalAlign.store 0%nat) VNone 0
           eq_refl eq_refl eq_refl eq_refl eq_refl eq_refl).
Defined.


(** ** Offsets and sizes before a build *)

Section OffsetAndArrayFacts.

Variable ct : class_table.



(** The element [Array.get_items] makes up for a place that is not built
    yet: a copy of the element model whose parent is the array. *)
Lemma deref_Default (h : heap) (a : ref) (oa : obj) (m : ref) (count : option Z)
      (its : list ref) (mo : obj) :
  h !! a = Some oa -> body_of oa = BArray (Some m) count its ->
  h !! m = Some mo -> _is_built mo = false ->
  exists od, deref h (Default (Ref a)) = Ok od
             /\ body_of od = body_of mo /\ parent od = Some (Ref a)
             /\ _is_built od = false /\ _is_instance od = true.
Proof.
  intros Ha Hb Hm Hu. cbn [deref]. rewrite (lookup_ref_Some _ _ _ Ha). cbn [obind].
  rewrite Hb, (lookup_ref_Some _ _ _ Hm). cbn [obind]. unfold instantiate_obj.
  rewrite Hu.
  destruct (orig_class mo) as [[|c1]|]; [| |destruct (_generic_type mo) as [[|c2]|]];
    cbn [obind]; eexists; (split; [reflexivity|]); cbn; auto.
Qed.

Lemma get_items_unbuilt_counted (h : heap) (a : ref) (oa : obj) (m : ref) (N : Z)
      (mo : obj) :
  h !! a = Some oa -> body_of oa = BArray (Some m) (Some N) [] ->
  h !! m = Some mo -> _is_built mo = false ->
  get_items ct h (Ref a) oa true = Ok (repeat (Default (Ref a)) (Z.to_nat N)).
Proof.
  intros Ha Hb Hm Hu.
  destruct (deref_Default _ _ _ _ _ _ _ Ha Hb Hm Hu) as (od & Hd & _).
  unfold get_items. rewrite Hb. cbn [negb length map app].
  rewrite andb_false_r, Hd. cbn [obind]. do 2 f_equal. lia.
Qed.

(** X9: an [Array] of [Align] cannot be sized before it is built: the
    padding of a place that is not built yet asks for its offset in the
    array, the array makes up new elements to walk over and asks the first
    of them for its size, and so on without end (Python stops the recursion
    with a [RecursionError]). *)
Theorem array_of_align_never_sizes
  (h : heap) (a : ref) (oa : obj) (m : ref) (N : Z) (mo : obj) (A : Z)
  (pad : option Z) :
  h !! a = Some oa -> body_of oa = BArray (Some m) (Some N) [] -> 0 < N ->
  h !! m = Some mo -> body_of mo = BAlign A pad -> _is_built mo = false ->
  forall n, size ct n h (Ref a) = OutOfFuel
            /\ size ct n h (Default (Ref a)) = OutOfFuel.
Proof.
  intros Ha Hb HN Hm Hbm Hu.
  destruct (deref_Default _ _ _ _ _ _ _ Ha Hb Hm Hu) as (od & Hd & Hbd & Hpd & _).
  pose proof (get_items_unbuilt_counted _ _ _ _ _ _ Ha Hb Hm Hu) as Hitems.
  destruct (Z.to_nat N) as [|c] eqn:EN; [lia|]. cbn [repeat] in Hitems.
  assert (Hdef : forall n, size ct n h (Default (Ref a)) = OutOfFuel).
  { induction n as [|n IH]; [reflexivity|].
    cbn [size]. unfold size_step. rewrite Hd. cbn [obind]. rewrite Hbd, Hbm.
    unfold offset_with. rewrite Hd. cbn [obind]. rewrite Hpd.
    unfold offset_of_with. cbn [deref]. rewrite (lookup_ref_Some _ _ _ Ha).
    cbn [obind]. rewrite Hitems. cbn [obind offset_of_loop handle_is].
    now rewrite IH. }
  intros n. split; [|apply Hdef].
  destruct n as [|n]; [reflexivity|].
  cbn [size]. unfold size_step. cbn [deref]. rewrite (lookup_ref_Some _ _ _ Ha).
  cbn [obind]. rewrite Hb, Hitems. cbn [obind sum_sizes]. now rewrite Hdef.
Qed.

Lemma sum_sizes_repeat (sz : handle -> outcome Z) (x : handle) (s : Z) (c : nat) :
  sz x = Ok s -> sum_sizes sz (repeat x c) = Ok (Z.of_nat c * s).
Proof.
  intros Hs. induction c as [|c IH]; [reflexivity|].
  cbn [repeat sum_sizes]. rewrite Hs, IH. cbn [obind]. f_equal. lia.
Qed.

(** X10: the size of an [Array] of a primitive can be asked before the
    array is built when its item count was declared: it is the count (none
    for a negative count) times the size of the primitive; the items
    themselves are not to be had yet.  Without a declared count the size is
    a dependency error. *)
Theorem unbuilt_array_size
  (h : heap) (a : ref) (oa : obj) (m : ref) (count : option Z) (mo : obj)
  (p : prim) (d0 : option Z) (k : nat) :
  h !! a = Some oa -> body_of oa = BArray (Some m) count [] ->
  h !! m = Some mo -> body_of mo = BPrim p d0 -> _is_built mo = false ->
  match count with
  | None => raises (size ct (S k) h (Ref a)) DependencyError
  | Some N =>
      size ct (S (S k)) h (Ref a) = Ok (Z.max 0 N * (_bit_size p / 8))
      /\ (0 < N -> raises (get_items ct h (Ref a) oa false) DependencyError)
  end.
Proof.
  intros Ha Hb Hm Hbm Hu. destruct count as [N|].
  - destruct (deref_Default _ _ _ _ _ _ _ Ha Hb Hm Hu) as (od & Hd & Hbd & _).
    split.
    + cbn [size]. unfold size_step at 1. cbn [deref].
      rewrite (lookup_ref_Some _ _ _ Ha). cbn [obind]. rewrite Hb.
      rewrite (get_items_unbuilt_counted _ _ _ _ _ _ Ha Hb Hm Hu). cbn [obind].
      rewrite (sum_sizes_repeat _ _ (_bit_size p / 8)).
      * f_equal. f_equal. lia.
      * unfold size_step. rewrite Hd. cbn [obind]. now rewrite Hbd, Hbm.
    + intros HN. unfold get_items. rewrite Hb. cbn [length negb].
      destruct (Z.ltb_spec 0 (N - Z.of_nat 0)); [reflexivity|lia].
  - cbn [size]. unfold size_step. cbn [deref]. rewrite (lookup_ref_Some _ _ _ Ha).
    cbn [obind]. rewrite Hb. unfold get_items. rewrite Hb. reflexivity.
Qed.

End OffsetAndArrayFacts.


Lemma array_of_align_never_sizes_witness :
  size Tables.classes 100 Tables.store (Ref Tables.pads) = OutOfFuel
  /\ size Tables.classes 100 Tables.store (Default (Ref Tables.pads)) = OutOfFuel.
Proof.
  exact (array_of_align_never_sizes Tables.classes Tables.store Tables.pads
           (obj_at Tables.store Tables.pads) 3%nat 2 (obj_at Tables.store 3%nat) 4 None
           eq_refl eq_refl eq_refl eq_refl eq_refl eq_refl 100%nat).
Defined.

Lemma unbuilt_array_size_witness :
  size Tables.classes 2 Tables.store (Ref Tables.words) = Ok (Z.max 0 3 * (_bit_size U16 / 8))
  /\ (0 < 3 -> raises (get_items Tables.classes Tables.store (Ref Tables.words)
                         (obj_at Tables.store Tables.words) false) DependencyError).
Proof.
  exact (unbuilt_array_size Tables.classes Tables.store Tables.words
           (obj_at Tables.store Tables.words) 0%nat (Some 3) (obj_at Tables.store 0%nat)
           U16 None 0 eq_refl eq_refl eq_refl eq_refl eq_refl).
Defined.

(** ** Sizes and bytes *)

Section SizeAndBytes.

Variable ct : class_table.

Lemma to_bytes_length (v nbytes : Z) (signed : bool) (bs : list byte) :
  to_bytes v nbytes signed = Ok bs -> Z.of_nat (length bs) = nbytes.
Proof.
  unfold to_bytes. destruct (Z.ltb_spec nbytes 0); [discriminate|].
  destruct (negb signed && (v <? 0)); [discriminate|].
  match goal with |- context [if ?c then Ok _ else _] => destruct c end;
    [|discriminate].
  intros [= <-]. rewrite length_be_digits. lia.
Qed.

Lemma deref_Default_unbuilt (h : heap) (a : handle) (o : obj) :
  deref h (Default a) = Ok o -> _is_built o = false.
Proof.
  cbn [deref]. destruct (deref h a) as [oa| |]; cbn [obind]; try discriminate.
  destruct (body_of oa) as [| | | |[m|] ? ?| |]; try discriminate.
  destruct (lookup_ref h m) as [om| |]; cbn [obind]; try discriminate.
  unfold instantiate_obj. destruct (_is_built om) eqn:Hu; [discriminate|].
  match goal with |- context [obind ?g] => destruct g end;
    cbn [obind]; try discriminate.
  intros [= <-]. reflexivity.
Qed.

Lemma get_items_without_defaults (h : heap) (x : handle) (o : obj)
      (items : list handle) :
  get_items ct h x o false = Ok items -> get_items ct h x o true = Ok items.
Proof.
  unfold get_items. destruct (body_of o) as [| | | |m [c|] its| |]; try exact id.
  cbn [negb]. rewrite andb_true_r, andb_false_r.
  destruct (0 <? c - Z.of_nat (length its)); [discriminate|exact id].
Qed.

Lemma sizes_match_bytes (sz : handle -> outcome Z) (gb : handle -> outcome (list byte)) :
  (forall x bs s, gb x = Ok bs -> sz x = Ok s -> s = Z.of_nat (length bs)) ->
  forall items bs s,
    join_bytes gb items = Ok bs -> sum_sizes sz items = Ok s ->
    s = Z.of_nat (length bs).
Proof.
  intros Hone. induction items as [|it items IH]; intros bs s Hg Hs.
  - cbn in Hg, Hs. injection Hg as <-. injection Hs as <-. reflexivity.
  - cbn [join_bytes sum_sizes] in Hg, Hs.
    destruct (gb it) as [b| |] eqn:Eb; cbn [obind] in Hg; try discriminate.
    destruct (join_bytes gb items) as [bs'| |]; cbn [obind] in Hg; try discriminate.
    destruct (sz it) as [s1| |] eqn:Es; cbn [obind] in Hs; try discriminate.
    destruct (sum_sizes sz items) as [s2| |]; cbn [obind] in Hs; try discriminate.
    injection Hg as <-. injection Hs as <-.
    rewrite length_app, Nat2Z.inj_add, (Hone _ _ _ Eb Es), (IH bs' s2); auto.
Qed.

(** Size and bytes agree datum by datum, by induction on the depth of the
    serialization. *)
Lemma size_bytes_agree (h : heap) :
  settled ct h ->
  forall (n k : nat) (x : handle) (bs : list byte) (s : Z),
    get_bytes ct n h x = Ok bs -> size ct k h x = Ok s ->
    s = Z.of_nat (length bs).
Proof.
  intros Hset. induction n as [|n IH]; intros k x bs s Hg Hs; [discriminate|].
  destruct k as [|k]; [discriminate|].
  pose proof Hs as Hsize.
  cbn [get_bytes] in Hg. cbn [size] in Hs. unfold get_bytes_step in Hg.
  unfold size_step in Hs.
  destruct (deref h x) as [o| |] eqn:Hd; cbn [obind] in Hg, Hs; try discriminate.
  destruct (_is_instance o); cbn [negb] in Hg; [|discriminate].
  destruct (_is_built o) eqn:Hbuilt; cbn [negb] in Hg, Hs; [|discriminate].
  assert (Hx : exists r, x = Ref r /\ h !! r = Some o).
  { destruct x as [r|a].
    - exists r. split; [reflexivity|]. now apply lookup_ref_Ok.
    - apply deref_Default_unbuilt in Hd. congruence. }
  destruct Hx as (r & -> & Hr). pose proof (Hset r o Hr Hbuilt) as Hok.
  destruct (body_of o) as [p [v|]|sz [data|]|[data|]|attrs|m c its|m [i|]|A [pad|]];
    try discriminate.
  - injection Hs as <-. symmetry. eapply to_bytes_length; eauto.
  - injection Hg as ->. destruct sz as [s0|]; injection Hs as <-; auto.
  - injection Hg as ->. now injection Hs as <-.
  - destruct (get_items ct h (Ref r) o false) as [items| |] eqn:Hit;
      cbn [obind] in Hg; try discriminate.
    rewrite (get_items_without_defaults _ _ _ _ Hit) in Hs. cbn [obind] in Hs.
    eapply sizes_match_bytes; [|exact Hg|exact Hs]. intros; eapply IH; eauto.
  - destruct (get_items ct h (Ref r) o false) as [items| |] eqn:Hit;
      cbn [obind] in Hg; try discriminate.
    rewrite (get_items_without_defaults _ _ _ _ Hit) in Hs. cbn [obind] in Hs.
    eapply sizes_match_bytes; [|exact Hg|exact Hs]. intros; eapply IH; eauto.
  - destruct (datum_truth ct h (Ref i)) as [[|]| |]; cbn [obind] in Hg, Hs;
      try discriminate.
    + eapply IH; eauto.
    + injection Hg as <-. now injection Hs as <-.
  - injection Hg as <-. now injection Hs as <-.
  - destruct (Z.ltb_spec pad 0); [discriminate|]. injection Hg as <-.
    rewrite repeat_length, (Hok _ _ Hsize). lia.
Qed.

(** X11: in a store whose sizes are settled, the size of a datum is the
    number of bytes it serializes to, for every datum that has both: a
    primitive, bytes, a file, an [Align], and through them every block,
    array and optional; and the sizes of a list of data add up to the length
    of their bytes joined. *)
Theorem size_matches_bytes_when_settled (h : heap) :
  settled ct h ->
  forall (n k : nat),
    (forall (x : handle) (bs : list byte) (s : Z),
       get_bytes ct n h x = Ok bs -> size ct k h x = Ok s ->
       s = Z.of_nat (length bs))
    /\ (forall (items : list handle) (bs : list byte) (s : Z),
          join_bytes (get_bytes ct n h) items = Ok bs ->
          sum_sizes (size ct k h) items = Ok s ->
          s = Z.of_nat (length bs)).
Proof.
  intros Hset n k.
  assert (Hone : forall x bs s, get_bytes ct n h x = Ok bs -> size ct k h x = Ok s ->
                                s = Z.of_nat (length bs))
    by (intros x bs s; now apply size_bytes_agree).
  split; [exact Hone|]. now apply sizes_match_bytes.
Qed.

Lemma offset_of_loop_found_at (sz : handle -> outcome Z) (target : handle) :
  forall (items : list handle) (acc off : Z),
    offset_of_loop sz items target acc = Ok off ->
    exists before after sizes,
      items = before ++ target :: after
      /\ Forall2 (fun it s => sz it = Ok s) before sizes
      /\ off = acc + Zsum sizes.
Proof.
  induction items as [|it items IH]; intros acc off Hloop; [discriminate|].
  cbn [offset_of_loop] in Hloop. destruct (handle_is it target) eqn:His.
  - injection Hloop as <-. exists [], items, []. split; [|split].
    + destruct it as [x|], target as [y|]; try discriminate.
      cbn [handle_is] in His. apply Nat.eqb_eq in His. now subst.
    + constructor.
    + cbn. lia.
  - destruct (sz it) as [s| |] eqn:Hs; cbn [obind] in Hloop; try discriminate.
    destruct (IH _ _ Hloop) as (before & after & sizes & -> & Hsz & ->).
    exists (it :: before), after, (s :: sizes). split; [reflexivity|].
    split; [now constructor|]. cbn [Zsum fold_right]. fold (Zsum sizes). lia.
Qed.

Lemma join_bytes_app (gb : handle -> outcome (list byte)) :
  forall (l1 l2 : list handle) (bs : list byte),
    join_bytes gb (l1 ++ l2) = Ok bs ->
    exists b1 b2, join_bytes gb l1 = Ok b1 /\ join_bytes gb l2 = Ok b2
                  /\ bs = b1 ++ b2.
Proof.
  induction l1 as [|x l1 IH]; intros l2 bs Hj.
  - exists [], bs. auto.
  - cbn [app join_bytes] in Hj |- *.
    destruct (gb x) as [b| |]; cbn [obind] in Hj |- *; try discriminate.
    destruct (join_bytes gb (l1 ++ l2)) as [bs'| |] eqn:E; cbn [obind] in Hj;
      try discriminate.
    injection Hj as <-. destruct (IH _ _ E) as (b1 & b2 & -> & -> & ->).
    cbn [obind]. exists (b ++ b1), b2. now rewrite app_assoc.
Qed.

Lemma sizes_are_lengths (sz : handle -> outcome Z) (gb : handle -> outcome (list byte)) :
  (forall x bs s, gb x = Ok bs -> sz x = Ok s -> s = Z.of_nat (length bs)) ->
  forall items sizes bs,
    Forall2 (fun it s => sz it = Ok s) items sizes ->
    join_bytes gb items = Ok bs -> Zsum sizes = Z.of_nat (length bs).
Proof.
  intros Hone items sizes bs Hsz. revert bs.
  induction Hsz as [|it s items sizes Hs _ IH]; intros bs Hj.
  - injection Hj as <-. reflexivity.
  - cbn [join_bytes] in Hj.
    destruct (gb it) as [b| |] eqn:Eb; cbn [obind] in Hj; try discriminate.
    destruct (join_bytes gb items) as [bs'| |]; cbn [obind] in Hj; try discriminate.
    injection Hj as <-. cbn [Zsum fold_right]. fold (Zsum sizes).
    rewrite (IH bs' eq_refl), (Hone _ _ _ Eb Hs), length_app. lia.
Qed.

(** X17: in a store whose sizes are settled, [offset()] says where the
    bytes of a datum stand in the bytes of its parent: the bytes of the
    parent are some bytes, as many as the offset of the datum, then the
    bytes of the datum, then the rest. *)
Theorem offset_locates_the_bytes (h : heap) :
  settled ct h ->
  forall (n k : nat) (x : ref) (ox : obj) (c : handle) (bs : list byte) (off : Z),
    h !! x = Some ox -> parent ox = Some c ->
    get_bytes ct (S n) h c = Ok bs -> offset ct k h (Ref x) = Ok off ->
    exists pre bx post,
      bs = pre ++ bx ++ post
      /\ get_bytes ct n h (Ref x) = Ok bx
      /\ Z.of_nat (length pre) = off.
Proof.
  intros Hset n k x ox c bs off Hx Hp Hg Hoff.
  unfold offset, offset_with in Hoff. cbn [deref] in Hoff.
  rewrite (lookup_ref_Some _ _ _ Hx) in Hoff. cbn [obind] in Hoff.
  rewrite Hp in Hoff. unfold offset_of_with in Hoff.
  cbn [get_bytes] in Hg. unfold get_bytes_step in Hg.
  destruct (deref h c) as [oc| |]; cbn [obind] in Hg, Hoff; try discriminate.
  destruct (get_items ct h c oc true) as [items| |] eqn:Hit; cbn [obind] in Hoff;
    try discriminate.
  destruct (_is_instance oc); cbn [negb] in Hg; [|discriminate].
  destruct (_is_built oc); cbn [negb] in Hg; [|discriminate].
  assert (Hjoin : join_bytes (get_bytes ct n h) items = Ok bs).
  { unfold get_items in Hit.
    destruct (body_of oc) as [| | |attrs|m cnt its| |] eqn:Hb; try discriminate.
    - assert (Hsame : get_items ct h c oc false = Ok items)
        by (unfold get_items; now rewrite Hb).
      rewrite Hsame in Hg. exact Hg.
    - destruct (get_items ct h c oc false) as [items'| |] eqn:Hf; cbn [obind] in Hg;
        try discriminate.
      pose proof (get_items_without_defaults _ _ _ _ Hf) as Ht.
      unfold get_items in Ht. rewrite Hb in Ht. rewrite Ht in Hit.
      injection Hit as <-. exact Hg. }
  destruct (offset_of_loop_found_at _ _ _ _ _ Hoff)
    as (before & after & sizes & -> & Hsz & ->).
  destruct (join_bytes_app _ _ _ _ Hjoin) as (pre & rest & Hpre & Hrest & ->).
  cbn [join_bytes] in Hrest.
  destruct (get_bytes ct n h (Ref x)) as [bx| |]; cbn [obind] in Hrest; try discriminate.
  destruct (join_bytes (get_bytes ct n h) after) as [post| |]; cbn [obind] in Hrest;
    try discriminate.
  injection Hrest as <-. exists pre, bx, post. split; [reflexivity|].
  split; [reflexivity|].
  rewrite <- (sizes_are_lengths (size ct k h) (get_bytes ct n h)
                (fun y b s => size_bytes_agree h Hset n k y b s) _ _ _ Hsz Hpre).
  lia.
Qed.

End SizeAndBytes.

Lemma nested_store_settled : settled Nested.classes Nested.store.
Proof.
  intros r o Hr Hb.
  do 17 (destruct r as [|r];
         [vm_compute in Hr; injection Hr as <-; vm_compute in Hb;
          first [discriminate Hb | exact I
                | cbn [body_of]; intros k s Hs; destruct k as [|[|k]];
                  vm_compute in Hs; [discriminate Hs|discriminate Hs|];
                  now injection Hs as <-]|]).
  vm_compute in Hr. discriminate Hr.
Qed.

Lemma size_matches_bytes_when_settled_witness :
  settled Nested.classes Nested.store
  /\ get_bytes Nested.classes 4 Nested.store (Ref Nested.root)
     = Ok [x01; x02; x00; x00; x00; x03]
  /\ size Nested.classes 4 Nested.store (Ref Nested.root) = Ok 6
  /\ 6 = Z.of_nat (length [x01; x02; x00; x00; x00; x03]).
Proof.
  assert (Hbytes : get_bytes Nested.classes 4 Nested.store (Ref Nested.root)
                   = Ok [x01; x02; x00; x00; x00; x03]) by (vm_compute; reflexivity).
  assert (Hsize : size Nested.classes 4 Nested.store (Ref Nested.root) = Ok 6)
    by (vm_compute; reflexivity).
  split; [exact nested_store_settled|]. split; [exact Hbytes|]. split; [exact Hsize|].
  exact (proj1 (size_matches_bytes_when_settled Nested.classes Nested.store
                  nested_store_settled 4 4) (Ref Nested.root)
           [x01; x02; x00; x00; x00; x03] 6 Hbytes Hsize).
Defined.

(** ** Arrays of primitives *)

Section ArrayOfPrimitives.

Variable ct : class_table.
Variable root_path : option string.
Variable fs : string -> option (list byte).

Lemma instantiate_under_parent (g : heap) (m : ref) (mo : obj) (a : ref) (oa : obj) :
  g !! m = Some mo -> _is_built mo = false -> g !! a = Some oa ->
  exists oi, instantiate m (Some (Ref a)) g = (Ok (length g), g ++ [oi])
    /\ _is_instance oi = true /\ _is_built oi = false
    /\ body_of oi = body_of mo /\ cls_of oi = cls_of mo
    /\ parent oi = Some (Ref a).
Proof.
  intros Hm Hu Ha. unfold instantiate, bind, reading, alloc.
  rewrite (lookup_ref_Some _ _ _ Hm). cbn [obind deref].
  rewrite (lookup_ref_Some _ _ _ Ha). cbn [obind].
  unfold instantiate_obj. rewrite Hu.
  destruct (orig_class mo) as [[|c1]|]; [| |destruct (_generic_type mo) as [[|c2]|]];
    cbn [obind]; eexists; (split; [reflexivity|]); cbn; auto.
Qed.

Lemma build_primitive_in_range (n : nat) (g : heap) (r : ref) (o : obj) (p : prim)
      (d0 : option Z) (v : Z) :
  g !! r = Some o -> body_of o = BPrim p d0 ->
  _is_instance o = true -> _is_built o = false ->
  _min p <= v <= _max p ->
  build ct root_path fs (S n) r (VInt v) g
  = (Ok tt, <[r := set_body (BPrim p (Some v)) (set_built o)]> g).
Proof.
  intros Hr Hb Hi Hu Hv.
  rewrite (build_unfold _ _ _ _ _ _ _ _ Hr Hi Hu).
  unfold _build, bind, reading.
  erewrite lookup_ref_Some by (eapply lookup_insert_same; exact Hr).
  cbn [body_of set_built]. rewrite Hb. unfold Primitive_preprocess.
  destruct (Z.ltb_spec v (_min p)); [lia|].
  destruct (Z.ltb_spec (_max p) v); [lia|]. cbn [orb].
  erewrite assign_Some by (eapply lookup_insert_same; exact Hr).
  rewrite list_insert_insert_eq. cbn [body_of set_built]. now rewrite Hb.
Qed.

(** The loop of [Array._process] over integers in range: one new element
    for each, after the objects the store held. *)
Lemma Array_process_loop_primitives (n : nat) (a m : ref) (oa mo : obj) (p : prim)
      (d0 : option Z) (elem : string) :
  body_of mo = BPrim p d0 -> _is_built mo = false ->
  forall (vs : list Z) (g : heap) (i : nat) (items : list ref),
    g !! a = Some oa -> g !! m = Some mo ->
    Forall (fun v => _min p <= v <= _max p) vs ->
    exists objs,
      Array_process_loop ct (build ct root_path fs (S n)) a m elem (map VInt vs) i items g
      = (Ok (items ++ seq (length g) (length vs)), g ++ objs)
      /\ Forall2 (built_primitive p) vs objs.
Proof.
  intros Hbm Hum. induction vs as [|v vs IH]; intros g i items Ha Hm Hvs.
  - exists []. cbn. rewrite !app_nil_r. split; [reflexivity|constructor].
  - inversion Hvs as [|? ? Hv Hrest]; subst.
    destruct (instantiate_under_parent g m mo a oa Hm Hum Ha)
      as (oi & Hinst & Hii & Hiu & Hib & _).
    assert (Hat : (g ++ [oi]) !! length g = Some oi)
      by (apply lookup_snoc_Some; right; auto).
    rewrite Hbm in Hib.
    pose proof (build_primitive_in_range n _ _ _ _ _ v Hat Hib Hii Hiu Hv) as Hbuild.
    set (ob := set_body (BPrim p (Some v)) (set_built oi)) in *.
    assert (Hins : <[length g := ob]> (g ++ [oi]) = g ++ [ob]).
    { rewrite insert_app_r_alt by lia. now rewrite Nat.sub_diag. }
    unfold ref in Hbuild. rewrite Hins in Hbuild.
    destruct (IH (g ++ [ob]) (S i) (items ++ [length g])) as (objs & Hloop & Hobjs).
    { now apply lookup_app_l_Some. }
    { now apply lookup_app_l_Some. }
    { exact Hrest. }
    exists (ob :: objs). split.
    + cbn [map Array_process_loop]. unfold data_isinstance, bind, reading, annotate.
      cbn [_unpack_type _is_packed_type negb fst snd].
      rewrite Hinst. cbn [fst snd]. rewrite Hbuild. cbn [fst snd].
      unfold ref in *. rewrite Hloop. rewrite length_app, <- !app_assoc.
      cbn [length app]. rewrite Nat.add_1_r. reflexivity.
    + constructor; [|exact Hobjs]. subst ob. repeat split; cbn; auto.
Qed.

Lemma primitives_serialize (k : nat) (g : heap) (p : prim) :
  forall (vs : list Z) (base : nat),
    (forall j v, vs !! j = Some v ->
       exists ob, g !! (base + j)%nat = Some ob /\ built_primitive p v ob
                  /\ _min p <= v <= _max p) ->
    join_bytes (get_bytes ct (S k) g) (map Ref (seq base (length vs)))
    = Ok (concat (map (big_endian_twos_complement p) vs))
    /\ sum_sizes (size ct (S k) g) (map Ref (seq base (length vs)))
       = Ok (Z.of_nat (length vs) * (_bit_size p / 8)).
Proof.
  induction vs as [|v vs IH]; intros base H.
  - split; reflexivity.
  - destruct (H 0%nat v eq_refl) as (ob & Hob & (Hb & Hi & Hbu) & Hv).
    rewrite Nat.add_0_r in Hob.
    destruct (IH (S base)) as [Hj Hs].
    { intros j v' Hj. destruct (H (S j) v' Hj) as (ob' & Hob' & Hrest).
      exists ob'. split; [|exact Hrest]. now rewrite Nat.add_succ_r in Hob'. }
    assert (Hgb : get_bytes ct (S k) g (Ref base) = Ok (big_endian_twos_complement p v)).
    { cbn [get_bytes]. unfold get_bytes_step. cbn [deref].
      rewrite (lookup_ref_Some _ _ _ Hob). cbn [obind]. rewrite Hi, Hbu, Hb.
      cbn [negb]. now apply to_bytes_in_range. }
    assert (Hsz : size ct (S k) g (Ref base) = Ok (_bit_size p / 8)).
    { cbn [size]. unfold size_step. cbn [deref].
      rewrite (lookup_ref_Some _ _ _ Hob). cbn [obind]. now rewrite Hb. }
    cbn [length seq map join_bytes sum_sizes concat].
    rewrite Hgb, Hsz, Hj, Hs. cbn [obind]. split; [reflexivity|]. f_equal. lia.
Qed.

(** X12: an [Array] of a primitive, built with a sequence of integers in
    the range of the primitive (a list, a tuple, or [bytes], whose items are
    their byte values), serializes to the big-endian encodings of the
    integers one after the other, and its size is their number times the
    size of the primitive; the count, when declared, has to be the length
    of the sequence. *)
Theorem array_of_primitives_bytes
  (n k : nat) (h : heap) (a : ref) (o : obj) (m : ref) (mo : obj) (p : prim)
  (d0 : option Z) (count : option Z) (d : any) (vs : list Z) :
  h !! a = Some o -> body_of o = BArray (Some m) count [] ->
  _is_instance o = true -> _is_built o = false ->
  h !! m = Some mo -> body_of mo = BPrim p d0 -> _is_built mo = false ->
  as_sequence d = Some (map VInt vs) ->
  Forall (fun v => _min p <= v <= _max p) vs ->
  count = None \/ count = Some (Z.of_nat (length vs)) ->
  exists h',
    build ct root_path fs (S (S n)) a d h = (Ok tt, h')
    /\ get_bytes ct (S (S k)) h' (Ref a)
       = Ok (concat (map (big_endian_twos_complement p) vs))
    /\ size ct (S (S k)) h' (Ref a) = Ok (Z.of_nat (length vs) * (_bit_size p / 8)).
Proof.
  intros Ha Hb Hi Hu Hm Hbm Hum Hseq Hvs Hcount.
  assert (Hne : a <> m) by (intros ->; congruence).
  set (o1 := set_built o). set (h1 := <[a := o1]> h).
  assert (Ha1 : h1 !! a = Some o1) by (eapply lookup_insert_same; exact Ha).
  assert (Hm1 : h1 !! m = Some mo).
  { unfold h1. now rewrite list_lookup_insert_ne. }
  assert (Hpre : exists h2 o2,
            Array_preprocess ct a d h1 = (Ok (map VInt vs), h2)
            /\ h2 !! a = Some o2 /\ h2 !! m = Some mo
            /\ body_of o2 = BArray (Some m) (Some (Z.of_nat (length vs))) []
            /\ _is_instance o2 = true /\ _is_built o2 = true).
  { rewrite (Array_preprocess_with_model ct a d (map VInt vs) h1 o1 m count []
               Ha1 Hb Hseq).
    rewrite length_map. destruct Hcount as [-> | ->].
    - eexists _, _. split; [reflexivity|].
      split; [eapply lookup_insert_same; exact Ha1|].
      split; [now rewrite list_lookup_insert_ne|].
      split; [reflexivity|]. split; [exact Hi|reflexivity].
    - destruct (Z.ltb_spec (Z.of_nat (length vs)) 0); [lia|].
      rewrite Z.eqb_refl. cbn [negb]. exists h1, o1.
      split; [reflexivity|]. split; [exact Ha1|]. split; [exact Hm1|].
      split; [exact Hb|]. split; [exact Hi|reflexivity]. }
  destruct Hpre as (h2 & o2 & Hpre & Ha2 & Hm2 & Hb2 & Hi2 & Hu2).
  destruct (Array_process_loop_primitives n a m o2 mo p d0 (type_name ct (cls_of mo))
              Hbm Hum vs h2 0%nat [] Ha2 Hm2 Hvs) as (objs & Hloop & Hobjs).
  cbn [app] in Hloop.
  set (items := seq (length h2) (length vs)) in *.
  set (o3 := set_body (BArray (Some m) (Some (Z.of_nat (length vs))) items) o2).
  assert (Hlt : (a < length h2)%nat) by (eapply lookup_lt_Some; exact Ha2).
  assert (Hmlt : (m < length h2)%nat) by (eapply lookup_lt_Some; exact Hm2).
  exists (<[a := o3]> (h2 ++ objs)).
  assert (Ha3 : <[a := o3]> (h2 ++ objs) !! a = Some o3).
  { apply list_lookup_insert_eq. rewrite length_app. lia. }
  assert (Hm3 : <[a := o3]> (h2 ++ objs) !! m = Some mo).
  { rewrite list_lookup_insert_ne by exact Hne. now apply lookup_app_l_Some. }
  assert (Hitems : forall dflt,
            get_items ct (<[a := o3]> (h2 ++ objs)) (Ref a) o3 dflt = Ok (map Ref items)).
  { intros dflt. unfold get_items.
    change (body_of o3) with (BArray (Some m) (Some (Z.of_nat (length vs))) items).
    cbv beta iota zeta.
    destruct (deref_Default _ _ _ _ _ _ _ Ha3 eq_refl Hm3 Hum) as (od & -> & _).
    cbn [obind].
    assert (Hz : Z.of_nat (length vs) - Z.of_nat (length items) = 0)
      by (unfold items; rewrite length_seq; lia).
    unfold ref. rewrite Hz. cbn [Z.ltb Z.compare andb Z.to_nat repeat].
    now rewrite app_nil_r. }
  destruct (primitives_serialize k (<[a := o3]> (h2 ++ objs)) p vs (length h2))
    as [Hjoin Hsum].
  { intros j v Hj.
    destruct (Forall2_lookup_l _ _ _ _ _ Hobjs Hj) as (ob & Hob & Hbuilt).
    exists ob. split; [|split; [exact Hbuilt|]].
    - rewrite list_lookup_insert_ne by lia.
      rewrite lookup_app_r by lia. rewrite <- Hob. f_equal. lia.
    - eapply (proj1 (Forall_lookup _ _) Hvs); exact Hj. }
  split; [|split].
  - rewrite (build_Array_unfold ct root_path fs (S n) h a o d (Some m) count []
               Ha Hb Hi Hu).
    fold o1. fold h1. unfold bind at 1. rewrite Hpre.
    unfold Array_process, bind, reading.
    rewrite (lookup_ref_Some _ _ _ Ha2), Hb2, (lookup_ref_Some _ _ _ Hm2).
    cbn [obind]. rewrite Hloop.
    erewrite assign_Some by (apply lookup_app_l_Some; exact Ha2).
    rewrite Hb2. reflexivity.
  - cbn [get_bytes]. unfold get_bytes_step at 1. cbn [deref].
    rewrite (lookup_ref_Some _ _ _ Ha3). cbn [obind].
    cbn [o3 set_body _is_instance _is_built body_of]. rewrite Hi2, Hu2. cbn [negb].
    fold o3. rewrite Hitems. cbn [obind]. exact Hjoin.
  - cbn [size]. unfold size_step at 1. cbn [deref].
    rewrite (lookup_ref_Some _ _ _ Ha3). cbn [obind].
    cbn [o3 set_body body_of]. fold o3. rewrite Hitems. cbn [obind]. exact Hsum.
Qed.

End ArrayOfPrimitives.

Lemma array_of_primitives_bytes_witness :
  exists h',
    build Tables.classes None no_files 2 Tables.words
          (VList [VInt 1; VInt 258; VInt 65535]) Tables.store = (Ok tt, h')
    /\ get_bytes Tables.classes 2 h' (Ref Tables.words)
       = Ok (concat (map (big_endian_twos_complement U16) [1; 258; 65535]))
    /\ size Tables.classes 2 h' (Ref Tables.words)
       = Ok (Z.of_nat (length [1; 258; 65535]) * (_bit_size U16 / 8)).
Proof.
  assert (Hvs : Forall (fun v => _min U16 <= v <= _max U16) [1; 258; 65535])
    by (repeat (constructor; [vm_compute; split; discriminate|]); constructor).
  exact (array_of_primitives_bytes Tables.classes None no_files 0 0 Tables.store
           Tables.words (obj_at Tables.store Tables.words) 0%nat
           (obj_at Tables.store 0%nat) U16 None (Some 3)
           (VList [VInt 1; VInt 258; VInt 65535]) [1; 258; 65535]
           eq_refl eq_refl eq_refl eq_refl eq_refl eq_refl eq_refl eq_refl Hvs
           (or_intror eq_refl)).
Defined.

(** ** Blocks *)

Section BlockFacts2.

Variable ct : class_table.
Variable root_path : option string.
Variable fs : string -> option (list byte).

Lemma Block_preflight_outcome (h : heap) (o : obj) (kv : list (string * any)) :
  forall fields : list (string * ref),
    Forall (fun f => exists mo, h !! snd f = Some mo) fields ->
    Block_preflight ct h o kv fields = Ok tt
    \/ exists nm, In nm (map fst fields)
         /\ Block_preflight ct h o kv fields
            = raise ValidationError ("No setter or dict value found for " +:+ nm).
Proof.
  induction fields as [|[nm m] fields IH]; intros Hex; [now left|].
  inversion Hex as [|? ? [mo Hmo] Hrest]; subst. cbn [snd] in Hmo.
  cbn [Block_preflight]. rewrite (lookup_ref_Some _ _ _ Hmo). cbn [obind].
  assert (Hgo : Block_preflight ct h o kv fields = Ok tt
                \/ exists nm0, In nm0 (map fst ((nm, m) :: fields))
                     /\ Block_preflight ct h o kv fields
                        = raise ValidationError
                            ("No setter or dict value found for " +:+ nm0)).
  { destruct (IH Hrest) as [Hok|(nm0 & Hin & Hraise)]; [now left|].
    right. exists nm0. split; [now right|exact Hraise]. }
  destruct (_ || _); [exact Hgo|]. destruct (_ || _); [exact Hgo|].
  right. exists nm. split; [now left|reflexivity].
Qed.

(** X13: a block is checked before any of its fields is touched: when a
    field that is no generator and no [Optional], and has no default, finds
    neither a value in the data nor a setter, the build fails with a
    validation error naming a field that lacks both, and nothing but the
    flag of the block itself has changed. *)
Theorem block_rejects_a_missing_field
  (n : nat) (h : heap) (r : ref) (o : obj) (attrs : list (string * ref))
  (kv : list (string * any)) (nm : string) (m : ref) (mo : obj) :
  h !! r = Some o -> body_of o = BBlock attrs ->
  _is_instance o = true -> _is_built o = false ->
  Forall (fun f => exists mo, h !! snd f = Some mo) (_fields ct (cls_of o)) ->
  In (nm, m) (_fields ct (cls_of o)) -> h !! m = Some mo ->
  issubclass ct (cls_of mo) CGenDatatype = false ->
  issubclass ct (cls_of mo) COptional = false ->
  has_default mo = false ->
  dict_get kv nm = None -> hasattr ct o ("set_" +:+ nm) = false ->
  exists missing,
    In missing (map fst (_fields ct (cls_of o)))
    /\ build ct root_path fs (S n) r (VDict kv) h
       = (raise ValidationError ("No setter or dict value found for " +:+ missing),
          <[r := set_built o]> h).
Proof.
  intros Hr Hb Hi Hu Hex Hin Hm Hgen Hopt Hdef Hkv Hset.
  set (h1 := <[r := set_built o]> h).
  assert (Hsame : forall i oi, h !! i = Some oi ->
            exists oi', h1 !! i = Some oi' /\ cls_of oi' = cls_of oi
                        /\ has_default oi' = has_default oi).
  { intros i oi Hi0. destruct (decide (i = r)) as [->|Hne].
    - exists (set_built o). split; [eapply lookup_insert_same; exact Hr|].
      assert (oi = o) by (unfold ref in *; congruence). subst oi. split; reflexivity.
    - exists oi. split; [|split; reflexivity].
      unfold h1. rewrite list_lookup_insert_ne by congruence. exact Hi0. }
  assert (Hex1 : Forall (fun f => exists mo, h1 !! snd f = Some mo) (_fields ct (cls_of o))).
  { eapply Forall_impl; [exact Hex|]. intros f [mf Hmf].
    destruct (Hsame _ _ Hmf) as (mf' & Hmf' & _). now exists mf'. }
  assert (Hfail : forall fields,
            Forall (fun f => exists mo, h1 !! snd f = Some mo) fields ->
            In (nm, m) fields ->
            Block_preflight ct h1 (set_built o) kv fields <> Ok tt).
  { induction fields as [|[nm0 m0] fields IH]; intros Hall Hin0; [destruct Hin0|].
    inversion Hall as [|? ? [mo0 Hmo0] Hrest]; subst. cbn [snd] in Hmo0.
    cbn [Block_preflight]. rewrite (lookup_ref_Some _ _ _ Hmo0). cbn [obind].
    destruct Hin0 as [Heq|Hin0].
    - injection Heq as -> ->.
      destruct (Hsame _ _ Hm) as (mo' & Hmo' & Hcls & Hd).
      assert (mo0 = mo') by (unfold ref in *; congruence). subst mo0.
      rewrite Hcls, Hd, Hgen, Hopt, Hdef, andb_false_r, Hkv. cbn [orb].
      change (hasattr ct (set_built o) ("set_" +:+ nm)) with (hasattr ct o ("set_" +:+ nm)).
      rewrite Hset. discriminate.
    - destruct (_ || _); [now apply IH|]. destruct (_ || _); [now apply IH|].
      discriminate. }
  destruct (Block_preflight_outcome h1 (set_built o) kv _ Hex1) as [Hok|(missing & Hmiss & Hraise)].
  - now destruct (Hfail _ Hex1 Hin).
  - exists missing. split; [exact Hmiss|].
    rewrite (build_unfold _ _ _ _ _ _ _ _ Hr Hi Hu).
    unfold _build, bind, reading.
    erewrite lookup_ref_Some by (eapply lookup_insert_same; exact Hr).
    cbn [body_of set_built]. rewrite Hb. unfold Block_preprocess.
    change (cls_of (set_built o)) with (cls_of o). fold h1. now rewrite Hraise.
Qed.

Lemma size_parentless_Align (k : nat) (h : heap) (m : ref) (mo : obj) (A : Z)
      (pad : option Z) :
  h !! m = Some mo -> body_of mo = BAlign A pad -> parent mo = None -> A <> 0 ->
  size ct (S k) h (Ref m) = Ok 0.
Proof.
  intros Hm Hb Hp HA. cbn [size]. unfold size_step, offset_with. cbn [deref].
  rewrite (lookup_ref_Some _ _ _ Hm). cbn [obind]. rewrite Hb, Hp. cbn [obind].
  destruct (Z.eqb_spec A 0); [contradiction|].
  rewrite Z.mod_0_l, Z.sub_0_r, Z.mod_same by exact HA. reflexivity.
Qed.

(** X14: [static_size] of a block class counts no padding: it asks the
    models in the class for their sizes, and an [Align] model, which has no
    parent, stands at offset 0 and so has size 0; the result is the sum of
    the sizes of the primitive fields, whatever padding an instance would
    hold between them. *)
Theorem static_size_counts_no_padding (k : nat) (h : heap) (c : cls) :
  Forall (fun f => exists mo, h !! snd f = Some mo
                     /\ match body_of mo with
                        | BPrim _ _ => True
                        | BAlign A _ => parent mo = None /\ A <> 0
                        | _ => False
                        end) (_fields ct c) ->
  Block_static_size ct (S k) h c
  = Ok (Zsum (map (fun f => primitive_size h (snd f)) (_fields ct c))).
Proof.
  unfold Block_static_size. induction (_fields ct c) as [|[nm m] fields IH]; intros Hall.
  - reflexivity.
  - inversion Hall as [|? ? (mo & Hmo & Hkind) Hrest]; subst. cbn [snd] in Hmo.
    cbn [map sum_sizes snd Zsum fold_right]. rewrite (IH Hrest).
    fold (Zsum (map (fun f => primitive_size h (snd f)) fields)).
    assert (Hsz : size ct (S k) h (Ref m) = Ok (primitive_size h m)).
    { unfold primitive_size. rewrite Hmo. cbn [fmap option_fmap option_map].
      destruct (body_of mo) as [p d| | | | | |A pad] eqn:Hb; try contradiction.
      - cbn [size]. unfold size_step. cbn [deref].
        rewrite (lookup_ref_Some _ _ _ Hmo). cbn [obind]. now rewrite Hb.
      - destruct Hkind as [Hp HA]. eapply size_parentless_Align; eauto. }
    rewrite Hsz. reflexivity.
Qed.

End BlockFacts2.

(** ** The root of a tree *)

Lemma root_walk_parentless (h : heap) :
  forall (depth : nat) (p r : handle),
    root_walk depth h p = Ok r -> exists o, deref h r = Ok o /\ parent o = None.
Proof.
  induction depth as [|depth IH]; intros p r; cbn [root_walk];
    destruct (deref h p) as [o| |] eqn:Hd; cbn [obind]; try discriminate;
    destruct (parent o) as [q|] eqn:Hp; try discriminate.
  - intros [= <-]. eauto.
  - apply IH.
  - intros [= <-]. eauto.
Qed.

(** X15: what [root_datum] returns has no parent, and is its own root. *)
Theorem root_datum_has_no_parent (depth : nat) (h : heap) (x r : handle) :
  root_datum depth h x = Ok r ->
  (exists o, deref h r = Ok o /\ parent o = None)
  /\ forall depth', root_datum depth' h r = Ok r.
Proof.
  intros Hroot.
  assert (Hr : exists o, deref h r = Ok o /\ parent o = None).
  { unfold root_datum in Hroot.
    destruct (deref h x) as [o| |] eqn:Hd; cbn [obind] in Hroot; try discriminate.
    destruct (parent o) as [q|] eqn:Hp.
    - eapply root_walk_parentless; eauto.
    - injection Hroot as <-. eauto. }
  split; [exact Hr|]. destruct Hr as (o & Hd & Hp). intros depth'.
  unfold root_datum. rewrite Hd. cbn [obind]. now rewrite Hp.
Qed.

Lemma block_rejects_a_missing_field_witness :
  exists missing,
    In missing (map fst (_fields Nested.classes Nested.Root))
    /\ build Nested.classes None no_files 1 NestedInstance.root (VDict [("a", VInt 1)])
             NestedInstance.store
       = (raise ValidationError ("No setter or dict value found for " +:+ missing),
          <[NestedInstance.root
            := set_built (obj_at NestedInstance.store NestedInstance.root)]>
            NestedInstance.store).
Proof.
  assert (Hex : Forall (fun f => exists mo, NestedInstance.store !! snd f = Some mo)
                  (_fields Nested.classes Nested.Root)).
  { apply List.Forall_forall. intros f Hin. vm_compute in Hin.
    destruct Hin as [<-|[<-|[]]];
      [exists (obj_at NestedInstance.store 3%nat)
      |exists (obj_at NestedInstance.store 4%nat)]; vm_compute; reflexivity. }
  assert (Hin : In ("inner", 4%nat) (_fields Nested.classes Nested.Root))
    by (vm_compute; auto).
  exact (block_rejects_a_missing_field Nested.classes None no_files 0
           NestedInstance.store NestedInstance.root
           (obj_at NestedInstance.store NestedInstance.root)
           [("a", 9%nat); ("inner", 10%nat)] [("a", VInt 1)] "inner" 4%nat
           (obj_at NestedInstance.store 4%nat)
           eq_refl eq_refl eq_refl eq_refl Hex Hin eq_refl eq_refl eq_refl eq_refl
           eq_refl eq_refl).
Defined.

Lemma static_size_counts_no_padding_witness :
  Block_static_size Nested.classes 1 Nested.schema Nested.Inner = Ok 2
  /\ size Nested.classes 4 Nested.store Nested.inner = Ok 5.
Proof.
  assert (Hall : Forall (fun f => exists mo, Nested.schema !! snd f = Some mo
                           /\ match body_of mo with
                              | BPrim _ _ => True
                              | BAlign A _ => parent mo = None /\ A <> 0
                              | _ => False
                              end) (_fields Nested.classes Nested.Inner)).
  { apply List.Forall_forall. intros f Hin. vm_compute in Hin.
    destruct Hin as [<-|[<-|[<-|[]]]];
      [exists (obj_at Nested.schema 0%nat)
      |exists (obj_at Nested.schema 1%nat)
      |exists (obj_at Nested.schema 2%nat)];
      (split; [vm_compute; reflexivity|]); vm_compute; auto.
    split; [reflexivity|discriminate]. }
  split; [|vm_compute; reflexivity].
  exact (static_size_counts_no_padding Nested.classes 0 Nested.schema Nested.Inner Hall).
Defined.

Lemma root_datum_has_no_parent_witness :
  exists o, deref Nested.store (Ref Nested.root) = Ok o /\ parent o = None.
Proof.
  assert (Hroot : root_datum 5 Nested.store Nested.y = Ok (Ref Nested.root))
    by (vm_compute; reflexivity).
  exact (proj1 (root_datum_has_no_parent 5 Nested.store Nested.y (Ref Nested.root) Hroot)).
Defined.

(** ** A record of integers *)





Section RecordOfIntegers.

Variable ct : class_table.
Variable root_path : option string.
Variable fs : string -> option (list byte).











End RecordOfIntegers.


Lemma offset_locates_the_bytes_witness :
  exists pre bx post,
    [x02; x00; x00; x00; x03] = pre ++ bx ++ post
    /\ get_bytes Nested.classes 3 Nested.store (Ref Nested.y_ref) = Ok bx
    /\ Z.of_nat (length pre) = 4.
Proof.
  assert (Hbytes : get_bytes Nested.classes 4 Nested.store Nested.inner
                   = Ok [x02; x00; x00; x00; x03]) by (vm_compute; reflexivity).
  assert (Hoff : offset Nested.classes 4 Nested.store (Ref Nested.y_ref) = Ok 4)
    by (vm_compute; reflexivity).
  exact (offset_locates_the_bytes Nested.classes Nested.store nested_store_settled
           3 4 Nested.y_ref (obj_at Nested.store Nested.y_ref) Nested.inner
           [x02; x00; x00; x00; x03] 4 eq_refl eq_refl Hbytes Hoff).
Defined.

(** ** Errors inside an array *)

Section ArrayErrors.

Variable ct : class_table.
Variable root_path : option string.
Variable fs : string -> option (list byte).

Lemma build_primitive_out_of_range (n : nat) (g : heap) (r : ref) (o : obj) (p : prim)
      (d0 : option Z) (v : Z) :
  g !! r = Some o -> body_of o = BPrim p d0 ->
  _is_instance o = true -> _is_built o = false ->
  v < _min p \/ _max p < v ->
  build ct root_path fs (S n) r (VInt v) g
  = (raise ValidationError
       ("Value " +:+ pretty v +:+ " outside of " +:+ type_name ct (cls_of o)
        +:+ " range, must be " +:+ pretty (_min p) +:+ " to " +:+ pretty (_max p)),
     <[r := set_built o]> g).
Proof.
  intros Hr Hb Hi Hu Hv.
  rewrite (build_unfold _ _ _ _ _ _ _ _ Hr Hi Hu).
  unfold _build, bind, reading.
  erewrite lookup_ref_Some by (eapply lookup_insert_same; exact Hr).
  cbn [body_of set_built cls_of]. rewrite Hb. unfold Primitive_preprocess.
  destruct (Z.ltb_spec v (_min p)); [reflexivity|].
  destruct (Z.ltb_spec (_max p) v); [reflexivity|lia].
Qed.

(** The loop of [Array._process] up to the first integer out of range: the
    elements before it are built, and the error leaves with a note that
    holds its index. *)
Lemma Array_process_loop_fails (n : nat) (a m : ref) (oa mo : obj) (p : prim)
      (d0 : option Z) (elem : string) (bad : Z) (rest : list any) :
  body_of mo = BPrim p d0 -> _is_built mo = false ->
  bad < _min p \/ _max p < bad ->
  forall (good : list Z) (g : heap) (i : nat) (items : list ref),
    g !! a = Some oa -> g !! m = Some mo ->
    Forall (fun v => _min p <= v <= _max p) good ->
    exists g',
      Array_process_loop ct (build ct root_path fs (S n)) a m elem
                         (map VInt good ++ VInt bad :: rest) i items g
      = (Raise (mk_exn ValidationError
                  ("Value " +:+ pretty bad +:+ " outside of " +:+ type_name ct (cls_of mo)
                   +:+ " range, must be " +:+ pretty (_min p) +:+ " to "
                   +:+ pretty (_max p))
                  ["Array[" +:+ elem +:+ "] -> (element "
                   +:+ pretty (i + length good)%nat +:+ ")"]),
         g')
      /\ length g' = (length g + length good + 1)%nat.
Proof.
  intros Hbm Hum Hbad. induction good as [|v good IH]; intros g i items Ha Hm Hgood.
  - destruct (instantiate_under_parent g m mo a oa Hm Hum Ha)
      as (oi & Hinst & Hii & Hiu & Hib & Hic & _).
    assert (Hat : (g ++ [oi]) !! length g = Some oi)
      by (apply lookup_snoc_Some; right; auto).
    rewrite Hbm in Hib.
    pose proof (build_primitive_out_of_range n _ _ _ _ _ bad Hat Hib Hii Hiu Hbad)
      as Hbuild.
    rewrite Hic in Hbuild. eexists. split.
    + cbn [map app Array_process_loop]. unfold data_isinstance, bind, reading, annotate.
      cbn [_unpack_type _is_packed_type negb fst snd].
      rewrite Hinst. cbn [fst snd]. unfold ref in *. rewrite Hbuild.
      unfold raise, add_note. cbn [kind message notes app length].
      rewrite Nat.add_0_r. reflexivity.
    + rewrite length_insert, length_app. cbn [length]. lia.
  - inversion Hgood as [|? ? Hv Hrest]; subst.
    destruct (instantiate_under_parent g m mo a oa Hm Hum Ha)
      as (oi & Hinst & Hii & Hiu & Hib & _).
    assert (Hat : (g ++ [oi]) !! length g = Some oi)
      by (apply lookup_snoc_Some; right; auto).
    rewrite Hbm in Hib.
    pose proof (build_primitive_in_range ct root_path fs n _ _ _ _ _ v
                  Hat Hib Hii Hiu Hv) as Hbuild.
    set (ob := set_body (BPrim p (Some v)) (set_built oi)) in *.
    assert (Hins : <[length g := ob]> (g ++ [oi]) = g ++ [ob]).
    { rewrite insert_app_r_alt by lia. now rewrite Nat.sub_diag. }
    unfold ref in Hbuild. rewrite Hins in Hbuild.
    destruct (IH (g ++ [ob]) (S i) (items ++ [length g])) as (g' & Hloop & Hlen).
    { now apply lookup_app_l_Some. }
    { now apply lookup_app_l_Some. }
    { exact Hrest. }
    exists g'. split.
    + cbn [map app Array_process_loop]. unfold data_isinstance, bind, reading, annotate.
      cbn [_unpack_type _is_packed_type negb fst snd].
      rewrite Hinst. cbn [fst snd]. rewrite Hbuild. cbn [fst snd].
      unfold ref in *. rewrite Hloop. cbn [length].
      now rewrite Nat.add_succ_r.
    + rewrite Hlen, length_app. cbn [length]. lia.
Qed.

(** X18: when an [Array] of a primitive meets an integer outside the range
    of the primitive, the build fails with the validation error of that
    element, and the error carries one note, which names the array and the
    index of the element. *)
Theorem array_error_names_the_element
  (n : nat) (h : heap) (a : ref) (o : obj) (m : ref) (mo : obj) (p : prim)
  (d0 : option Z) (count : option Z) (d : any) (good : list Z) (bad : Z)
  (rest : list any) :
  h !! a = Some o -> body_of o = BArray (Some m) count [] ->
  _is_instance o = true -> _is_built o = false ->
  h !! m = Some mo -> body_of mo = BPrim p d0 -> _is_built mo = false ->
  as_sequence d = Some (map VInt good ++ VInt bad :: rest) ->
  Forall (fun v => _min p <= v <= _max p) good ->
  bad < _min p \/ _max p < bad ->
  count = None
  \/ count = Some (Z.of_nat (length (map VInt good ++ VInt bad :: rest))) ->
  exists h',
    build ct root_path fs (S (S n)) a d h
    = (Raise (mk_exn ValidationError
                ("Value " +:+ pretty bad +:+ " outside of " +:+ type_name ct (cls_of mo)
                 +:+ " range, must be " +:+ pretty (_min p) +:+ " to "
                 +:+ pretty (_max p))
                ["Array[" +:+ type_name ct (cls_of mo) +:+ "] -> (element "
                 +:+ pretty (length good) +:+ ")"]),
       h').
Proof.
  intros Ha Hb Hi Hu Hm Hbm Hum Hseq Hgood Hbad Hcount.
  assert (Hne : a <> m) by (intros ->; congruence).
  set (xs := map VInt good ++ VInt bad :: rest) in *.
  set (o1 := set_built o). set (h1 := <[a := o1]> h).
  assert (Ha1 : h1 !! a = Some o1) by (eapply lookup_insert_same; exact Ha).
  assert (Hm1 : h1 !! m = Some mo).
  { unfold h1. now rewrite list_lookup_insert_ne. }
  assert (Hpre : exists h2 o2,
            Array_preprocess ct a d h1 = (Ok xs, h2)
            /\ h2 !! a = Some o2 /\ h2 !! m = Some mo
            /\ body_of o2 = BArray (Some m) (Some (Z.of_nat (length xs))) []
            /\ length h2 = length h).
  { rewrite (Array_preprocess_with_model ct a d xs h1 o1 m count [] Ha1 Hb Hseq).
    destruct Hcount as [-> | ->].
    - eexists _, _. split; [reflexivity|].
      split; [eapply lookup_insert_same; exact Ha1|].
      split; [now rewrite list_lookup_insert_ne|].
      split; [reflexivity|]. unfold h1. now rewrite !length_insert.
    - destruct (Z.ltb_spec (Z.of_nat (length xs)) 0); [lia|].
      rewrite Z.eqb_refl. cbn [negb]. exists h1, o1.
      split; [reflexivity|]. split; [exact Ha1|]. split; [exact Hm1|].
      split; [exact Hb|]. unfold h1. now rewrite length_insert. }
  destruct Hpre as (h2 & o2 & Hpre & Ha2 & Hm2 & Hb2 & Hlen2).
  destruct (Array_process_loop_fails n a m o2 mo p d0 (type_name ct (cls_of mo)) bad rest
              Hbm Hum Hbad good h2 0%nat [] Ha2 Hm2 Hgood) as (g' & Hloop & Hlen).
  exists g'.
  rewrite (build_Array_unfold ct root_path fs (S n) h a o d (Some m) count []
             Ha Hb Hi Hu).
  fold o1. fold h1. unfold bind at 1. rewrite Hpre.
  unfold Array_process, bind, reading.
  rewrite (lookup_ref_Some _ _ _ Ha2), Hb2, (lookup_ref_Some _ _ _ Hm2).
  cbn [obind]. fold xs in Hloop. rewrite Hloop. reflexivity.
Qed.

End ArrayErrors.

Lemma array_error_names_the_element_witness :
  exists h',
    build Tables.classes None no_files 2 Tables.words
          (VList [VInt 1; VInt 70000; VStr "x"]) Tables.store
    = (Raise (mk_exn ValidationError "Value 70000 outside of U16 range, must be 0 to 65535"
                ["Array[U16] -> (element 1)"]),
       h').
Proof.
  assert (Hgood : Forall (fun v => _min U16 <= v <= _max U16) [1])
    by (repeat (constructor; [vm_compute; split; discriminate|]); constructor).
  assert (Hbad : 70000 < _min U16 \/ _max U16 < 70000) by (right; reflexivity).
  exact (array_error_names_the_element Tables.classes None no_files 0 Tables.store
           Tables.words (obj_at Tables.store Tables.words) 0%nat
           (obj_at Tables.store 0%nat) U16 None (Some 3)
           (VList [VInt 1; VInt 70000; VStr "x"]) [1] 70000 [VStr "x"]
           eq_refl eq_refl eq_refl eq_refl eq_refl eq_refl eq_refl eq_refl
           Hgood Hbad (or_intror eq_refl)).
Defined.

(** ** What the padding achieves *)

Section AlignmentFacts.

Variable ct : class_table.

Lemma pad_is_least (A O : Z) :
  0 < A ->
  let s := (A - O mod A) mod A in
  (O + s) mod A = 0 /\ 0 <= s < A
  /\ forall t, 0 <= t < s -> (O + t) mod A <> 0.
Proof.
  intros HA s.
  pose proof (Z.mod_pos_bound O A HA) as Hq.
  assert (Hshift : forall t, (O + t) mod A = (O mod A + t) mod A)
    by (intros t; now rewrite Z.add_mod_idemp_l by lia).
  destruct (Z.eq_dec (O mod A) 0) as [Hz|Hnz].
  - assert (Hs : s = 0) by (unfold s; rewrite Hz, Z.sub_0_r; apply Z.mod_same; lia).
    rewrite Hs. split; [|split; [lia|intros t Ht; lia]].
    now rewrite Z.add_0_r.
  - assert (Hs : s = A - O mod A) by (unfold s; apply Z.mod_small; lia).
    rewrite Hs. split; [|split; [lia|]].
    + rewrite Hshift. replace (O mod A + (A - O mod A)) with A by lia.
      apply Z.mod_same. lia.
    + intros t Ht. rewrite Hshift, Z.mod_small by lia. lia.
Qed.

(** X19: the padding does align: for an [Align(A)] with [A > 0] that
    stands at offset [O] in its parent and has size [s], the data after it
    stand at [O + s], a multiple of [A]; [s] is less than [A], and no
    smaller padding would reach a multiple of [A]. *)
Theorem align_pads_to_the_next_multiple
  (k : nat) (h : heap) (r : ref) (o : obj) (A : Z) (pad : option Z) (O s : Z) :
  h !! r = Some o -> body_of o = BAlign A pad -> 0 < A ->
  offset ct k h (Ref r) = Ok O -> size ct (S k) h (Ref r) = Ok s ->
  (O + s) mod A = 0 /\ 0 <= s < A
  /\ forall t, 0 <= t < s -> (O + t) mod A <> 0.
Proof.
  intros Hr Hb HA Hoff Hsize.
  rewrite (size_Align ct k h r o A pad Hr Hb), Hoff in Hsize. cbn [obind] in Hsize.
  destruct (Z.eqb_spec A 0); [lia|]. injection Hsize as <-.
  now apply pad_is_least.
Qed.

End AlignmentFacts.

Lemma align_pads_to_the_next_multiple_witness :
  (1 + 3) mod 4 = 0 /\ 0 <= 3 < 4 /\ forall t, 0 <= t < 3 -> (1 + t) mod 4 <> 0.
Proof.
  assert (Hoff : offset Nested.classes 2 Nested.store Nested.pad = Ok 1)
    by (vm_compute; reflexivity).
  assert (Hsize : size Nested.classes 3 Nested.store Nested.pad = Ok 3)
    by (vm_compute; reflexivity).
  exact (align_pads_to_the_next_multiple Nested.classes 2 Nested.store 15%nat
           (obj_at Nested.store 15%nat) 4 (Some 3) 1 3
           eq_refl eq_refl eq_refl Hoff Hsize).
Defined.

(** ** Setters *)

Section SetterFacts.

Variable ct : class_table.
Variable root_path : option string.
Variable fs : string -> option (list byte).


End SetterFacts.

